(** * Authentication core of the multi-tenant identity service

    A shallow embedding of [AuthService] (both the Prisma-based and the
    TypeORM-based revision of [auth.service.ts]), of the repositories it
    calls ([RefreshTokenRepository], [UserRepository],
    [InvitationRepository]) and of the relational store underneath them.

    - Rows and tables are records and lists, in storage order.
    - Every [await]ed store call may fail: with a constraint error decided
      by the data, or with a connection error decided by the fault oracle
      carried in the world.
    - Exceptions are the [Err] results of a small state-and-error monad;
      a write that was done before an exception stays done unless a
      transaction rolls it back.
    - The three external libraries (jsonwebtoken through [JwtService],
      bcrypt, node's crypto) are a record of functions, [Libs]. *)

From Stdlib Require Import String Ascii List ZArith Bool Lia DecimalString Permutation.
Import ListNotations.

Local Open Scope string_scope.
Local Open Scope Z_scope.

(** ** Data model (the Prisma schema / the TypeORM entities) *)

Inductive TenantRole : Type := OWNER | ADMIN | MEMBER.

Record User : Type := mkUser {
  u_id : string;
  u_email : string;
  u_password : string;
  u_firstName : option string;
  u_lastName : option string;
  u_createdAt : Z }.

Record Tenant : Type := mkTenant {
  t_id : string;
  t_name : string;
  t_slug : string;
  t_createdAt : Z }.

Record TenantUser : Type := mkTenantUser {
  tu_userId : string;
  tu_tenantId : string;
  tu_role : TenantRole;
  tu_createdAt : Z }.

Record RefreshToken : Type := mkRefreshToken {
  rt_id : string;
  rt_userId : string;
  rt_token : string;
  rt_expiresAt : Z;
  rt_revoked : bool }.

Record Invitation : Type := mkInvitation {
  inv_id : string;
  inv_email : string;
  inv_token : string;
  inv_role : TenantRole;
  inv_expiresAt : Z;
  inv_accepted : bool;
  inv_tenantId : string;
  inv_invitedBy : string }.

(** The database: one list of rows per table, in storage order. *)
Record DB : Type := mkDB {
  users : list User;
  tenants : list Tenant;
  tenantUsers : list TenantUser;
  refreshTokens : list RefreshToken;
  invitations : list Invitation }.

Definition set_users (d : DB) (x : list User) : DB :=
  mkDB x (tenants d) (tenantUsers d) (refreshTokens d) (invitations d).
Definition set_tenants (d : DB) (x : list Tenant) : DB :=
  mkDB (users d) x (tenantUsers d) (refreshTokens d) (invitations d).
Definition set_tenantUsers (d : DB) (x : list TenantUser) : DB :=
  mkDB (users d) (tenants d) x (refreshTokens d) (invitations d).
Definition set_refreshTokens (d : DB) (x : list RefreshToken) : DB :=
  mkDB (users d) (tenants d) (tenantUsers d) x (invitations d).
Definition set_invitations (d : DB) (x : list Invitation) : DB :=
  mkDB (users d) (tenants d) (tenantUsers d) (refreshTokens d) x.

(** ** Exceptions *)

Inductive DbError : Type :=
| UniqueConstraintViolation
| ForeignKeyViolation
| RecordNotFound
| ConnectionError.

Inductive Exn : Type :=
| AuthInvalidCredentialsException
| AuthUserHasNoTenantsException
| AuthInvalidRefreshTokenException
| AuthUserAlreadyExistsException (email : string)
| AuthPasswordRequiredException
| AuthTenantNotFoundException (tenantId : string)
| InvitationNotFoundException (token : string)
| InvitationAlreadyAcceptedException
| InvitationExpiredException
| DatabaseError (e : DbError)
| JsonWebTokenError
| TypeError.

Inductive Result (A : Type) : Type :=
| Ok (a : A)
| Err (e : Exn).
Arguments Ok {A} a.
Arguments Err {A} e.

(** ** The world and the monad of the service

    [faults] is the oracle of infrastructure failures: every store call
    consumes its head, and fails with [ConnectionError] when it is
    [true]. An empty oracle means no failure. *)

Record World : Type := mkWorld {
  db : DB;
  faults : list bool }.

Definition M (A : Type) : Type := World -> Result A * World.

Definition ret {A : Type} (a : A) : M A := fun w => (Ok a, w).

Definition throw {A : Type} (e : Exn) : M A := fun w => (Err e, w).

Definition bind {A B : Type} (m : M A) (k : A -> M B) : M B :=
  fun w =>
    match m w with
    | (Ok a, w') => k a w'
    | (Err e, w') => (Err e, w')
    end.

Notation "x <- m ;; k" := (bind m (fun x => k))
  (at level 61, m at next level, right associativity).
Notation "' pat <- m ;; k" := (bind m (fun x => match x with pat => k end))
  (at level 61, pat pattern, m at next level, right associativity).

(** [try { m } catch (error) { h error }] *)
Definition try_catch {A : Type} (m : M A) (h : Exn -> M A) : M A :=
  fun w =>
    match m w with
    | (Ok a, w') => (Ok a, w')
    | (Err e, w') => h e w'
    end.

(** [prisma.$transaction(...)] and [dataSource.transaction(...)]: when the
    body throws, every write of the body is rolled back and the exception
    is thrown again. The fault oracle is not part of the database. *)
Definition transaction {A : Type} (body : M A) : M A :=
  fun w =>
    match body w with
    | (Ok a, w') => (Ok a, w')
    | (Err e, w') => (Err e, mkWorld (db w) (faults w'))
    end.

(** A query is what the database engine does with one statement. *)
Definition Query (A : Type) : Type := DB -> DbError + (A * DB).

(** One awaited store call. *)
Definition store {A : Type} (q : Query A) : M A :=
  fun w =>
    if hd false (faults w)
    then (Err (DatabaseError ConnectionError), mkWorld (db w) (tl (faults w)))
    else
      match q (db w) with
      | inl e => (Err (DatabaseError e), mkWorld (db w) (tl (faults w)))
      | inr (a, d) => (Ok a, mkWorld d (tl (faults w)))
      end.

(** [COMMIT], a round trip of its own. *)
Definition commit : M unit := store (fun d => inr (tt, d)).

(** [dataSource.transaction(async (manager) => { ... })] with a callback
    that sends statements through [manager] and also through a
    repository of the data source. The statements of [manager] run in
    the transaction, which ends with COMMIT; a statement of the
    repository runs on a connection of its own and is committed when it
    returns. When the callback throws or COMMIT fails, the writes of
    [manager] are rolled back and those of the repository stay:
    [beside d d'] is the database [d] of BEGIN with the tables the
    repository wrote taken from [d']. In a transaction that sends every
    statement through the transaction ([transaction] above) a failed
    COMMIT is one more failure after which everything is rolled back. *)
Definition transaction_beside {A : Type} (beside : DB -> DB -> DB) (body : M A)
    : M A :=
  fun w =>
    match (a <- body ;; _ <- commit ;; ret a) w with
    | (Ok a, w') => (Ok a, w')
    | (Err e, w') => (Err e, mkWorld (beside (db w) (db w')) (faults w'))
    end.

(** ** What an operation reads from its environment

    The clock, the uuids the database generates for new rows, bcrypt's
    salt and [Math.random]. An operation is short: every [new Date()] of
    one call reads the same [now]. *)
Record Env : Type := mkEnv {
  now : Z;
  uuid_user : string;
  uuid_tenant : string;
  uuid_token : string;
  salt : string;
  random : string }.

(** ** Configuration ([ConfigService]) *)
Record Config : Type := mkConfig {
  jwt_secret : option string;
  jwt_expiresIn : option string;
  jwt_refreshSecret : option string;
  jwt_refreshExpiresIn : option string }.

(** ** External libraries *)

Record JwtPayload : Type := mkJwtPayload {
  sub : string;
  tenantId : string }.

Record SignOptions : Type := mkSignOptions {
  so_secret : option string;
  so_expiresIn : option string }.

Record Libs : Type := mkLibs {
  (** [crypto.createHash('sha256').update(s).digest('hex')] *)
  sha256_hex : string -> string;
  (** [bcrypt.hash(data, rounds)], with the salt it draws *)
  bcrypt_hash : string -> nat -> string -> string;
  (** [bcrypt.compare(data, encrypted)] *)
  bcrypt_compare : string -> string -> bool;
  (** [jwtService.signAsync(payload, options)] at a time; [None] when it
      rejects *)
  jwt_signAsync : JwtPayload -> SignOptions -> Z -> option string;
  (** [jwtService.verify(token, { secret })] at a time; [None] when it
      throws *)
  jwt_verify : string -> option string -> Z -> option JwtPayload }.

(** JavaScript truthiness of an optional string, and [a || b]. *)
Definition truthy (s : option string) : bool :=
  match s with
  | Some s => negb (String.eqb s "")
  | None => false
  end.

Definition or_else (s : option string) (d : string) : string :=
  match s with
  | Some s => if String.eqb s "" then d else s
  | None => d
  end.

(** The string of a field that was just tested truthy. *)
Definition the (s : option string) : string :=
  match s with
  | Some s => s
  | None => ""
  end.

(** ** The relational store

    What PostgreSQL does with each statement the ORM sends: primary keys,
    unique columns, foreign keys and cascading deletes as the schema
    declares them. Without an [orderBy] a [findMany] answers in storage
    order, which is whatever order the rows happen to be kept in. An
    insert below puts the new row last, which is one of the places the
    engine may choose; the lookups after [addUserToTenant] and after
    [InvitationRepository.create] are stated for every order of the
    rows. *)
Module Store.

Definition pure {A : Type} (a : A) : Query A := fun d => inr (a, d).

  (** *** users *)

Definition user_findUnique_id (id : string) : Query (option User) :=
    fun d => inr (find (fun u => String.eqb (u_id u) id) (users d), d).

Definition user_findUnique_email (email : string) : Query (option User) :=
    fun d => inr (find (fun u => String.eqb (u_email u) email) (users d), d).

Definition user_create (id : string) (createdAt : Z) (email password : string)
      (firstName lastName : option string) : Query User :=
    fun d =>
      if existsb (fun u => String.eqb (u_id u) id || String.eqb (u_email u) email)
           (users d)
      then inl UniqueConstraintViolation
      else
        let u := mkUser id email password firstName lastName createdAt in
        inr (u, set_users d (users d ++ [u])).

  (** [onDelete: Cascade] on memberships, refresh tokens and the
      invitations the user sent. *)
Definition user_delete (id : string) : Query unit :=
    fun d =>
      if existsb (fun u => String.eqb (u_id u) id) (users d)
      then inr (tt,
        mkDB (filter (fun u => negb (String.eqb (u_id u) id)) (users d))
             (tenants d)
             (filter (fun m => negb (String.eqb (tu_userId m) id)) (tenantUsers d))
             (filter (fun r => negb (String.eqb (rt_userId r) id)) (refreshTokens d))
             (filter (fun i => negb (String.eqb (inv_invitedBy i) id)) (invitations d)))
      else inl RecordNotFound.

  (** *** tenants *)

Definition tenant_findUnique_id (id : string) : Query (option Tenant) :=
    fun d => inr (find (fun t => String.eqb (t_id t) id) (tenants d), d).

Definition tenant_create (id : string) (createdAt : Z) (name slug : string)
      : Query Tenant :=
    fun d =>
      if existsb (fun t => String.eqb (t_id t) id || String.eqb (t_slug t) slug)
           (tenants d)
      then inl UniqueConstraintViolation
      else
        let t := mkTenant id name slug createdAt in
        inr (t, set_tenants d (tenants d ++ [t])).

  (** [onDelete: Cascade] on memberships and invitations. *)
Definition tenant_delete (id : string) : Query unit :=
    fun d =>
      if existsb (fun t => String.eqb (t_id t) id) (tenants d)
      then inr (tt,
        mkDB (users d)
             (filter (fun t => negb (String.eqb (t_id t) id)) (tenants d))
             (filter (fun m => negb (String.eqb (tu_tenantId m) id)) (tenantUsers d))
             (refreshTokens d)
             (filter (fun i => negb (String.eqb (inv_tenantId i) id)) (invitations d)))
      else inl RecordNotFound.

  (** *** tenant_users, primary key (userId, tenantId) *)

Definition is_member (userId tenantId : string) (m : TenantUser) : bool :=
    String.eqb (tu_userId m) userId && String.eqb (tu_tenantId m) tenantId.

Definition tenantUser_findUnique (userId tenantId : string)
      : Query (option TenantUser) :=
    fun d => inr (find (is_member userId tenantId) (tenantUsers d), d).

  (** [findMany({ where: { userId } })], no [orderBy]. *)
Definition tenantUser_findMany (userId : string) : Query (list TenantUser) :=
    fun d =>
      inr (filter (fun m => String.eqb (tu_userId m) userId) (tenantUsers d), d).

Fixpoint insert_by_createdAt (x : TenantUser) (l : list TenantUser)
      : list TenantUser :=
    match l with
    | [] => [x]
    | y :: l' =>
        if tu_createdAt x <=? tu_createdAt y then x :: y :: l'
        else y :: insert_by_createdAt x l'
    end.

Definition orderBy_createdAt_asc (l : list TenantUser) : list TenantUser :=
    fold_right insert_by_createdAt [] l.

  (** The relation [tenant] of a membership row, as a join loads it. *)
Definition with_tenant (d : DB) (m : TenantUser) : TenantUser * option Tenant :=
    (m, find (fun t => String.eqb (t_id t) (tu_tenantId m)) (tenants d)).

  (** [find({ where: { userId }, relations: ['tenant'],
             order: { createdAt: 'ASC' } })] *)
Definition tenantUser_find_ordered (userId : string)
      : Query (list (TenantUser * option Tenant)) :=
    fun d =>
      inr (map (with_tenant d)
             (orderBy_createdAt_asc
                (filter (fun m => String.eqb (tu_userId m) userId) (tenantUsers d))),
           d).

Definition tenantUser_create (createdAt : Z) (userId tenantId : string)
      (role : TenantRole) : Query TenantUser :=
    fun d =>
      if existsb (is_member userId tenantId) (tenantUsers d)
      then inl UniqueConstraintViolation
      else if negb (existsb (fun u => String.eqb (u_id u) userId) (users d))
      then inl ForeignKeyViolation
      else if negb (existsb (fun t => String.eqb (t_id t) tenantId) (tenants d))
      then inl ForeignKeyViolation
      else
        let m := mkTenantUser userId tenantId role createdAt in
        inr (m, set_tenantUsers d (tenantUsers d ++ [m])).

Definition set_role (role : TenantRole) (m : TenantUser) : TenantUser :=
    mkTenantUser (tu_userId m) (tu_tenantId m) role (tu_createdAt m).

Definition tenantUser_update_role (userId tenantId : string) (role : TenantRole)
      : Query TenantUser :=
    fun d =>
      match find (is_member userId tenantId) (tenantUsers d) with
      | None => inl RecordNotFound
      | Some m0 =>
          inr (set_role role m0,
               set_tenantUsers d
                 (map (fun m => if is_member userId tenantId m
                                then set_role role m else m)
                    (tenantUsers d)))
      end.

  (** [upsert({ where: { userId_tenantId }, update: { role }, create })] *)
Definition tenantUser_upsert (createdAt : Z) (userId tenantId : string)
      (role : TenantRole) : Query TenantUser :=
    fun d =>
      if existsb (is_member userId tenantId) (tenantUsers d)
      then tenantUser_update_role userId tenantId role d
      else tenantUser_create createdAt userId tenantId role d.

Definition tenantUser_delete (userId tenantId : string) : Query unit :=
    fun d =>
      if existsb (is_member userId tenantId) (tenantUsers d)
      then inr (tt, set_tenantUsers d
                      (filter (fun m => negb (is_member userId tenantId m))
                         (tenantUsers d)))
      else inl RecordNotFound.

  (** *** invitations *)

Definition invitation_findUnique_token (token : string)
      : Query (option Invitation) :=
    fun d => inr (find (fun i => String.eqb (inv_token i) token) (invitations d), d).

Definition invitation_create (id : string) (email token : string)
      (role : TenantRole) (expiresAt : Z) (tenantId invitedBy : string)
      : Query Invitation :=
    fun d =>
      if existsb (fun i => String.eqb (inv_id i) id || String.eqb (inv_token i) token)
           (invitations d)
      then inl UniqueConstraintViolation
      else if negb (existsb (fun t => String.eqb (t_id t) tenantId) (tenants d))
      then inl ForeignKeyViolation
      else if negb (existsb (fun u => String.eqb (u_id u) invitedBy) (users d))
      then inl ForeignKeyViolation
      else
        let i := mkInvitation id email token role expiresAt false tenantId invitedBy in
        inr (i, set_invitations d (invitations d ++ [i])).

Definition set_accepted (i : Invitation) : Invitation :=
    mkInvitation (inv_id i) (inv_email i) (inv_token i) (inv_role i)
      (inv_expiresAt i) true (inv_tenantId i) (inv_invitedBy i).

  (** [update({ where: { id }, data: { accepted: true } })] *)
Definition invitation_update_accepted (id : string) : Query unit :=
    fun d =>
      if existsb (fun i => String.eqb (inv_id i) id) (invitations d)
      then inr (tt, set_invitations d
                      (map (fun i => if String.eqb (inv_id i) id
                                     then set_accepted i else i)
                         (invitations d)))
      else inl RecordNotFound.

Definition invitation_delete (id : string) : Query unit :=
    fun d =>
      if existsb (fun i => String.eqb (inv_id i) id) (invitations d)
      then inr (tt, set_invitations d
                      (filter (fun i => negb (String.eqb (inv_id i) id))
                         (invitations d)))
      else inl RecordNotFound.

  (** *** refresh_tokens, [token] unique *)

Definition refreshToken_create (id userId token : string) (expiresAt : Z)
      : Query RefreshToken :=
    fun d =>
      if existsb (fun r => String.eqb (rt_id r) id || String.eqb (rt_token r) token)
           (refreshTokens d)
      then inl UniqueConstraintViolation
      else if negb (existsb (fun u => String.eqb (u_id u) userId) (users d))
      then inl ForeignKeyViolation
      else
        let r := mkRefreshToken id userId token expiresAt false in
        inr (r, set_refreshTokens d (refreshTokens d ++ [r])).

Definition refreshToken_findUnique_token (token : string)
      : Query (option RefreshToken) :=
    fun d => inr (find (fun r => String.eqb (rt_token r) token) (refreshTokens d), d).

Definition set_revoked (r : RefreshToken) : RefreshToken :=
    mkRefreshToken (rt_id r) (rt_userId r) (rt_token r) (rt_expiresAt r) true.

  (** [update({ where: { token }, data: { revoked: true } })] *)
Definition refreshToken_update_revoked (token : string) : Query unit :=
    fun d =>
      if existsb (fun r => String.eqb (rt_token r) token) (refreshTokens d)
      then inr (tt, set_refreshTokens d
                      (map (fun r => if String.eqb (rt_token r) token
                                     then set_revoked r else r)
                         (refreshTokens d)))
      else inl RecordNotFound.

  (** [updateMany({ where: { userId }, data: { revoked: true } })] *)
Definition refreshToken_updateMany_revoked (userId : string) : Query unit :=
    fun d =>
      inr (tt, set_refreshTokens d
                 (map (fun r => if String.eqb (rt_userId r) userId
                                then set_revoked r else r)
                    (refreshTokens d))).

  (** [deleteMany({ where: { expiresAt: { lt: now } } })], the count *)
Definition refreshToken_deleteMany_expired (now : Z) : Query nat :=
    fun d =>
      inr (length (filter (fun r => rt_expiresAt r <? now) (refreshTokens d)),
           set_refreshTokens d
             (filter (fun r => negb (rt_expiresAt r <? now)) (refreshTokens d))).

  (** *** relations loaded with a user: [include: { tenantUsers: { include:
      { tenant: true } } }] *)

Definition user_include (d : DB) (u : User)
      : User * list (TenantUser * option Tenant) :=
    (u, map (with_tenant d)
          (filter (fun m => String.eqb (tu_userId m) (u_id u)) (tenantUsers d))).

Definition user_findUnique_id_include (id : string)
      : Query (option (User * list (TenantUser * option Tenant))) :=
    fun d =>
      inr (option_map (user_include d)
             (find (fun u => String.eqb (u_id u) id) (users d)), d).

Definition user_findUnique_email_include (email : string)
      : Query (option (User * list (TenantUser * option Tenant))) :=
    fun d =>
      inr (option_map (user_include d)
             (find (fun u => String.eqb (u_email u) email) (users d)), d).

(** *** further statements of the repositories *)

Definition invitation_findUnique_id (id : string) : Query (option Invitation) :=
  fun d => inr (find (fun i => String.eqb (inv_id i) id) (invitations d), d).

(** [findFirst({ where: { email, tenantId, accepted: false,
                          expiresAt: { gte: now } } })] *)
Definition invitation_findFirst_pending (email tenantId : string) (now : Z)
    : Query (option Invitation) :=
  fun d =>
    inr (find (fun i => String.eqb (inv_email i) email
                        && String.eqb (inv_tenantId i) tenantId
                        && negb (inv_accepted i)
                        && (now <=? inv_expiresAt i))
           (invitations d), d).

End Store.

(** ** Entities and mappers *)

Record TenantInfo : Type := mkTenantInfo {
  ti_id : string;
  ti_name : string;
  ti_slug : string;
  ti_createdAt : Z }.

Record UserTenantEntry : Type := mkUserTenantEntry {
  ute_role : TenantRole;
  ute_tenantId : string;
  ute_tenant : TenantInfo }.

(** [UserEntity]: the user without its password, with its memberships. *)
Record UserEntity : Type := mkUserEntity {
  ue_id : string;
  ue_email : string;
  ue_firstName : option string;
  ue_lastName : option string;
  ue_createdAt : Z;
  ue_tenantUsers : list UserTenantEntry }.

(** [TenantWithRole] of [UserRepository.getUserTenants]. *)
Record TenantWithRole : Type := mkTenantWithRole {
  twr_id : string;
  twr_name : string;
  twr_slug : string;
  twr_createdAt : Z;
  twr_role : string }.

(** A user row without its password ([UserMapper.excludePassword], and
    the destructuring [{ password, ...userWithoutPassword }]). *)
Record UserProfile : Type := mkUserProfile {
  up_id : string;
  up_email : string;
  up_firstName : option string;
  up_lastName : option string;
  up_createdAt : Z }.

Record TokenPair : Type := mkTokenPair {
  tp_accessToken : string;
  tp_refreshToken : string }.

Record AuthResponse : Type := mkAuthResponse {
  ar_user : UserProfile;
  ar_tokens : TokenPair }.

Record LogoutResponse : Type := mkLogoutResponse {
  message : string }.

Record RegisterDto : Type := mkRegisterDto {
  rd_email : string;
  rd_password : string;
  rd_firstName : option string;
  rd_lastName : option string;
  rd_tenantId : option string }.

Record LoginDto : Type := mkLoginDto {
  ld_email : string;
  ld_password : string }.

Record AcceptInvitationDto : Type := mkAcceptInvitationDto {
  ad_token : string;
  ad_password : option string }.

Definition role_name (r : TenantRole) : string :=
  match r with
  | OWNER => "OWNER"
  | ADMIN => "ADMIN"
  | MEMBER => "MEMBER"
  end.

(** [traverse f l]: [l.map(f)] where [f] may throw. *)
Fixpoint traverse {A B : Type} (f : A -> Result B) (l : list A) : Result (list B) :=
  match l with
  | [] => Ok []
  | x :: l' =>
      match f x with
      | Err e => Err e
      | Ok y =>
          match traverse f l' with
          | Err e => Err e
          | Ok ys => Ok (y :: ys)
          end
      end
  end.

Definition lift {A : Type} (r : Result A) : M A :=
  match r with
  | Ok a => ret a
  | Err e => throw e
  end.

Module UserMapper.

  (** The body of the [map] over [prismaUser.tenantUsers]; reading
      [tu.tenant.id] of a missing tenant is a [TypeError]. *)
Definition toEntry (x : TenantUser * option Tenant) : Result UserTenantEntry :=
    match snd x with
    | None => Err TypeError
    | Some t =>
        Ok (mkUserTenantEntry (tu_role (fst x)) (tu_tenantId (fst x))
              (mkTenantInfo (t_id t) (t_name t) (t_slug t) (t_createdAt t)))
    end.

Definition toEntity (x : User * list (TenantUser * option Tenant))
      : Result UserEntity :=
    match traverse toEntry (snd x) with
    | Err e => Err e
    | Ok entries =>
        Ok (mkUserEntity (u_id (fst x)) (u_email (fst x)) (u_firstName (fst x))
              (u_lastName (fst x)) (u_createdAt (fst x)) entries)
    end.

Definition excludePassword (u : User) : UserProfile :=
    mkUserProfile (u_id u) (u_email u) (u_firstName u) (u_lastName u)
      (u_createdAt u).

End UserMapper.

Module RefreshTokenEntity.

  (** [new Date() > this.expiresAt] *)
Definition isExpired (env : Env) (r : RefreshToken) : bool :=
    rt_expiresAt r <? now env.

Definition isValid (env : Env) (r : RefreshToken) : bool :=
    negb (isExpired env r) && negb (rt_revoked r).

End RefreshTokenEntity.

Module InvitationEntity.

Definition isExpired (env : Env) (i : Invitation) : bool :=
    inv_expiresAt i <? now env.

Definition isValid (env : Env) (i : Invitation) : bool :=
    negb (inv_accepted i) && negb (isExpired env i).

Definition isPending (i : Invitation) : bool := negb (inv_accepted i).

End InvitationEntity.

(** ** Repositories *)

Module RefreshTokenRepository.

Definition hashToken (L : Libs) (token : string) : string :=
    sha256_hex L token.

Definition create (L : Libs) (env : Env) (userId token : string) (expiresAt : Z)
      : M RefreshToken :=
    let hashedToken := hashToken L token in
    store (Store.refreshToken_create (uuid_token env) userId hashedToken expiresAt).

Definition findByToken (L : Libs) (token : string) : M (option RefreshToken) :=
    let hashedToken := hashToken L token in
    store (Store.refreshToken_findUnique_token hashedToken).

Definition revoke (L : Libs) (token : string) : M unit :=
    let hashedToken := hashToken L token in
    store (Store.refreshToken_update_revoked hashedToken).

Definition revokeAllForUser (userId : string) : M unit :=
    store (Store.refreshToken_updateMany_revoked userId).

Definition deleteExpired (env : Env) : M nat :=
    store (Store.refreshToken_deleteMany_expired (now env)).

End RefreshTokenRepository.

(** [UserRepository]. [findById] and [findByEmail] follow the revision
    that maps the row through [UserMapper.toEntity]; the other revision
    returns the loaded row as it is, and the two agree on whether a user
    was found and on its [id] whenever every membership row has its
    tenant. [getUserTenants] reads [tu.tenant.id] of every membership. *)
Module UserRepository.

Definition findById (id : string) : M (option UserEntity) :=
    user <- store (Store.user_findUnique_id_include id) ;;
    match user with
    | Some x => e <- lift (UserMapper.toEntity x) ;; ret (Some e)
    | None => ret None
    end.

Definition findByEmail (email : string) : M (option UserEntity) :=
    user <- store (Store.user_findUnique_email_include email) ;;
    match user with
    | Some x => e <- lift (UserMapper.toEntity x) ;; ret (Some e)
    | None => ret None
    end.

Definition findByEmailWithPassword (email : string) : M (option User) :=
    store (Store.user_findUnique_email email).

Definition findByIdWithPassword (id : string) : M (option User) :=
    store (Store.user_findUnique_id id).

Definition updatePassword_query (id hashedPassword : string) : Query unit :=
    fun d =>
      if existsb (fun u => String.eqb (u_id u) id) (users d)
      then inr (tt, set_users d
                      (map (fun u => if String.eqb (u_id u) id
                                     then mkUser (u_id u) (u_email u) hashedPassword
                                            (u_firstName u) (u_lastName u)
                                            (u_createdAt u)
                                     else u)
                         (users d)))
      else inl RecordNotFound.

Definition updatePassword (id hashedPassword : string) : M unit :=
    store (updatePassword_query id hashedPassword).

Definition delete (id : string) : M unit :=
    store (Store.user_delete id).

Definition toTenantWithRole (x : TenantUser * option Tenant)
      : Result TenantWithRole :=
    match snd x with
    | None => Err TypeError
    | Some t =>
        Ok (mkTenantWithRole (t_id t) (t_name t) (t_slug t) (t_createdAt t)
              (role_name (tu_role (fst x))))
    end.

Definition getUserTenants (userId : string) : M (list TenantWithRole) :=
    tenantUsers <- store (Store.tenantUser_find_ordered userId) ;;
    lift (traverse toTenantWithRole tenantUsers).

Definition hasTenantAccess (userId tenantId : string) : M bool :=
    tenantUser <- store (Store.tenantUser_findUnique userId tenantId) ;;
    ret (match tenantUser with Some _ => true | None => false end).

End UserRepository.

(** [InvitationRepository]; the [tenant] and [inviter] relations that are
    loaded with an invitation are passed on by the mapper and never read
    by the service, so an invitation entity is its row. *)
Module InvitationRepository.

Definition create (id email token : string) (role : TenantRole) (expiresAt : Z)
      (tenantId invitedBy : string) : M Invitation :=
    store (Store.invitation_create id email token role expiresAt tenantId invitedBy).

Definition findByToken (token : string) : M (option Invitation) :=
    store (Store.invitation_findUnique_token token).

Definition markAsAccepted (id : string) : M unit :=
    store (Store.invitation_update_accepted id).

Definition delete (id : string) : M unit :=
    store (Store.invitation_delete id).

Definition findById (id : string) : M (option Invitation) :=
  store (Store.invitation_findUnique_id id).

Definition findPendingByEmailAndTenant (env : Env) (email tenantId : string)
    : M (option Invitation) :=
  store (Store.invitation_findFirst_pending email tenantId (now env)).

End InvitationRepository.

Module TenantRepository.

Definition delete (id : string) : M unit :=
    store (Store.tenant_delete id).

Definition addUserToTenant (env : Env) (userId tenantId : string)
      (role : TenantRole) : M TenantUser :=
    store (Store.tenantUser_create (now env) userId tenantId role).

Definition updateUserRole (userId tenantId : string) (role : TenantRole)
      : M TenantUser :=
    store (Store.tenantUser_update_role userId tenantId role).

Definition removeUserFromTenant (userId tenantId : string) : M unit :=
    store (Store.tenantUser_delete userId tenantId).

Definition getTenantUser (userId tenantId : string) : M (option TenantUser) :=
  store (Store.tenantUser_findUnique userId tenantId).

Definition userExistsInTenant (userId tenantId : string) : M bool :=
  tenantUser <- store (Store.tenantUser_findUnique userId tenantId) ;;
  ret (match tenantUser with Some _ => true | None => false end).

End TenantRepository.

(** ** Time spans and dates *)

Definition is_digit (c : ascii) : bool :=
  ((48 <=? nat_of_ascii c) && (nat_of_ascii c <=? 57))%nat.

Definition digit_value (c : ascii) : Z := Z.of_nat (nat_of_ascii c - 48).

Fixpoint leading_number (s : string) (acc : Z) : Z * string :=
  match s with
  | String c r =>
      if is_digit c then leading_number r (acc * 10 + digit_value c) else (acc, s)
  | EmptyString => (acc, s)
  end.

Definition unit_ms (u : string) : option Z :=
  if String.eqb u "" then Some 1
  else if String.eqb u "ms" then Some 1
  else if String.eqb u "s" then Some 1000
  else if String.eqb u "m" then Some 60000
  else if String.eqb u "h" then Some 3600000
  else if String.eqb u "d" then Some 86400000
  else if String.eqb u "w" then Some 604800000
  else if String.eqb u "y" then Some 31557600000
  else None.

(** The time span, in milliseconds, that jsonwebtoken reads in a string
    [expiresIn]: the [ms] package, for a whole number followed by one of
    its short unit names. *)
Definition ms (s : string) : option Z :=
  match s with
  | String c _ =>
      if is_digit c then
        match unit_ms (snd (leading_number s 0)) with
        | Some k => Some (fst (leading_number s 0) * k)
        | None => None
        end
      else None
  | EmptyString => None
  end.

(** [d.setDate(d.getDate() + n)] on a date kept as milliseconds since the
    epoch, for a process whose time zone has no clock change in between
    (UTC in the container image). *)
Definition setDate_plus (date : Z) (n : Z) : Z := date + n * 86400000.

(** ** String helpers of [generateSlug]

    A string is a sequence of bytes. For a string of ASCII characters
    the bytes are the UTF-16 code units that JavaScript works on, and
    [toLowerCase] changes the letters [A]-[Z] only, so the helpers below
    compute what the source computes. For other characters JavaScript
    follows the Unicode case mapping, one code unit at a time in
    [replace], which the helpers do not model: what is proved of the
    slug itself is proved of addresses whose local part is ASCII. *)

Fixpoint map_string (f : ascii -> ascii) (s : string) : string :=
  match s with
  | EmptyString => EmptyString
  | String c r => String (f c) (map_string f r)
  end.

(** [s.split('@')[0]] *)
Fixpoint before_at (s : string) : string :=
  match s with
  | EmptyString => EmptyString
  | String c r => if Ascii.eqb c "@" then EmptyString else String c (before_at r)
  end.

Definition toLowerCase_char (c : ascii) : ascii :=
  if ((65 <=? nat_of_ascii c) && (nat_of_ascii c <=? 90))%nat
  then ascii_of_nat (nat_of_ascii c + 32)
  else c.

(** One character of [.replace(/[^a-z0-9]/g, '-')] *)
Definition slug_char (c : ascii) : ascii :=
  if (((97 <=? nat_of_ascii c) && (nat_of_ascii c <=? 122))
      || is_digit c)%nat
  then c
  else "-"%char.

(** ** AuthService: what the two revisions share *)
Module AuthService.

Definition generateTokens (L : Libs) (cfg : Config) (env : Env)
      (userId tenantId : string) : M TokenPair :=
    let payload := mkJwtPayload userId tenantId in
    let refreshExpiresIn := or_else (jwt_refreshExpiresIn cfg) "30d" in
    match
      jwt_signAsync L payload
        (mkSignOptions (jwt_secret cfg) (jwt_expiresIn cfg)) (now env),
      jwt_signAsync L payload
        (mkSignOptions (jwt_refreshSecret cfg) (Some refreshExpiresIn)) (now env)
    with
    | Some accessToken, Some refreshToken =>
        (* Store refresh token in database with expiration date *)
        let expiresAt := setDate_plus (now env) 30 in
        _ <- RefreshTokenRepository.create L env userId refreshToken expiresAt ;;
        ret (mkTokenPair accessToken refreshToken)
    | _, _ => throw JsonWebTokenError
    end.

Definition refreshToken (L : Libs) (cfg : Config) (env : Env) (token : string)
      : M TokenPair :=
    try_catch
      (match jwt_verify L token (jwt_refreshSecret cfg) (now env) with
       | None => throw JsonWebTokenError
       | Some payload =>
           storedToken <- RefreshTokenRepository.findByToken L token ;;
           match storedToken with
           | None => throw AuthInvalidRefreshTokenException
           | Some st =>
               if negb (RefreshTokenEntity.isValid env st)
               then throw AuthInvalidRefreshTokenException
               else
                 user <- UserRepository.findById (sub payload) ;;
                 match user with
                 | None => throw AuthInvalidRefreshTokenException
                 | Some u =>
                     (* Preserve the tenantId from the existing token *)
                     generateTokens L cfg env (ue_id u) (tenantId payload)
                 end
           end
       end)
      (fun _ => throw AuthInvalidRefreshTokenException).

Definition logout (L : Libs) (token : string) : M LogoutResponse :=
    try_catch
      (_ <- RefreshTokenRepository.revoke L token ;;
       ret (mkLogoutResponse "Logged out successfully"))
      (fun _ =>
         (* Even if revocation fails, return success to prevent info leakage *)
         ret (mkLogoutResponse "Logged out successfully")).

Definition generateSlug (env : Env) (email : string) : string :=
    let base := map_string slug_char (map_string toLowerCase_char (before_at email)) in
    base ++ "-" ++ random env.

  (** [`${registerDto.firstName || 'User'}'s Workspace`] *)
Definition workspaceName (firstName : option string) : string :=
    or_else firstName "User" ++ "'s Workspace".

End AuthService.

(** ** AuthService on Prisma *)
Module PrismaAuthService.

(** The callback of the transaction of [register]: the new user, and
    the tenant that [activeTenantId] is set to. *)
Definition registerTransaction (env : Env) (registerDto : RegisterDto)
    (hashedPassword : string) : M (User * string) :=
    newUser <- store (Store.user_create (uuid_user env) (now env)
                        (rd_email registerDto) hashedPassword
                        (rd_firstName registerDto) (rd_lastName registerDto)) ;;
    if truthy (rd_tenantId registerDto) then
      let tid := the (rd_tenantId registerDto) in
      tenant <- store (Store.tenant_findUnique_id tid) ;;
      match tenant with
      | None => throw (AuthTenantNotFoundException tid)
      | Some _ =>
          _ <- store (Store.tenantUser_create (now env) (u_id newUser) tid MEMBER) ;;
          ret (newUser, tid)
      end
    else
      let slug := AuthService.generateSlug env (rd_email registerDto) in
      tenant <- store (Store.tenant_create (uuid_tenant env) (now env)
                         (AuthService.workspaceName (rd_firstName registerDto))
                         slug) ;;
      _ <- store (Store.tenantUser_create (now env) (u_id newUser) (t_id tenant) OWNER) ;;
      ret (newUser, t_id tenant).

Definition register (L : Libs) (cfg : Config) (env : Env) (registerDto : RegisterDto)
      : M AuthResponse :=
    existingUser <- UserRepository.findByEmail (rd_email registerDto) ;;
    match existingUser with
    | Some _ => throw (AuthUserAlreadyExistsException (rd_email registerDto))
    | None =>
        let hashedPassword := bcrypt_hash L (rd_password registerDto) 12 (salt env) in
        '(user, activeTenantId) <- transaction
                                     (registerTransaction env registerDto hashedPassword) ;;
        tokens <- AuthService.generateTokens L cfg env (u_id user) activeTenantId ;;
        ret (mkAuthResponse (UserMapper.excludePassword user) tokens)
    end.

Definition login (L : Libs) (cfg : Config) (env : Env) (loginDto : LoginDto)
      : M TokenPair :=
    user <- UserRepository.findByEmailWithPassword (ld_email loginDto) ;;
    match user with
    | None => throw AuthInvalidCredentialsException
    | Some user =>
        if negb (bcrypt_compare L (ld_password loginDto) (u_password user))
        then throw AuthInvalidCredentialsException
        else
          tenantUsers <- store (Store.tenantUser_findMany (u_id user)) ;;
          match tenantUsers with
          | [] => throw AuthUserHasNoTenantsException
          | first :: _ =>
              (* Use the first tenant as the active tenant *)
              AuthService.generateTokens L cfg env (u_id user) (tu_tenantId first)
          end
    end.

  (** The user the invitation is accepted for: the existing one, or a new
      one created with the password of the request. *)
Definition invitedUser (L : Libs) (env : Env) (invitation : Invitation)
      (acceptInvitationDto : AcceptInvitationDto) : M User :=
    user <- UserRepository.findByEmailWithPassword (inv_email invitation) ;;
    match user with
    | Some user => ret user
    | None =>
        if negb (truthy (ad_password acceptInvitationDto))
        then throw AuthPasswordRequiredException
        else
          let hashedPassword :=
            bcrypt_hash L (the (ad_password acceptInvitationDto)) 12 (salt env) in
          store (Store.user_create (uuid_user env) (now env) (inv_email invitation)
                   hashedPassword None None)
    end.

  (** [prisma.$transaction([ tenantUser.upsert(...), invitation.update(...) ])] *)
Definition joinTenant (env : Env) (user : User) (invitation : Invitation) : M unit :=
    transaction
      (_ <- store (Store.tenantUser_upsert (now env) (u_id user)
                     (inv_tenantId invitation) (inv_role invitation)) ;;
       store (Store.invitation_update_accepted (inv_id invitation))).

Definition acceptInvitation (L : Libs) (cfg : Config) (env : Env)
      (acceptInvitationDto : AcceptInvitationDto) : M AuthResponse :=
    invitation <- InvitationRepository.findByToken (ad_token acceptInvitationDto) ;;
    match invitation with
    | None => throw (InvitationNotFoundException (ad_token acceptInvitationDto))
    | Some invitation =>
        if inv_accepted invitation then throw InvitationAlreadyAcceptedException
        else if InvitationEntity.isExpired env invitation
        then throw InvitationExpiredException
        else
          user <- invitedUser L env invitation acceptInvitationDto ;;
          _ <- joinTenant env user invitation ;;
          (* Use the invitation's tenantId as the active tenant *)
          tokens <- AuthService.generateTokens L cfg env (u_id user)
                      (inv_tenantId invitation) ;;
          ret (mkAuthResponse (UserMapper.excludePassword user) tokens)
    end.

End PrismaAuthService.

(** ** AuthService on TypeORM

    [manager.save] of a new [User] or [Tenant] is an insert; [save] of a
    [TenantUser], whose primary key is set by the caller, inserts the row
    or updates the one that has this key. *)
Module TypeOrmAuthService.

(** The callback of the transaction of [register]: the new user, and
    the tenant that [activeTenantId] is set to. *)
Definition registerTransaction (env : Env) (registerDto : RegisterDto)
    (hashedPassword : string) : M (User * string) :=
    newUser <- store (Store.user_create (uuid_user env) (now env)
                        (rd_email registerDto) hashedPassword
                        (rd_firstName registerDto) (rd_lastName registerDto)) ;;
    if truthy (rd_tenantId registerDto) then
      let tid := the (rd_tenantId registerDto) in
      tenant <- store (Store.tenant_findUnique_id tid) ;;
      match tenant with
      | None => throw (AuthTenantNotFoundException tid)
      | Some _ =>
          _ <- store (Store.tenantUser_upsert (now env) (u_id newUser) tid MEMBER) ;;
          ret (newUser, tid)
      end
    else
      let slug := AuthService.generateSlug env (rd_email registerDto) in
      tenant <- store (Store.tenant_create (uuid_tenant env) (now env)
                         (AuthService.workspaceName (rd_firstName registerDto))
                         slug) ;;
      _ <- store (Store.tenantUser_upsert (now env) (u_id newUser) (t_id tenant) OWNER) ;;
      ret (newUser, t_id tenant).

Definition register (L : Libs) (cfg : Config) (env : Env) (registerDto : RegisterDto)
      : M AuthResponse :=
    existingUser <- UserRepository.findByEmail (rd_email registerDto) ;;
    match existingUser with
    | Some _ => throw (AuthUserAlreadyExistsException (rd_email registerDto))
    | None =>
        let hashedPassword := bcrypt_hash L (rd_password registerDto) 12 (salt env) in
        '(user, activeTenantId) <- transaction
                                     (registerTransaction env registerDto hashedPassword) ;;
        tokens <- AuthService.generateTokens L cfg env (u_id user) activeTenantId ;;
        ret (mkAuthResponse (UserMapper.excludePassword user) tokens)
    end.

Definition login (L : Libs) (cfg : Config) (env : Env) (loginDto : LoginDto)
      : M TokenPair :=
    user <- UserRepository.findByEmailWithPassword (ld_email loginDto) ;;
    match user with
    | None => throw AuthInvalidCredentialsException
    | Some user =>
        if negb (bcrypt_compare L (ld_password loginDto) (u_password user))
        then throw AuthInvalidCredentialsException
        else
          tenantUsers <- UserRepository.getUserTenants (u_id user) ;;
          match tenantUsers with
          | [] => throw AuthUserHasNoTenantsException
          | first :: _ =>
              (* Use the first tenant as the active tenant *)
              AuthService.generateTokens L cfg env (u_id user) (twr_id first)
          end
    end.

  (** [dataSource.getRepository(User).save({ email, password })] for a
      new user. *)
Definition invitedUser (L : Libs) (env : Env) (invitation : Invitation)
      (acceptInvitationDto : AcceptInvitationDto) : M User :=
    user <- UserRepository.findByEmailWithPassword (inv_email invitation) ;;
    match user with
    | Some user => ret user
    | None =>
        if negb (truthy (ad_password acceptInvitationDto))
        then throw AuthPasswordRequiredException
        else
          let hashedPassword :=
            bcrypt_hash L (the (ad_password acceptInvitationDto)) 12 (salt env) in
          store (Store.user_create (uuid_user env) (now env) (inv_email invitation)
                   hashedPassword None None)
    end.

  (** [dataSource.transaction(async (manager) => { ... })]. The
      membership is read and saved through [manager]; the last statement
      of the callback, [this.invitationRepository.markAsAccepted], goes
      through the repository and not through [manager], so the flag of
      the invitation is committed when that call returns, before the
      COMMIT of the transaction. The two write different tables and do
      not wait for each other. *)
Definition joinTenant (env : Env) (user : User) (invitation : Invitation) : M unit :=
    transaction_beside (fun d d' => set_invitations d (invitations d'))
      (existingTenantUser <- store (Store.tenantUser_findUnique (u_id user)
                                      (inv_tenantId invitation)) ;;
       _ <- match existingTenantUser with
            | Some existing =>
                store (Store.tenantUser_upsert (now env) (tu_userId existing)
                         (tu_tenantId existing) (inv_role invitation))
            | None =>
                store (Store.tenantUser_upsert (now env) (u_id user)
                         (inv_tenantId invitation) (inv_role invitation))
            end ;;
       (* Mark invitation as accepted *)
       InvitationRepository.markAsAccepted (inv_id invitation)).

Definition acceptInvitation (L : Libs) (cfg : Config) (env : Env)
      (acceptInvitationDto : AcceptInvitationDto) : M AuthResponse :=
    invitation <- InvitationRepository.findByToken (ad_token acceptInvitationDto) ;;
    match invitation with
    | None => throw (InvitationNotFoundException (ad_token acceptInvitationDto))
    | Some invitation =>
        if inv_accepted invitation then throw InvitationAlreadyAcceptedException
        else if InvitationEntity.isExpired env invitation
        then throw InvitationExpiredException
        else
          user <- invitedUser L env invitation acceptInvitationDto ;;
          _ <- joinTenant env user invitation ;;
          (* Use the invitation's tenantId as the active tenant *)
          tokens <- AuthService.generateTokens L cfg env (u_id user)
                      (inv_tenantId invitation) ;;
          ret (mkAuthResponse (UserMapper.excludePassword user) tokens)
    end.

End TypeOrmAuthService.

(** ** Operations that write to the store

    Every operation of the service, in both revisions, and the repository
    methods that write to the tables the service reads. *)

Inductive Orm : Type := Prisma | TypeORM.

Inductive Op : Type :=
| RegisterUser (orm : Orm) (dto : RegisterDto)
| Login (orm : Orm) (dto : LoginDto)
| RefreshTokens (token : string)
| Logout (token : string)
| AcceptInvitation (orm : Orm) (dto : AcceptInvitationDto)
| InvitationCreate (id email token : string) (role : TenantRole) (expiresAt : Z)
    (tenantId invitedBy : string)
| InvitationMarkAsAccepted (id : string)
| InvitationDelete (id : string)
| UserUpdatePassword (id hashedPassword : string)
| UserDelete (id : string)
| TenantDelete (id : string)
| TenantAddUser (userId tenantId : string) (role : TenantRole)
| TenantUpdateUserRole (userId tenantId : string) (role : TenantRole)
| TenantRemoveUser (userId tenantId : string)
| RefreshTokenRevokeAllForUser (userId : string)
| RefreshTokenDeleteExpired.

Definition after {A : Type} (m : M A) (w : World) : World := snd (m w).

Definition run (L : Libs) (cfg : Config) (env : Env) (o : Op) (w : World) : World :=
  match o with
  | RegisterUser Prisma dto => after (PrismaAuthService.register L cfg env dto) w
  | RegisterUser TypeORM dto => after (TypeOrmAuthService.register L cfg env dto) w
  | Login Prisma dto => after (PrismaAuthService.login L cfg env dto) w
  | Login TypeORM dto => after (TypeOrmAuthService.login L cfg env dto) w
  | RefreshTokens token => after (AuthService.refreshToken L cfg env token) w
  | Logout token => after (AuthService.logout L token) w
  | AcceptInvitation Prisma dto =>
      after (PrismaAuthService.acceptInvitation L cfg env dto) w
  | AcceptInvitation TypeORM dto =>
      after (TypeOrmAuthService.acceptInvitation L cfg env dto) w
  | InvitationCreate id email token role expiresAt tenantId invitedBy =>
      after (InvitationRepository.create id email token role expiresAt tenantId
               invitedBy) w
  | InvitationMarkAsAccepted id => after (InvitationRepository.markAsAccepted id) w
  | InvitationDelete id => after (InvitationRepository.delete id) w
  | UserUpdatePassword id hashedPassword =>
      after (UserRepository.updatePassword id hashedPassword) w
  | UserDelete id => after (UserRepository.delete id) w
  | TenantDelete id => after (TenantRepository.delete id) w
  | TenantAddUser userId tenantId role =>
      after (TenantRepository.addUserToTenant env userId tenantId role) w
  | TenantUpdateUserRole userId tenantId role =>
      after (TenantRepository.updateUserRole userId tenantId role) w
  | TenantRemoveUser userId tenantId =>
      after (TenantRepository.removeUserFromTenant userId tenantId) w
  | RefreshTokenRevokeAllForUser userId =>
      after (RefreshTokenRepository.revokeAllForUser userId) w
  | RefreshTokenDeleteExpired => after (RefreshTokenRepository.deleteExpired env) w
  end.

(** A run of operations, each with the environment it executes in. *)
Fixpoint runs (L : Libs) (cfg : Config) (ops : list (Env * Op)) (w : World) : World :=
  match ops with
  | [] => w
  | (env, o) :: ops' => runs L cfg ops' (run L cfg env o w)
  end.

(** ** Predicates of the statements *)



(** The user has a membership row. *)
Definition has_membership (d : DB) (userId : string) : Prop :=
  exists m, In m (tenantUsers d) /\ tu_userId m = userId.

(** The memberships of a user. *)
Definition memberships_of (d : DB) (userId : string) : list TenantUser :=
  filter (fun m => String.eqb (tu_userId m) userId) (tenantUsers d).

(** The conditions under which a refresh is refused: the token does not
    verify (bad signature, malformed payload, expired), its hash is not
    in the store, the stored record is expired or revoked, or the user of
    the payload is gone. *)
Definition refresh_refused (L : Libs) (cfg : Config) (env : Env) (token : string)
    (d : DB) : Prop :=
  jwt_verify L token (jwt_refreshSecret cfg) (now env) = None
  \/ find (fun r => String.eqb (rt_token r) (sha256_hex L token)) (refreshTokens d)
     = None
  \/ (exists st,
        find (fun r => String.eqb (rt_token r) (sha256_hex L token)) (refreshTokens d)
        = Some st
        /\ (rt_expiresAt st < now env \/ rt_revoked st = true))
  \/ (exists payload,
        jwt_verify L token (jwt_refreshSecret cfg) (now env) = Some payload
        /\ find (fun u => String.eqb (u_id u) (sub payload)) (users d) = None).

(** Characters of a hexadecimal digest, and of the dotted form of a JWT. *)
Definition is_hex_char (c : ascii) : bool :=
  (is_digit c || ((97 <=? nat_of_ascii c) && (nat_of_ascii c <=? 102)))%nat.

Fixpoint all_chars (p : ascii -> bool) (s : string) : bool :=
  match s with
  | EmptyString => true
  | String c r => p c && all_chars p r
  end.

Fixpoint has_char (c : ascii) (s : string) : bool :=
  match s with
  | EmptyString => false
  | String c' r => Ascii.eqb c' c || has_char c r
  end.

(** What the statements on hashing use of the two libraries: a digest in
    hexadecimal, and tokens in the compact JWS form, whose three parts
    are joined by dots. *)
Definition digest_is_hex (L : Libs) : Prop :=
  forall s, all_chars is_hex_char (sha256_hex L s) = true.

Definition jwt_is_dotted (L : Libs) : Prop :=
  forall p o t tok, jwt_signAsync L p o t = Some tok -> has_char "."%char tok = true.

(** The options [generateTokens] signs the two tokens with. *)
Definition accessOptions (cfg : Config) : SignOptions :=
  mkSignOptions (jwt_secret cfg) (jwt_expiresIn cfg).

Definition refreshOptions (cfg : Config) : SignOptions :=
  mkSignOptions (jwt_refreshSecret cfg)
    (Some (or_else (jwt_refreshExpiresIn cfg) "30d")).

(** The record that [generateTokens] stores for a refresh token. *)
Definition storedRecord (L : Libs) (env : Env) (userId token : string)
    : RefreshToken :=
  mkRefreshToken (uuid_token env) userId (sha256_hex L token)
    (setDate_plus (now env) 30) false.

(** [keeps R m]: the database after [m] is related by [R] to the database
    before it. *)
Definition keeps (R : DB -> DB -> Prop) {A : Type} (m : M A) : Prop :=
  forall w, R (db w) (db (snd (m w))).


(** The later table of refresh tokens is the earlier one followed by
    records that [generateTokens] stores for tokens the JWT service
    signed. *)
Definition tokens_appended (L : Libs) (cfg : Config) (env : Env) (d d' : DB) : Prop :=
  exists rows,
    refreshTokens d' = (refreshTokens d ++ rows)%list
    /\ Forall (fun r => exists userId tid raw,
                  jwt_signAsync L (mkJwtPayload userId tid) (refreshOptions cfg)
                    (now env) = Some raw
                  /\ r = storedRecord L env userId raw) rows.

(** The operations that issue a token pair. *)
Definition issues_tokens (o : Op) : bool :=
  match o with
  | RegisterUser _ _ | Login _ _ | RefreshTokens _ | AcceptInvitation _ _ => true
  | _ => false
  end.

(** The two revisions of the service, by name. *)
Definition register (orm : Orm) :=
  match orm with
  | Prisma => PrismaAuthService.register
  | TypeORM => TypeOrmAuthService.register
  end.

Definition registerTransaction (orm : Orm) :=
  match orm with
  | Prisma => PrismaAuthService.registerTransaction
  | TypeORM => TypeOrmAuthService.registerTransaction
  end.

Definition login (orm : Orm) :=
  match orm with
  | Prisma => PrismaAuthService.login
  | TypeORM => TypeOrmAuthService.login
  end.

Definition invitedUser (orm : Orm) :=
  match orm with
  | Prisma => PrismaAuthService.invitedUser
  | TypeORM => TypeOrmAuthService.invitedUser
  end.

Definition joinTenant (orm : Orm) :=
  match orm with
  | Prisma => PrismaAuthService.joinTenant
  | TypeORM => TypeOrmAuthService.joinTenant
  end.

Definition acceptInvitation (orm : Orm) :=
  match orm with
  | Prisma => PrismaAuthService.acceptInvitation
  | TypeORM => TypeOrmAuthService.acceptInvitation
  end.

(** The life time the refresh JWT is signed with. *)
Definition refreshLifetime (cfg : Config) : option Z :=
  ms (or_else (jwt_refreshExpiresIn cfg) "30d").

(** ** A small instance of the libraries and of the store

    Stand-ins that compute, for running the service on concrete inputs:
    a digest that prints the bytes in hexadecimal, a password hash that
    prefixes the password, and unsigned tokens
    [secret.sub.tenantId.exp]. *)
Module Demo.

Definition hex_digit (n : nat) : ascii :=
    if (n <? 10)%nat then ascii_of_nat (48 + n) else ascii_of_nat (87 + n).

Fixpoint digest (s : string) : string :=
    match s with
    | EmptyString => EmptyString
    | String c r =>
        String (hex_digit (nat_of_ascii c / 16))
          (String (hex_digit (nat_of_ascii c mod 16)) (digest r))
    end.

Definition hash (data : string) (rounds : nat) (salt : string) : string :=
    "$2b$" ++ data.

Definition compare (data encrypted : string) : bool :=
    String.eqb encrypted ("$2b$" ++ data).

Fixpoint split_on (sep : ascii) (s : string) : list string :=
    match s with
    | EmptyString => [EmptyString]
    | String c r =>
        if Ascii.eqb c sep then EmptyString :: split_on sep r
        else
          match split_on sep r with
          | h :: t => String c h :: t
          | [] => [String c EmptyString]
          end
    end.

Definition signAsync (p : JwtPayload) (o : SignOptions) (t : Z) : option string :=
    match so_secret o, so_expiresIn o with
    | Some secret, Some e =>
        match ms e with
        | Some k =>
            Some (secret ++ "." ++ sub p ++ "." ++ tenantId p ++ "."
                  ++ NilZero.string_of_int (Z.to_int (t / 1000 + k / 1000)))
        | None => None
        end
    | _, _ => None
    end.

Definition verify (token : string) (secret : option string) (t : Z)
      : option JwtPayload :=
    match split_on "."%char token, secret with
    | [sec; s; tn; e], Some secret =>
        if String.eqb sec secret && (t / 1000 <? fst (leading_number e 0))
        then Some (mkJwtPayload s tn)
        else None
    | _, _ => None
    end.

Definition libs : Libs := mkLibs digest hash compare signAsync verify.

Definition config : Config :=
    mkConfig (Some "access-secret") (Some "7d") (Some "refresh-secret") (Some "30d").

  (** The same with a refresh life time of seven days. *)
Definition config7d : Config :=
    mkConfig (Some "access-secret") (Some "1h") (Some "refresh-secret") (Some "7d").

Definition env (t : Z) (n : string) : Env :=
    mkEnv t ("user-" ++ n) ("tenant-" ++ n) ("token-" ++ n) "salt" "x7k2p9".

Definition alice : User :=
    mkUser "u1" "alice@example.com" "$2b$Password1!" (Some "Alice") None 1000.

Definition acme : Tenant := mkTenant "tA" "Acme" "acme" 1000.
Definition bolt : Tenant := mkTenant "tB" "Bolt" "bolt" 2000.

  (** Alice joined Acme first and Bolt later; the table keeps the later
      row first. *)
Definition aliceAcme : TenantUser := mkTenantUser "u1" "tA" MEMBER 1000.
Definition aliceBolt : TenantUser := mkTenantUser "u1" "tB" MEMBER 2000.

  (** The refresh token issued to Alice for Acme at time 5000. *)
Definition aliceToken : string := "refresh-secret.u1.tA.2592005".

Definition aliceStored : RefreshToken :=
    mkRefreshToken "token-0" "u1" (digest aliceToken) 2592005000 false.

  (** An invitation of bob to Acme, sent by Alice. *)
Definition bobInvitation : Invitation :=
    mkInvitation "i1" "bob@example.com" "inv-token-1" MEMBER 86400000 false "tA" "u1".

Definition database : DB :=
    mkDB [alice] [acme; bolt] [aliceBolt; aliceAcme] [aliceStored] [bobInvitation].

Definition world : World := mkWorld database [].

  (** The same after bob has registered. *)
Definition bob : User :=
    mkUser "u2" "bob@example.com" "$2b$Password2!" (Some "Bob") None 3000.

Definition databaseWithBob : DB :=
    mkDB [alice; bob] [acme; bolt] [aliceBolt; aliceAcme] [aliceStored] [bobInvitation].

End Demo.

(** ** UsersService

    The service throws exceptions of its own; a call returns, throws one
    of them, or fails with what a repository threw. *)

Inductive UserExn : Type :=
| UserNotFoundException (id : string)
| UserEmailAlreadyExistsException (email : string)
| UserIncorrectPasswordException
| UserNoTenantAccessException (tenantId : string).

Inductive Outcome (A : Type) : Type :=
| Returned (a : A)
| Thrown (e : UserExn)
| Failed (e : Exn).
Arguments Returned {A} a.
Arguments Thrown {A} e.
Arguments Failed {A} e.

Definition MU (A : Type) : Type := World -> Outcome A * World.

Definition retU {A : Type} (a : A) : MU A := fun w => (Returned a, w).

Definition throwU {A : Type} (e : UserExn) : MU A := fun w => (Thrown e, w).

(** [await] of a repository call. *)
Definition await {A B : Type} (m : M A) (k : A -> MU B) : MU B :=
  fun w =>
    match m w with
    | (Ok a, w') => k a w'
    | (Err e, w') => (Failed e, w')
    end.

Record ChangePasswordDto : Type := mkChangePasswordDto {
  cp_currentPassword : string;
  cp_newPassword : string }.

Module UsersService.

Definition findMe (userId : string) : MU UserEntity :=
  await (UserRepository.findById userId) (fun user =>
  match user with
  | None => throwU (UserNotFoundException userId)
  | Some user => retU user
  end).

Definition remove (id : string) : MU LogoutResponse :=
  await (UserRepository.findById id) (fun user =>
  match user with
  | None => throwU (UserNotFoundException id)
  | Some _ =>
      await (UserRepository.delete id) (fun _ =>
      retU (mkLogoutResponse "User deleted successfully"))
  end).

Definition changePassword (L : Libs) (env : Env) (userId : string)
    (changePasswordDto : ChangePasswordDto) : MU LogoutResponse :=
  await (UserRepository.findByIdWithPassword userId) (fun user =>
  match user with
  | None => throwU (UserNotFoundException userId)
  | Some user =>
      if negb (bcrypt_compare L (cp_currentPassword changePasswordDto)
                 (u_password user))
      then throwU UserIncorrectPasswordException
      else
        let hashedPassword :=
          bcrypt_hash L (cp_newPassword changePasswordDto) 12 (salt env) in
        await (UserRepository.updatePassword userId hashedPassword) (fun _ =>
        retU (mkLogoutResponse "Password changed successfully"))
  end).

Definition getUserTenants (userId : string) : MU (list TenantWithRole) :=
  await (UserRepository.getUserTenants userId) (fun l => retU l).

(** Returns [{ tenantId }]. *)
Definition switchTenant (userId tenantId : string) : MU string :=
  await (UserRepository.hasTenantAccess userId tenantId) (fun hasAccess =>
  if negb hasAccess then throwU (UserNoTenantAccessException tenantId)
  else retU tenantId).

End UsersService.

(** ** Predicates of the further properties *)

(** The tables a login, a refresh or a logout has no business with. *)
Definition same_accounts (d d' : DB) : Prop :=
  users d' = users d /\ tenants d' = tenants d
  /\ tenantUsers d' = tenantUsers d /\ invitations d' = invitations d.



(** The refresh tokens of a user. *)
Definition tokens_of (d : DB) (userId : string) : list RefreshToken :=
  filter (fun r => String.eqb (rt_userId r) userId) (refreshTokens d).

(** * Properties *)

(** ** The monad *)

Ltac inv H := inversion H; subst; clear H.

(** Case analysis on an innermost scrutinee of the goal, or of a
    hypothesis. *)
Ltac break_goal :=
  match goal with
  | |- context [match ?x with _ => _ end] =>
      lazymatch x with
      | context [match _ with _ => _ end] => fail
      | _ => destruct x eqn:?
      end
  end.

Ltac break_hyp H :=
  match type of H with
  | context [match ?x with _ => _ end] =>
      lazymatch x with
      | context [match _ with _ => _ end] => fail
      | _ => destruct x eqn:?
      end
  end.

Lemma bind_Ok {A B : Type} (m : M A) (k : A -> M B) (w w' : World) (b : B) :
  bind m k w = (Ok b, w') ->
  exists a w1, m w = (Ok a, w1) /\ k a w1 = (Ok b, w').
Proof.
  unfold bind. destruct (m w) as [[a|e] w1]; intro H.
  - exists a, w1. split; [reflexivity | exact H].
  - discriminate H.
Qed.

Lemma bind_Err {A B : Type} (m : M A) (k : A -> M B) (w w' : World) (e : Exn) :
  bind m k w = (Err e, w') ->
  m w = (Err e, w') \/ exists a w1, m w = (Ok a, w1) /\ k a w1 = (Err e, w').
Proof.
  unfold bind. destruct (m w) as [[a|e0] w1]; intro H.
  - right. exists a, w1. split; [reflexivity | exact H].
  - left. inv H. reflexivity.
Qed.

Lemma store_Ok {A : Type} (q : Query A) (w w' : World) (a : A) :
  store q w = (Ok a, w') ->
  hd false (faults w) = false
  /\ q (db w) = inr (a, db w')
  /\ faults w' = tl (faults w).
Proof.
  unfold store. destruct (hd false (faults w)); [discriminate |].
  destruct (q (db w)) as [e | [a0 d]]; intro H; inv H. auto.
Qed.

Lemma store_Err {A : Type} (q : Query A) (w w' : World) (e : Exn) :
  store q w = (Err e, w') ->
  db w' = db w /\ faults w' = tl (faults w).
Proof.
  unfold store. destruct (hd false (faults w)).
  - intro H; inv H. auto.
  - destruct (q (db w)) as [e0 | [a0 d]]; intro H; inv H. auto.
Qed.

(** A store call is one step of the oracle, whatever it answers. *)
Lemma store_faults {A : Type} (q : Query A) (w : World) :
  faults (snd (store q w)) = tl (faults w).
Proof.
  unfold store. destruct (hd false (faults w)); [reflexivity |].
  destruct (q (db w)) as [e0 | [a0 d]]; reflexivity.
Qed.

Lemma transaction_Ok {A : Type} (body : M A) (w w' : World) (a : A) :
  transaction body w = (Ok a, w') -> body w = (Ok a, w').
Proof.
  unfold transaction. destruct (body w) as [[a0|e] w1]; intro H; inv H. reflexivity.
Qed.


Lemma try_catch_rethrow {A : Type} (m : M A) (e0 : Exn) (w : World) :
  (exists a, fst (try_catch m (fun _ => throw e0) w) = Ok a)
  \/ fst (try_catch m (fun _ => throw e0) w) = Err e0.
Proof.
  unfold try_catch, throw. destruct (m w) as [[a|e] w1]; simpl; eauto.
Qed.

Lemma try_catch_rethrow_Ok {A : Type} (m : M A) (e0 : Exn) (w w' : World) (a : A) :
  try_catch m (fun _ => throw e0) w = (Ok a, w') -> m w = (Ok a, w').
Proof.
  unfold try_catch, throw. destruct (m w) as [[a0|e] w1]; intro H; inv H. reflexivity.
Qed.

(** ** Logout *)

(** C6. Logout answers every string, whether a stored token, a revoked
    one or none at all, and every state of the store and of the
    connection to it, with the same success message. *)
Theorem logout_always_succeeds :
  forall (L : Libs) (token : string) (w : World),
    fst (AuthService.logout L token w) = Ok (mkLogoutResponse "Logged out successfully").
Proof.
  intros L token w.
  unfold AuthService.logout, try_catch, bind, ret, RefreshTokenRepository.revoke, store.
  destruct (hd false (faults w)); [reflexivity |].
  destruct (Store.refreshToken_update_revoked _ (db w)) as [e | [a d]]; reflexivity.
Qed.

(** ** Lists *)

Lemma find_app_Some {A : Type} (f : A -> bool) (l l' : list A) (x : A) :
  find f l = Some x -> find f (l ++ l') = Some x.
Proof.
  induction l as [|a l IH]; simpl; [discriminate |].
  destruct (f a); auto.
Qed.

Lemma find_existsb_false {A : Type} (f : A -> bool) (l : list A) :
  existsb f l = false -> find f l = None.
Proof.
  induction l as [|a l IH]; simpl; [reflexivity |].
  destruct (f a); simpl; [discriminate | exact IH].
Qed.

Lemma find_app_None {A : Type} (f : A -> bool) (l l' : list A) :
  find f l = None -> find f (l ++ l') = find f l'.
Proof.
  induction l as [|a l IH]; simpl; [reflexivity |].
  destruct (f a); [discriminate | exact IH].
Qed.

Lemma existsb_orb_false_r {A : Type} (f g : A -> bool) (l : list A) :
  existsb (fun x => f x || g x) l = false -> existsb g l = false.
Proof.
  induction l as [|a l IH]; simpl; [reflexivity |].
  intro H. apply orb_false_iff in H. destruct H as [H1 H2].
  apply orb_false_iff in H1. destruct H1 as [_ H1].
  rewrite H1. simpl. auto.
Qed.

Lemma filter_filter_comm {A : Type} (f g : A -> bool) (l : list A) :
  filter f (filter g l) = filter g (filter f l).
Proof.
  induction l as [|a l IH]; simpl; [reflexivity |].
  destruct (g a) eqn:Hg, (f a) eqn:Hf; simpl; rewrite ?Hg, ?Hf, IH; reflexivity.
Qed.

(** A mapping that throws on no row of a list throws on no row of a part
    of it. *)
Lemma traverse_filter {A B C : Type} (f : B -> Result C) (g : A -> B)
    (keep : A -> bool) (l : list A) (ys : list C) :
  traverse f (map g l) = Ok ys ->
  exists ys', traverse f (map g (filter keep l)) = Ok ys'.
Proof.
  revert ys. induction l as [|a l IH]; simpl; intros ys H.
  - eauto.
  - destruct (f (g a)) as [y|e] eqn:Hy; [| discriminate].
    destruct (traverse f (map g l)) as [ys0|e] eqn:Hl; [| discriminate].
    destruct (IH ys0 eq_refl) as [ys' Hys'].
    destruct (keep a); simpl.
    + rewrite Hy, Hys'. eauto.
    + eauto.
Qed.

(** ** The refresh token store *)

Lemma refreshToken_create_inr (id userId token : string) (expiresAt : Z)
    (d d' : DB) (r : RefreshToken) :
  Store.refreshToken_create id userId token expiresAt d = inr (r, d') ->
  r = mkRefreshToken id userId token expiresAt false
  /\ d' = set_refreshTokens d (refreshTokens d ++ [r])
  /\ existsb (fun r => String.eqb (rt_token r) token) (refreshTokens d) = false.
Proof.
  unfold Store.refreshToken_create.
  destruct (existsb _ (refreshTokens d)) eqn:Hu; [discriminate |].
  destruct (negb _); [discriminate |].
  intro H; inv H. repeat split.
  eapply existsb_orb_false_r. exact Hu.
Qed.

(** ** Issuing a token pair *)

Lemma generateTokens_Ok (L : Libs) (cfg : Config) (env : Env) (userId tid : string)
    (w w' : World) (pair : TokenPair) :
  AuthService.generateTokens L cfg env userId tid w = (Ok pair, w') ->
  jwt_signAsync L (mkJwtPayload userId tid) (accessOptions cfg) (now env)
  = Some (tp_accessToken pair)
  /\ jwt_signAsync L (mkJwtPayload userId tid) (refreshOptions cfg) (now env)
     = Some (tp_refreshToken pair)
  /\ db w' = set_refreshTokens (db w)
               (refreshTokens (db w)
                ++ [storedRecord L env userId (tp_refreshToken pair)])
  /\ existsb (fun r => String.eqb (rt_token r) (sha256_hex L (tp_refreshToken pair)))
       (refreshTokens (db w)) = false
  /\ hd false (faults w) = false
  /\ faults w' = tl (faults w).
Proof.
  unfold AuthService.generateTokens, accessOptions, refreshOptions.
  destruct (jwt_signAsync L _ (mkSignOptions (jwt_secret cfg) _) _) as [a|];
    [| destruct (jwt_signAsync L _ _ _); discriminate].
  destruct (jwt_signAsync L _ _ _) as [r|]; [| discriminate].
  intro H. apply bind_Ok in H. destruct H as (row & w1 & Hc & Hr).
  inv Hr. unfold RefreshTokenRepository.create in Hc.
  apply store_Ok in Hc. destruct Hc as (Hf & Hq & Hfs).
  apply refreshToken_create_inr in Hq. destruct Hq as (Hrow & Hd & Hex).
  subst row. simpl. unfold storedRecord.
  repeat split; auto.
Qed.

Lemma generateTokens_Err (L : Libs) (cfg : Config) (env : Env) (userId tid : string)
    (w w' : World) (e : Exn) :
  AuthService.generateTokens L cfg env userId tid w = (Err e, w') -> db w' = db w.
Proof.
  unfold AuthService.generateTokens.
  destruct (jwt_signAsync L (mkJwtPayload userId tid)
              (mkSignOptions (jwt_secret cfg) (jwt_expiresIn cfg)) (now env)) as [a|];
    [| destruct (jwt_signAsync L (mkJwtPayload userId tid)
                   (mkSignOptions (jwt_refreshSecret cfg)
                      (Some (or_else (jwt_refreshExpiresIn cfg) "30d"))) (now env));
       intro H; inv H; reflexivity].
  destruct (jwt_signAsync L (mkJwtPayload userId tid)
              (mkSignOptions (jwt_refreshSecret cfg)
                 (Some (or_else (jwt_refreshExpiresIn cfg) "30d"))) (now env)) as [r|];
    [| intro H; inv H; reflexivity].
  intro H. apply bind_Err in H. destruct H as [H | (row & w1 & _ & H)].
  - apply store_Err in H. tauto.
  - inv H.
Qed.

(** Only the users and the refresh tokens of the database, and the
    oracle, decide what [generateTokens] answers. *)
Lemma generateTokens_ext (L : Libs) (cfg : Config) (env : Env) (userId tid : string)
    (d1 d2 : DB) (fs : list bool) :
  users d1 = users d2 -> refreshTokens d1 = refreshTokens d2 ->
  fst (AuthService.generateTokens L cfg env userId tid (mkWorld d1 fs))
  = fst (AuthService.generateTokens L cfg env userId tid (mkWorld d2 fs)).
Proof.
  intros Hu Hr.
  unfold AuthService.generateTokens.
  destruct (jwt_signAsync L (mkJwtPayload userId tid)
              (mkSignOptions (jwt_secret cfg) (jwt_expiresIn cfg)) (now env)) as [a|];
    destruct (jwt_signAsync L (mkJwtPayload userId tid)
                (mkSignOptions (jwt_refreshSecret cfg)
                   (Some (or_else (jwt_refreshExpiresIn cfg) "30d"))) (now env)) as [r|];
    try reflexivity.
  unfold bind, ret, RefreshTokenRepository.create, store, Store.refreshToken_create.
  cbn [db faults]. rewrite Hu, Hr.
  repeat (break_goal; cbn [fst snd]); reflexivity.
Qed.

(** ** Refresh *)

(** Symbolic execution of the repositories and of the monad, in a
    hypothesis and in the goal. *)
Ltac exec_in H :=
  cbv beta iota zeta delta
    [bind ret throw lift store fst snd db faults option_map
     RefreshTokenRepository.findByToken RefreshTokenRepository.hashToken
     RefreshTokenRepository.revoke RefreshTokenRepository.create
     UserRepository.findById UserRepository.findByEmail
     UserRepository.findByEmailWithPassword UserRepository.getUserTenants
     InvitationRepository.findByToken InvitationRepository.markAsAccepted
     UserMapper.toEntity Store.user_include
     Store.refreshToken_findUnique_token Store.user_findUnique_id_include
     Store.user_findUnique_email_include Store.user_findUnique_email
     Store.user_findUnique_id Store.tenant_findUnique_id
     Store.invitation_findUnique_token Store.tenantUser_findUnique
     Store.tenantUser_findMany Store.tenantUser_find_ordered] in H.

Ltac exec :=
  cbv beta iota zeta delta
    [bind ret throw lift store fst snd db faults option_map
     RefreshTokenRepository.findByToken RefreshTokenRepository.hashToken
     RefreshTokenRepository.revoke RefreshTokenRepository.create
     UserRepository.findById UserRepository.findByEmail
     UserRepository.findByEmailWithPassword UserRepository.getUserTenants
     InvitationRepository.findByToken InvitationRepository.markAsAccepted
     UserMapper.toEntity Store.user_include
     Store.refreshToken_findUnique_token Store.user_findUnique_id_include
     Store.user_findUnique_email_include Store.user_findUnique_email
     Store.user_findUnique_id Store.tenant_findUnique_id
     Store.invitation_findUnique_token Store.tenantUser_findUnique
     Store.tenantUser_findMany Store.tenantUser_find_ordered].

(** What a successful refresh went through. *)
Lemma refreshToken_Ok (L : Libs) (cfg : Config) (env : Env) (token : string)
    (w w' : World) (pair : TokenPair) :
  AuthService.refreshToken L cfg env token w = (Ok pair, w') ->
  exists payload st u,
    jwt_verify L token (jwt_refreshSecret cfg) (now env) = Some payload
    /\ find (fun r => String.eqb (rt_token r) (sha256_hex L token))
         (refreshTokens (db w)) = Some st
    /\ RefreshTokenEntity.isValid env st = true
    /\ find (fun u => String.eqb (u_id u) (sub payload)) (users (db w)) = Some u
    /\ (exists entries,
          traverse UserMapper.toEntry
            (map (Store.with_tenant (db w)) (memberships_of (db w) (u_id u)))
          = Ok entries)
    /\ hd false (faults w) = false
    /\ hd false (tl (faults w)) = false
    /\ AuthService.generateTokens L cfg env (u_id u) (tenantId payload)
         (mkWorld (db w) (tl (tl (faults w)))) = (Ok pair, w').
Proof.
  intro H. apply try_catch_rethrow_Ok in H.
  destruct w as [d fs]. unfold memberships_of. exec. exec_in H.
  repeat (break_hyp H; try discriminate H; exec_in H).
  apply negb_false_iff in Heqb0.
  eexists _, _, _. repeat split; eauto.
Qed.

(** The other direction: these conditions make the refresh succeed. *)
Lemma refreshToken_Ok_intro (L : Libs) (cfg : Config) (env : Env) (token : string)
    (d : DB) (fs : list bool) (pair : TokenPair) (payload : JwtPayload)
    (st : RefreshToken) (u : User) (entries : list UserTenantEntry) :
  jwt_verify L token (jwt_refreshSecret cfg) (now env) = Some payload ->
  find (fun r => String.eqb (rt_token r) (sha256_hex L token)) (refreshTokens d)
  = Some st ->
  RefreshTokenEntity.isValid env st = true ->
  find (fun u => String.eqb (u_id u) (sub payload)) (users d) = Some u ->
  traverse UserMapper.toEntry
    (map (Store.with_tenant d) (memberships_of d (u_id u))) = Ok entries ->
  hd false fs = false ->
  hd false (tl fs) = false ->
  fst (AuthService.generateTokens L cfg env (u_id u) (tenantId payload)
         (mkWorld d (tl (tl fs)))) = Ok pair ->
  fst (AuthService.refreshToken L cfg env token (mkWorld d fs)) = Ok pair.
Proof.
  intros Hv Hst Hvalid Hu Hent Hf1 Hf2 Hgen.
  unfold AuthService.refreshToken, try_catch, memberships_of in *.
  rewrite Hv. exec. rewrite Hf1, Hst, Hvalid. cbn [negb]. exec. rewrite Hf2, Hu. exec.
  rewrite Hent. exec. cbn [ue_id].
  destruct (AuthService.generateTokens L cfg env (u_id u) (tenantId payload)
              (mkWorld d (tl (tl fs)))) as [[p|e] w1]; simpl in Hgen.
  - inv Hgen. reflexivity.
  - discriminate Hgen.
Qed.

(** C1. A successful refresh signs both new tokens for the subject and
    the tenant of the payload of the presented token, and the memberships
    play no part in it: with any of the user's memberships deleted from
    the store, the same call answers the same pair. *)
Theorem refresh_keeps_tenant_of_payload :
  forall (L : Libs) (cfg : Config) (env : Env) (token : string)
         (w w' : World) (pair : TokenPair),
    AuthService.refreshToken L cfg env token w = (Ok pair, w') ->
    exists payload,
      jwt_verify L token (jwt_refreshSecret cfg) (now env) = Some payload
      /\ jwt_signAsync L (mkJwtPayload (sub payload) (tenantId payload))
           (accessOptions cfg) (now env) = Some (tp_accessToken pair)
      /\ jwt_signAsync L (mkJwtPayload (sub payload) (tenantId payload))
           (refreshOptions cfg) (now env) = Some (tp_refreshToken pair)
      /\ forall keep : TenantUser -> bool,
           fst (AuthService.refreshToken L cfg env token
                  (mkWorld (set_tenantUsers (db w) (filter keep (tenantUsers (db w))))
                     (faults w)))
           = Ok pair.
Proof.
  intros L cfg env token w w' pair H.
  apply refreshToken_Ok in H.
  destruct H as (payload & st & u & Hv & Hst & Hvalid & Hu & [entries Hent]
                 & Hf1 & Hf2 & Hgen).
  assert (Hid : u_id u = sub payload).
  { apply find_some in Hu. destruct Hu as [_ Hu]. apply String.eqb_eq in Hu. exact Hu. }
  exists payload. split; [exact Hv |].
  pose proof (generateTokens_Ok _ _ _ _ _ _ _ _ Hgen) as (Ha & Hr & _).
  rewrite Hid in Ha, Hr. split; [exact Ha |]. split; [exact Hr |].
  intro keep.
  unfold memberships_of in Hent.
  destruct (traverse_filter UserMapper.toEntry (Store.with_tenant (db w)) keep _ _ Hent)
    as [entries' Hent'].
  eapply refreshToken_Ok_intro with (entries := entries'); eauto.
  - unfold memberships_of. simpl. rewrite filter_filter_comm. exact Hent'.
  - erewrite generateTokens_ext with (d2 := db w); [rewrite Hgen | |]; reflexivity.
Qed.

Lemma refresh_refused_not_Ok (L : Libs) (cfg : Config) (env : Env) (token : string)
    (w : World) (pair : TokenPair) :
  refresh_refused L cfg env token (db w) ->
  fst (AuthService.refreshToken L cfg env token w) <> Ok pair.
Proof.
  intros Href Hok.
  destruct (AuthService.refreshToken L cfg env token w) as [r w'] eqn:E.
  simpl in Hok. subst r. apply refreshToken_Ok in E.
  destruct E as (payload & st & u & Hv & Hst & Hvalid & Hu & _).
  unfold RefreshTokenEntity.isValid, RefreshTokenEntity.isExpired in Hvalid.
  apply andb_true_iff in Hvalid. destruct Hvalid as [Hexp Hrev].
  apply negb_true_iff in Hexp. apply negb_true_iff in Hrev.
  apply Z.ltb_ge in Hexp.
  destruct Href as [Hn | [Hn | [(st' & Hst' & Hbad) | (p' & Hv' & Hn)]]].
  - congruence.
  - congruence.
  - assert (st' = st) by congruence. subst st'.
    destruct Hbad as [Hlt | Hr]; [lia | congruence].
  - assert (p' = payload) by congruence. subst p'. congruence.
Qed.

(** C5. A refresh that is refused for any of the listed reasons, or that
    fails for any reason at all (a store call that fails included), fails
    with [AuthInvalidRefreshTokenException] and with nothing else. *)
Theorem refresh_failure_is_InvalidRefreshToken :
  forall (L : Libs) (cfg : Config) (env : Env) (token : string) (w : World),
    refresh_refused L cfg env token (db w)
    \/ (exists e, fst (AuthService.refreshToken L cfg env token w) = Err e) ->
    fst (AuthService.refreshToken L cfg env token w)
    = Err AuthInvalidRefreshTokenException.
Proof.
  intros L cfg env token w H.
  destruct (try_catch_rethrow
              (match jwt_verify L token (jwt_refreshSecret cfg) (now env) with
               | None => throw JsonWebTokenError
               | Some payload =>
                   storedToken <- RefreshTokenRepository.findByToken L token ;;
                   match storedToken with
                   | None => throw AuthInvalidRefreshTokenException
                   | Some st =>
                       if negb (RefreshTokenEntity.isValid env st)
                       then throw AuthInvalidRefreshTokenException
                       else
                         user <- UserRepository.findById (sub payload) ;;
                         match user with
                         | None => throw AuthInvalidRefreshTokenException
                         | Some u =>
                             AuthService.generateTokens L cfg env (ue_id u)
                               (tenantId payload)
                         end
                   end
               end)
              AuthInvalidRefreshTokenException w) as [[pair Hok] | Herr].
  - exfalso. fold (AuthService.refreshToken L cfg env token) in Hok.
    destruct H as [Href | [e He]].
    + exact (refresh_refused_not_Ok _ _ _ _ _ _ Href Hok).
    + rewrite Hok in He. discriminate He.
  - exact Herr.
Qed.

(** The theorem at a token that logout has revoked. *)
Lemma refresh_failure_is_InvalidRefreshToken_witness :
  fst (AuthService.refreshToken Demo.libs Demo.config (Demo.env 6000 "1")
         Demo.aliceToken
         (after (AuthService.logout Demo.libs Demo.aliceToken) Demo.world))
  = Err AuthInvalidRefreshTokenException.
Proof.
  apply (refresh_failure_is_InvalidRefreshToken Demo.libs Demo.config
           (Demo.env 6000 "1") Demo.aliceToken
           (after (AuthService.logout Demo.libs Demo.aliceToken) Demo.world)).
  left. right. right. left.
  exists (Store.set_revoked Demo.aliceStored).
  split; [vm_compute; reflexivity | right; reflexivity].
Defined.

Lemma refresh_keeps_tenant_of_payload_witness :
  exists payload,
    jwt_verify Demo.libs Demo.aliceToken (jwt_refreshSecret Demo.config) 6000
    = Some payload
    /\ jwt_signAsync Demo.libs (mkJwtPayload (sub payload) (tenantId payload))
         (accessOptions Demo.config) 6000 = Some "access-secret.u1.tA.604806"
    /\ jwt_signAsync Demo.libs (mkJwtPayload (sub payload) (tenantId payload))
         (refreshOptions Demo.config) 6000 = Some "refresh-secret.u1.tA.2592006"
    /\ forall keep : TenantUser -> bool,
         fst (AuthService.refreshToken Demo.libs Demo.config (Demo.env 6000 "1")
                Demo.aliceToken
                (mkWorld (set_tenantUsers Demo.database
                            (filter keep (tenantUsers Demo.database))) []))
         = Ok (mkTokenPair "access-secret.u1.tA.604806"
                 "refresh-secret.u1.tA.2592006").
Proof.
  apply (refresh_keeps_tenant_of_payload Demo.libs Demo.config (Demo.env 6000 "1")
           Demo.aliceToken Demo.world
           (snd (AuthService.refreshToken Demo.libs Demo.config (Demo.env 6000 "1")
                   Demo.aliceToken Demo.world))
           (mkTokenPair "access-secret.u1.tA.604806" "refresh-secret.u1.tA.2592006")).
  vm_compute. reflexivity.
Defined.

(** C8. A successful refresh leaves the stored record of the presented
    token as it was, not revoked and still found under the hash of the
    token, and appends exactly one record, for the new refresh token;
    both records are valid when the call returns, and no other table
    changes. *)
Theorem refresh_does_not_rotate :
  forall (L : Libs) (cfg : Config) (env : Env) (token : string)
         (w w' : World) (pair : TokenPair),
    AuthService.refreshToken L cfg env token w = (Ok pair, w') ->
    exists old new,
      find (fun r => String.eqb (rt_token r) (sha256_hex L token))
        (refreshTokens (db w)) = Some old
      /\ rt_revoked old = false
      /\ refreshTokens (db w') = (refreshTokens (db w) ++ [new])%list
      /\ rt_token new = sha256_hex L (tp_refreshToken pair)
      /\ find (fun r => String.eqb (rt_token r) (sha256_hex L token))
           (refreshTokens (db w')) = Some old
      /\ RefreshTokenEntity.isValid env old = true
      /\ RefreshTokenEntity.isValid env new = true
      /\ users (db w') = users (db w)
      /\ tenants (db w') = tenants (db w)
      /\ tenantUsers (db w') = tenantUsers (db w)
      /\ invitations (db w') = invitations (db w).
Proof.
  intros L cfg env token w w' pair H.
  apply refreshToken_Ok in H.
  destruct H as (payload & st & u & Hv & Hst & Hvalid & Hu & _ & _ & _ & Hgen).
  apply generateTokens_Ok in Hgen.
  destruct Hgen as (_ & _ & Hdb & _ & _ & _). simpl in Hdb.
  exists st, (storedRecord L env (u_id u) (tp_refreshToken pair)).
  rewrite Hdb. simpl.
  repeat split; auto.
  - unfold RefreshTokenEntity.isValid in Hvalid.
    apply andb_true_iff in Hvalid. destruct Hvalid as [_ Hrev].
    apply negb_true_iff in Hrev. exact Hrev.
  - apply find_app_Some. exact Hst.
  - unfold RefreshTokenEntity.isValid, RefreshTokenEntity.isExpired, storedRecord,
      setDate_plus. simpl.
    rewrite andb_true_r. apply negb_true_iff. apply Z.ltb_ge. lia.
Qed.

Lemma refresh_does_not_rotate_witness :
  exists old new,
    find (fun r => String.eqb (rt_token r) (sha256_hex Demo.libs Demo.aliceToken))
      (refreshTokens Demo.database) = Some old
    /\ rt_revoked old = false
    /\ refreshTokens
         (db (after (AuthService.refreshToken Demo.libs Demo.config
                       (Demo.env 6000 "1") Demo.aliceToken) Demo.world))
       = (refreshTokens Demo.database ++ [new])%list
    /\ rt_token new = sha256_hex Demo.libs "refresh-secret.u1.tA.2592006"
    /\ find (fun r => String.eqb (rt_token r) (sha256_hex Demo.libs Demo.aliceToken))
         (refreshTokens
            (db (after (AuthService.refreshToken Demo.libs Demo.config
                          (Demo.env 6000 "1") Demo.aliceToken) Demo.world)))
       = Some old
    /\ RefreshTokenEntity.isValid (Demo.env 6000 "1") old = true
    /\ RefreshTokenEntity.isValid (Demo.env 6000 "1") new = true
    /\ users (db (after (AuthService.refreshToken Demo.libs Demo.config
                           (Demo.env 6000 "1") Demo.aliceToken) Demo.world))
       = users Demo.database
    /\ tenants (db (after (AuthService.refreshToken Demo.libs Demo.config
                             (Demo.env 6000 "1") Demo.aliceToken) Demo.world))
       = tenants Demo.database
    /\ tenantUsers (db (after (AuthService.refreshToken Demo.libs Demo.config
                                 (Demo.env 6000 "1") Demo.aliceToken) Demo.world))
       = tenantUsers Demo.database
    /\ invitations (db (after (AuthService.refreshToken Demo.libs Demo.config
                                 (Demo.env 6000 "1") Demo.aliceToken) Demo.world))
       = invitations Demo.database.
Proof.
  apply (refresh_does_not_rotate Demo.libs Demo.config (Demo.env 6000 "1")
           Demo.aliceToken Demo.world
           (after (AuthService.refreshToken Demo.libs Demo.config
                     (Demo.env 6000 "1") Demo.aliceToken) Demo.world)
           (mkTokenPair "access-secret.u1.tA.604806" "refresh-secret.u1.tA.2592006")).
  vm_compute. reflexivity.
Defined.

(** ** Expiry of the stored record *)

(** With the default life time, or with one configured to thirty days,
    the stored expiry is the issue time plus the life time of the JWT. *)
Lemma stored_expiry_matches_thirty_days (L : Libs) (cfg : Config) (env : Env)
    (userId tid : string) (w w' : World) (pair : TokenPair) :
  refreshLifetime cfg = Some (30 * 86400000) ->
  AuthService.generateTokens L cfg env userId tid w = (Ok pair, w') ->
  exists r,
    refreshTokens (db w') = (refreshTokens (db w) ++ [r])%list
    /\ Some (rt_expiresAt r - now env) = refreshLifetime cfg.
Proof.
  intros Hcfg H. apply generateTokens_Ok in H.
  destruct H as (_ & _ & Hdb & _).
  exists (storedRecord L env userId (tp_refreshToken pair)).
  rewrite Hdb, Hcfg. simpl. split; [reflexivity |].
  unfold setDate_plus. f_equal. lia.
Qed.

Lemma refreshLifetime_default :
  refreshLifetime (mkConfig None None None None) = Some (30 * 86400000).
Proof. reflexivity. Qed.

(** C9. The stored expiry is the issue time plus thirty days whatever
    life time is configured: with a refresh life time of seven days the
    JWT is signed for seven days, and the record that is stored for it
    expires after thirty. *)
Theorem stored_expiry_ignores_configured_lifetime :
  forall (L : Libs) (cfg : Config) (env : Env) (userId tid : string)
         (w w' : World) (pair : TokenPair),
    jwt_refreshExpiresIn cfg = Some "7d" ->
    AuthService.generateTokens L cfg env userId tid w = (Ok pair, w') ->
    exists r,
      refreshTokens (db w') = (refreshTokens (db w) ++ [r])%list
      /\ jwt_signAsync L (mkJwtPayload userId tid)
           (mkSignOptions (jwt_refreshSecret cfg) (Some "7d")) (now env)
         = Some (tp_refreshToken pair)
      /\ refreshLifetime cfg = Some (7 * 86400000)
      /\ rt_expiresAt r - now env = 30 * 86400000
      /\ Some (rt_expiresAt r - now env) <> refreshLifetime cfg.
Proof.
  intros L cfg env userId tid w w' pair Hcfg H.
  apply generateTokens_Ok in H.
  destruct H as (_ & Hr & Hdb & _).
  exists (storedRecord L env userId (tp_refreshToken pair)).
  unfold refreshOptions, refreshLifetime in *. rewrite Hcfg in *.
  rewrite Hdb. simpl. unfold setDate_plus.
  repeat split.
  - exact Hr.
  - lia.
  - intro Hc. inv Hc. lia.
Qed.

Lemma stored_expiry_ignores_configured_lifetime_witness :
  exists r,
    refreshTokens
      (db (after (AuthService.generateTokens Demo.libs Demo.config7d
                    (Demo.env 6000 "1") "u1" "tA") Demo.world))
    = (refreshTokens Demo.database ++ [r])%list
    /\ jwt_signAsync Demo.libs (mkJwtPayload "u1" "tA")
         (mkSignOptions (jwt_refreshSecret Demo.config7d) (Some "7d")) 6000
       = Some "refresh-secret.u1.tA.604806"
    /\ refreshLifetime Demo.config7d = Some (7 * 86400000)
    /\ rt_expiresAt r - 6000 = 30 * 86400000
    /\ Some (rt_expiresAt r - 6000) <> refreshLifetime Demo.config7d.
Proof.
  apply (stored_expiry_ignores_configured_lifetime Demo.libs Demo.config7d
           (Demo.env 6000 "1") "u1" "tA" Demo.world
           (after (AuthService.generateTokens Demo.libs Demo.config7d
                     (Demo.env 6000 "1") "u1" "tA") Demo.world)
           (mkTokenPair "access-secret.u1.tA.3606" "refresh-secret.u1.tA.604806")).
  - reflexivity.
  - vm_compute. reflexivity.
Defined.

(** ** Frames: what a computation may do to the database

    [R] relates the database before a computation to the database after
    it. A relation that holds of every store call of a computation, and
    that is reflexive and transitive, holds of the computation. *)
Section Frames.

Variable R : DB -> DB -> Prop.
Hypothesis R_refl : forall d, R d d.
Hypothesis R_trans : forall a b c, R a b -> R b c -> R a c.

Lemma keeps_ret {A : Type} (a : A) : keeps R (ret a).
  Proof. intro w. apply R_refl. Qed.

Lemma keeps_throw {A : Type} (e : Exn) : keeps R (@throw A e).
  Proof. intro w. apply R_refl. Qed.

Lemma keeps_lift {A : Type} (r : Result A) : keeps R (lift r).
  Proof. destruct r; [apply keeps_ret | apply keeps_throw]. Qed.

Lemma keeps_bind {A B : Type} (m : M A) (k : A -> M B) :
    keeps R m -> (forall a, keeps R (k a)) -> keeps R (bind m k).
  Proof.
    intros Hm Hk w. unfold bind. specialize (Hm w).
    destruct (m w) as [[a|e] w1]; simpl in *.
    - eapply R_trans; [exact Hm | apply Hk].
    - exact Hm.
  Qed.

Lemma keeps_try_catch {A : Type} (m : M A) (h : Exn -> M A) :
    keeps R m -> (forall e, keeps R (h e)) -> keeps R (try_catch m h).
  Proof.
    intros Hm Hh w. unfold try_catch. specialize (Hm w).
    destruct (m w) as [[a|e] w1]; simpl in *.
    - exact Hm.
    - eapply R_trans; [exact Hm | apply Hh].
  Qed.

Lemma keeps_transaction {A : Type} (body : M A) :
    keeps R body -> keeps R (transaction body).
  Proof.
    intros Hm w. unfold transaction. specialize (Hm w).
    destruct (body w) as [[a|e] w1]; simpl in *.
    - exact Hm.
    - apply R_refl.
  Qed.

Lemma keeps_store {A : Type} (q : Query A) :
    (forall d a d', q d = inr (a, d') -> R d d') -> keeps R (store q).
  Proof.
    intros Hq w. unfold store.
    destruct (hd false (faults w)); simpl; [apply R_refl |].
    destruct (q (db w)) as [e | [a d]] eqn:E; simpl; [apply R_refl |].
    eapply Hq. exact E.
  Qed.

Lemma keeps_transaction_beside {A : Type} (beside : DB -> DB -> DB) (body : M A) :
    (forall d d', R d d' -> R d (beside d d')) ->
    keeps R body -> keeps R (transaction_beside beside body).
  Proof.
    intros Hb Hm.
    assert (Hc : keeps R (a <- body ;; _ <- commit ;; ret a)).
    { apply keeps_bind; [exact Hm | intro a].
      apply keeps_bind; [| intro; apply keeps_ret].
      apply keeps_store. intros d u d' Hq. inversion Hq. apply R_refl. }
    intro w. unfold transaction_beside. specialize (Hc w).
    destruct ((a <- body ;; _ <- commit ;; ret a) w) as [[a|e] w1]; simpl in *.
    - exact Hc.
    - apply Hb. exact Hc.
  Qed.

End Frames.

(** ** Invitations are kept, accepted or removed *)

Ltac unfold_queries_in H :=
  unfold Store.user_findUnique_email_include, Store.user_findUnique_id_include,
    Store.user_findUnique_email, Store.user_findUnique_id, Store.user_create,
    Store.user_delete, Store.tenant_findUnique_id, Store.tenant_create,
    Store.tenant_delete, Store.tenantUser_findUnique, Store.tenantUser_findMany,
    Store.tenantUser_find_ordered, Store.tenantUser_upsert,
    Store.tenantUser_create, Store.tenantUser_update_role,
    Store.tenantUser_delete, Store.invitation_findUnique_token,
    Store.invitation_update_accepted, Store.invitation_delete,
    Store.refreshToken_create, Store.refreshToken_findUnique_token,
    Store.refreshToken_update_revoked, Store.refreshToken_updateMany_revoked,
    Store.refreshToken_deleteMany_expired, UserRepository.updatePassword_query in H.


Lemma set_accepted_idem (i : Invitation) :
  Store.set_accepted (Store.set_accepted i) = Store.set_accepted i.
Proof. reflexivity. Qed.














Lemma runs_app (L : Libs) (cfg : Config) (ops1 ops2 : list (Env * Op)) (w : World) :
  runs L cfg (ops1 ++ ops2) w = runs L cfg ops2 (runs L cfg ops1 w).
Proof.
  revert w. induction ops1 as [|[env o] ops1 IH]; intro w; simpl; auto.
Qed.


(** ** Accepting an invitation *)

Lemma upsert_inr (t : Z) (userId tid : string) (role : TenantRole) (d d' : DB)
    (m : TenantUser) :
  Store.tenantUser_upsert t userId tid role d = inr (m, d') ->
  users d' = users d /\ tenants d' = tenants d
  /\ refreshTokens d' = refreshTokens d /\ invitations d' = invitations d
  /\ exists m', In m' (tenantUsers d')
       /\ tu_userId m' = userId /\ tu_tenantId m' = tid /\ tu_role m' = role.
Proof.
  unfold Store.tenantUser_upsert, Store.tenantUser_update_role, Store.tenantUser_create.
  intro H. repeat (break_hyp H; try discriminate H); inv H; simpl;
    repeat (split; [reflexivity |]).
  - match goal with
    | Hf : find _ _ = Some ?m0 |- _ =>
        pose proof (find_some _ _ Hf) as [Hin Hm];
        exists (Store.set_role role m0)
    end.
    split.
    + apply in_map_iff. eexists. split; [| exact Hin]. rewrite Hm. reflexivity.
    + unfold Store.is_member in Hm. apply andb_true_iff in Hm.
      destruct Hm as [Hu Ht]. apply String.eqb_eq in Hu, Ht. simpl. auto.
  - eexists. split; [apply in_or_app; right; left; reflexivity |]. simpl. auto.
Qed.








(** A second acceptance of an accepted invitation is refused before any
    write. *)
Lemma acceptInvitation_replay (orm : Orm) (L : Libs) (cfg : Config) (env : Env)
    (dto : AcceptInvitationDto) (w : World) (i : Invitation) :
  find (fun i => String.eqb (inv_token i) (ad_token dto)) (invitations (db w)) = Some i ->
  inv_accepted i = true ->
  db (after (acceptInvitation orm L cfg env dto) w) = db w
  /\ (exists e, fst (acceptInvitation orm L cfg env dto w) = Err e)
  /\ (hd false (faults w) = false ->
      fst (acceptInvitation orm L cfg env dto w)
      = Err InvitationAlreadyAcceptedException).
Proof.
  intros Hfind Hacc.
  destruct orm; unfold after, acceptInvitation, PrismaAuthService.acceptInvitation,
    TypeOrmAuthService.acceptInvitation, bind, throw, InvitationRepository.findByToken,
    store, Store.invitation_findUnique_token;
    (destruct (hd false (faults w)); simpl;
     [ split; [reflexivity | split; [eauto | discriminate]]
     | rewrite Hfind, Hacc; simpl; split; [reflexivity | split; [eauto | reflexivity]] ]).
Qed.



(** ** Refresh tokens are stored hashed *)

Lemma appended_refl (L : Libs) (cfg : Config) (env : Env) (d : DB) :
  tokens_appended L cfg env d d.
Proof. exists []. split; [symmetry; apply app_nil_r | constructor]. Qed.

Lemma appended_trans (L : Libs) (cfg : Config) (env : Env) (a b c : DB) :
  tokens_appended L cfg env a b -> tokens_appended L cfg env b c ->
  tokens_appended L cfg env a c.
Proof.
  intros (r1 & H1 & F1) (r2 & H2 & F2). exists (r1 ++ r2)%list. split.
  - rewrite H2, H1, app_assoc. reflexivity.
  - apply Forall_app. split; assumption.
Qed.

Lemma appended_same (L : Libs) (cfg : Config) (env : Env) (d d' : DB) :
  refreshTokens d' = refreshTokens d -> tokens_appended L cfg env d d'.
Proof.
  intro H. exists []. split; [rewrite H; symmetry; apply app_nil_r | constructor].
Qed.

Lemma generateTokens_appended (L : Libs) (cfg : Config) (env : Env)
    (userId tid : string) :
  keeps (tokens_appended L cfg env) (AuthService.generateTokens L cfg env userId tid).
Proof.
  intro w.
  destruct (AuthService.generateTokens L cfg env userId tid w) as [[pair|e] w'] eqn:E;
    simpl.
  - apply generateTokens_Ok in E. destruct E as (_ & Hr & Hdb & _).
    exists [storedRecord L env userId (tp_refreshToken pair)].
    split; [rewrite Hdb; reflexivity |].
    constructor; [| constructor]. eauto.
  - apply generateTokens_Err in E. apply appended_same. rewrite E. reflexivity.
Qed.

(** A statement of the store that does not write to the refresh tokens. *)
Ltac appended_query :=
  let d := fresh "d" in
  let a := fresh "a" in
  let d' := fresh "d'" in
  let Hq := fresh "Hq" in
  intros d a d' Hq; unfold_queries_in Hq;
  repeat (break_hyp Hq; try discriminate Hq);
  inv Hq; apply appended_same; reflexivity.

Lemma appended_beside (L : Libs) (cfg : Config) (env : Env) (d d' : DB) :
  tokens_appended L cfg env d d' ->
  tokens_appended L cfg env d (set_invitations d (invitations d')).
Proof. intros _. apply appended_same. reflexivity. Qed.

Ltac appended_step L cfg env :=
  first
    [ apply (keeps_ret _ (appended_refl L cfg env))
    | apply (keeps_transaction_beside _ (appended_refl L cfg env)
               (appended_trans L cfg env) _ _ (appended_beside L cfg env))
    | apply (keeps_throw _ (appended_refl L cfg env))
    | apply (keeps_lift _ (appended_refl L cfg env))
    | apply (keeps_transaction _ (appended_refl L cfg env))
    | apply generateTokens_appended
    | apply (keeps_store _ (appended_refl L cfg env)); appended_query
    | apply (keeps_bind _ (appended_trans L cfg env)); [| intro]
    | apply (keeps_try_catch _ (appended_trans L cfg env)); [| intro]
    | break_goal ].

Lemma run_appended (L : Libs) (cfg : Config) (env : Env) (o : Op) (w : World) :
  issues_tokens o = true ->
  tokens_appended L cfg env (db w) (db (run L cfg env o w)).
Proof.
  intro Hi.
  assert (G : forall A (m : M A), keeps (tokens_appended L cfg env) m ->
                tokens_appended L cfg env (db w) (db (after m w))).
  { intros A m Hm. apply Hm. }
  destruct o as [[] dto | [] dto | token | token | [] dto | | | | | | | | | | |];
    try discriminate Hi; simpl; apply G;
    unfold PrismaAuthService.register, TypeOrmAuthService.register,
      PrismaAuthService.registerTransaction, TypeOrmAuthService.registerTransaction,
      PrismaAuthService.login, TypeOrmAuthService.login,
      AuthService.refreshToken,
      PrismaAuthService.acceptInvitation, TypeOrmAuthService.acceptInvitation,
      PrismaAuthService.invitedUser, TypeOrmAuthService.invitedUser,
      PrismaAuthService.joinTenant, TypeOrmAuthService.joinTenant,
      InvitationRepository.markAsAccepted, InvitationRepository.findByToken,
      UserRepository.findByEmail, UserRepository.findById,
      UserRepository.findByEmailWithPassword, UserRepository.getUserTenants,
      RefreshTokenRepository.findByToken;
    cbv zeta;
    repeat appended_step L cfg env.
Qed.

Lemma hex_char_not_dot (c : ascii) :
  is_hex_char c = true -> Ascii.eqb c "."%char = false.
Proof.
  destruct c as [[] [] [] [] [] [] [] []]; vm_compute; congruence.
Qed.

Lemma hex_has_no_dot (s : string) :
  all_chars is_hex_char s = true -> has_char "."%char s = false.
Proof.
  induction s as [|c s IH]; simpl; [reflexivity |].
  intro H. apply andb_true_iff in H. destruct H as [Hc Hs].
  rewrite (hex_char_not_dot c Hc), (IH Hs). reflexivity.
Qed.

(** The digest of a signed token is not the token. *)
Lemma digest_differs (L : Libs) (p : JwtPayload) (o : SignOptions) (t : Z)
    (raw : string) :
  digest_is_hex L -> jwt_is_dotted L ->
  jwt_signAsync L p o t = Some raw -> sha256_hex L raw <> raw.
Proof.
  intros Hh Hd Hs Heq.
  pose proof (hex_has_no_dot _ (Hh raw)) as Hno.
  rewrite Heq in Hno. rewrite (Hd _ _ _ _ Hs) in Hno. discriminate Hno.
Qed.

Lemma map_unchanged {A : Type} (f : A -> bool) (g : A -> A) (l : list A) :
  existsb f l = false -> map (fun x => if f x then g x else x) l = l.
Proof.
  induction l as [|a l IH]; simpl; [reflexivity |].
  intro H. apply orb_false_iff in H. destruct H as [Ha Hl].
  rewrite Ha, (IH Hl). reflexivity.
Qed.

(** C7. Given a digest in hexadecimal and tokens in the dotted form of a
    JWT: (1) every operation that issues tokens only appends to the table
    of refresh tokens, and every record it appends holds the digest of a
    token the JWT service signed, which is not the token; (2) a
    successful [generateTokens] appends one record, holding the digest of
    the refresh token it returns, and the lookup of that token finds this
    record; (3) lookup and revocation go by the digest of the token they
    are given. *)
Theorem refresh_tokens_are_stored_hashed :
  forall (L : Libs) (cfg : Config),
    digest_is_hex L ->
    jwt_is_dotted L ->
    (forall (env : Env) (o : Op) (w : World),
        issues_tokens o = true ->
        exists rows,
          refreshTokens (db (run L cfg env o w)) = (refreshTokens (db w) ++ rows)%list
          /\ Forall (fun r => exists userId tid raw,
                        jwt_signAsync L (mkJwtPayload userId tid) (refreshOptions cfg)
                          (now env) = Some raw
                        /\ rt_token r = sha256_hex L raw
                        /\ rt_token r <> raw) rows)
    /\ (forall (env : Env) (userId tid : string) (w w' : World) (pair : TokenPair),
          AuthService.generateTokens L cfg env userId tid w = (Ok pair, w') ->
          exists r,
            refreshTokens (db w') = (refreshTokens (db w) ++ [r])%list
            /\ rt_token r = sha256_hex L (tp_refreshToken pair)
            /\ rt_token r <> tp_refreshToken pair
            /\ fst (RefreshTokenRepository.findByToken L (tp_refreshToken pair)
                      (mkWorld (db w') [])) = Ok (Some r))
    /\ (forall (token : string) (d : DB),
          fst (RefreshTokenRepository.findByToken L token (mkWorld d []))
          = Ok (find (fun r => String.eqb (rt_token r) (sha256_hex L token))
                  (refreshTokens d))
          /\ refreshTokens (db (after (RefreshTokenRepository.revoke L token)
                                  (mkWorld d [])))
             = map (fun r => if String.eqb (rt_token r) (sha256_hex L token)
                             then Store.set_revoked r else r)
                 (refreshTokens d)).
Proof.
  intros L cfg Hh Hd. split; [| split].
  - intros env o w Hi.
    destruct (run_appended L cfg env o w Hi) as (rows & Hrows & Hall).
    exists rows. split; [exact Hrows |].
    eapply Forall_impl; [| exact Hall].
    intros r (userId & tid & raw & Hs & ->).
    exists userId, tid, raw. split; [exact Hs |]. split; [reflexivity |].
    simpl. eapply digest_differs; eauto.
  - intros env userId tid w w' pair H.
    pose proof (generateTokens_Ok _ _ _ _ _ _ _ _ H) as (_ & Hr & Hdb & Hex & _).
    exists (storedRecord L env userId (tp_refreshToken pair)).
    rewrite Hdb. simpl. split; [reflexivity |]. split; [reflexivity |].
    split; [eapply digest_differs; eauto |].
    unfold RefreshTokenRepository.findByToken, RefreshTokenRepository.hashToken,
      store, Store.refreshToken_findUnique_token. simpl.
    rewrite (find_app_None _ _ _ (find_existsb_false _ _ Hex)). simpl.
    rewrite String.eqb_refl. reflexivity.
  - intros token d. split; [reflexivity |].
    unfold after, RefreshTokenRepository.revoke, RefreshTokenRepository.hashToken,
      store, Store.refreshToken_update_revoked. simpl.
    destruct (existsb (fun r => String.eqb (rt_token r) (sha256_hex L token))
                (refreshTokens d)) eqn:E; simpl; [reflexivity |].
    symmetry. apply (map_unchanged _ Store.set_revoked _ E).
Qed.

Lemma demo_hex_digit (c : ascii) :
  is_hex_char (Demo.hex_digit (nat_of_ascii c / 16)) = true
  /\ is_hex_char (Demo.hex_digit (nat_of_ascii c mod 16)) = true.
Proof.
  destruct c as [[] [] [] [] [] [] [] []]; vm_compute; split; reflexivity.
Qed.

Lemma demo_digest_is_hex : digest_is_hex Demo.libs.
Proof.
  intro s. simpl. induction s as [|c s IH]; [reflexivity |].
  destruct (demo_hex_digit c) as [H1 H2].
  change (all_chars is_hex_char (Demo.digest (String c s)))
    with (is_hex_char (Demo.hex_digit (nat_of_ascii c / 16))
          && (is_hex_char (Demo.hex_digit (nat_of_ascii c mod 16))
              && all_chars is_hex_char (Demo.digest s))).
  rewrite H1, H2, IH. reflexivity.
Qed.

Lemma has_char_app (c : ascii) (a b : string) :
  has_char c (a ++ String c b) = true.
Proof.
  induction a as [|x a IH]; simpl.
  - rewrite Ascii.eqb_refl. reflexivity.
  - rewrite IH. apply orb_true_r.
Qed.

Lemma demo_jwt_is_dotted : jwt_is_dotted Demo.libs.
Proof.
  intros p o t tok. simpl. unfold Demo.signAsync.
  destruct (so_secret o) as [secret|]; [| discriminate].
  destruct (so_expiresIn o) as [e|]; [| discriminate].
  destruct (ms e) as [k|]; [| discriminate].
  intro H. inv H. apply has_char_app.
Qed.

(** The theorem at the token pair issued to Alice for Acme. *)
Lemma refresh_tokens_are_stored_hashed_witness :
  exists r,
    refreshTokens
      (db (after (AuthService.generateTokens Demo.libs Demo.config
                    (Demo.env 6000 "1") "u1" "tA") Demo.world))
    = (refreshTokens Demo.database ++ [r])%list
    /\ rt_token r = sha256_hex Demo.libs "refresh-secret.u1.tA.2592006"
    /\ rt_token r <> "refresh-secret.u1.tA.2592006"
    /\ fst (RefreshTokenRepository.findByToken Demo.libs "refresh-secret.u1.tA.2592006"
              (mkWorld
                 (db (after (AuthService.generateTokens Demo.libs Demo.config
                               (Demo.env 6000 "1") "u1" "tA") Demo.world)) []))
       = Ok (Some r).
Proof.
  apply (proj1 (proj2 (refresh_tokens_are_stored_hashed Demo.libs Demo.config
                         demo_digest_is_hex demo_jwt_is_dotted))
           (Demo.env 6000 "1") "u1" "tA" Demo.world
           (after (AuthService.generateTokens Demo.libs Demo.config
                     (Demo.env 6000 "1") "u1" "tA") Demo.world)
           (mkTokenPair "access-secret.u1.tA.604806" "refresh-secret.u1.tA.2592006")).
  vm_compute. reflexivity.
Defined.

(** ** Registration *)

Lemma user_create_inr (id : string) (t : Z) (email password : string)
    (firstName lastName : option string) (d d' : DB) (u : User) :
  Store.user_create id t email password firstName lastName d = inr (u, d') ->
  u = mkUser id email password firstName lastName t
  /\ d' = set_users d (users d ++ [u]).
Proof.
  unfold Store.user_create. intro H. break_hyp H; [discriminate H |]. inv H. auto.
Qed.

Lemma tenant_create_inr (id : string) (t : Z) (name slug : string) (d d' : DB)
    (x : Tenant) :
  Store.tenant_create id t name slug d = inr (x, d') ->
  x = mkTenant id name slug t /\ d' = set_tenants d (tenants d ++ [x]).
Proof.
  unfold Store.tenant_create. intro H. break_hyp H; [discriminate H |]. inv H. auto.
Qed.

Lemma tenantUser_create_inr (t : Z) (userId tid : string) (role : TenantRole)
    (d d' : DB) (m : TenantUser) :
  Store.tenantUser_create t userId tid role d = inr (m, d') ->
  m = mkTenantUser userId tid role t
  /\ d' = set_tenantUsers d (tenantUsers d ++ [m]).
Proof.
  unfold Store.tenantUser_create. intro H.
  repeat (break_hyp H; try discriminate H). inv H. auto.
Qed.

(** Either statement that the two revisions use to write the membership
    of the new user leaves the other tables alone and leaves a membership
    with the given key and role. *)
Lemma membership_written (orm : Orm) (t : Z) (userId tid : string)
    (role : TenantRole) (d d' : DB) (m : TenantUser) :
  match orm with
  | Prisma => Store.tenantUser_create t userId tid role
  | TypeORM => Store.tenantUser_upsert t userId tid role
  end d = inr (m, d') ->
  users d' = users d /\ tenants d' = tenants d
  /\ refreshTokens d' = refreshTokens d /\ invitations d' = invitations d
  /\ exists m', In m' (tenantUsers d')
       /\ tu_userId m' = userId /\ tu_tenantId m' = tid /\ tu_role m' = role.
Proof.
  destruct orm; intro H.
  - apply tenantUser_create_inr in H. destruct H as [-> ->]. simpl.
    repeat (split; [reflexivity |]).
    eexists. split; [apply in_or_app; right; left; reflexivity |]. simpl. auto.
  - apply upsert_inr in H. exact H.
Qed.

(** What the callback of the transaction has written when it returns. *)
Lemma registerTransaction_Ok (orm : Orm) (env : Env) (dto : RegisterDto)
    (hashedPassword : string) (w w' : World) (user : User) (tid : string) :
  registerTransaction orm env dto hashedPassword w = (Ok (user, tid), w') ->
  users (db w') = (users (db w) ++ [user])%list
  /\ refreshTokens (db w') = refreshTokens (db w)
  /\ invitations (db w') = invitations (db w)
  /\ exists m, In m (tenantUsers (db w'))
       /\ tu_userId m = u_id user /\ tu_tenantId m = tid
       /\ tu_role m = if truthy (rd_tenantId dto) then MEMBER else OWNER.
Proof.
  intro H.
  assert (E : registerTransaction orm env dto hashedPassword w
              = (newUser <- store (Store.user_create (uuid_user env) (now env)
                                     (rd_email dto) hashedPassword
                                     (rd_firstName dto) (rd_lastName dto)) ;;
                 if truthy (rd_tenantId dto) then
                   tenant <- store (Store.tenant_findUnique_id (the (rd_tenantId dto))) ;;
                   match tenant with
                   | None => throw (AuthTenantNotFoundException (the (rd_tenantId dto)))
                   | Some _ =>
                       _ <- store (match orm with
                                   | Prisma => Store.tenantUser_create (now env)
                                                 (u_id newUser) (the (rd_tenantId dto)) MEMBER
                                   | TypeORM => Store.tenantUser_upsert (now env)
                                                  (u_id newUser) (the (rd_tenantId dto)) MEMBER
                                   end) ;;
                       ret (newUser, the (rd_tenantId dto))
                   end
                 else
                   tenant <- store (Store.tenant_create (uuid_tenant env) (now env)
                                      (AuthService.workspaceName (rd_firstName dto))
                                      (AuthService.generateSlug env (rd_email dto))) ;;
                   _ <- store (match orm with
                               | Prisma => Store.tenantUser_create (now env)
                                             (u_id newUser) (t_id tenant) OWNER
                               | TypeORM => Store.tenantUser_upsert (now env)
                                              (u_id newUser) (t_id tenant) OWNER
                               end) ;;
                   ret (newUser, t_id tenant)) w).
  { destruct orm; reflexivity. }
  rewrite E in H. clear E.
  apply bind_Ok in H. destruct H as (newUser & w1 & Hu & H).
  apply store_Ok in Hu. destruct Hu as (_ & Hu & _).
  apply user_create_inr in Hu. destruct Hu as [_ Hu].
  destruct (truthy (rd_tenantId dto)).
  - apply bind_Ok in H. destruct H as (tenant & w2 & Ht & H).
    apply store_Ok in Ht. destruct Ht as (_ & Ht & _).
    unfold Store.tenant_findUnique_id in Ht. inv Ht.
    destruct (find _ (tenants (db w1))); [| discriminate H].
    apply bind_Ok in H. destruct H as (m & w3 & Hm & H). inv H.
    apply store_Ok in Hm. destruct Hm as (_ & Hm & _).
    apply membership_written in Hm.
    destruct Hm as (Hus & _ & Hrt & Hinv & m' & Hin & Hm').
    match goal with Hd : db w1 = db w2 |- _ => rewrite <- Hd in * end.
    rewrite Hus, Hrt, Hinv, Hu. simpl. repeat (split; [reflexivity |]). eauto.
  - apply bind_Ok in H. destruct H as (tenant & w2 & Ht & H).
    apply store_Ok in Ht. destruct Ht as (_ & Ht & _).
    apply tenant_create_inr in Ht. destruct Ht as [_ Ht].
    apply bind_Ok in H. destruct H as (m & w3 & Hm & H). inv H.
    apply store_Ok in Hm. destruct Hm as (_ & Hm & _).
    apply membership_written in Hm.
    destruct Hm as (Hus & _ & Hrt & Hinv & m' & Hin & Hm').
    rewrite Hus, Hrt, Hinv, Ht, Hu. simpl. repeat (split; [reflexivity |]). eauto.
Qed.

Lemma findByEmail_db (email : string) (w : World) :
  db (snd (UserRepository.findByEmail email w)) = db w.
Proof.
  destruct w as [d fs]. unfold UserRepository.findByEmail. exec.
  repeat (break_goal; exec); reflexivity.
Qed.

(** With a tenant id that no tenant has, the callback throws. *)
Lemma registerTransaction_no_tenant (orm : Orm) (env : Env) (dto : RegisterDto)
    (hashedPassword : string) (w : World) (tid : string) :
  rd_tenantId dto = Some tid -> tid <> "" ->
  find (fun t => String.eqb (t_id t) tid) (tenants (db w)) = None ->
  (exists e, fst (registerTransaction orm env dto hashedPassword w) = Err e)
  /\ (hd false (faults w) = false -> hd false (tl (faults w)) = false ->
      existsb (fun u => String.eqb (u_id u) (uuid_user env)
                        || String.eqb (u_email u) (rd_email dto)) (users (db w)) = false ->
      fst (registerTransaction orm env dto hashedPassword w)
      = Err (AuthTenantNotFoundException tid)).
Proof.
  intros Htid Hne Hfind.
  assert (Ht : truthy (rd_tenantId dto) = true).
  { rewrite Htid. simpl. apply negb_true_iff. apply String.eqb_neq. exact Hne. }
  destruct w as [d fs]. simpl in Hfind.
  destruct orm; simpl; unfold PrismaAuthService.registerTransaction,
    TypeOrmAuthService.registerTransaction; rewrite Ht, Htid; exec;
    unfold Store.user_create;
    (destruct (hd false fs);
     [ split; [eauto | discriminate]
     | destruct (existsb _ (users d));
       [ split; [eauto | congruence]
       | exec; cbn [the tenants set_users db faults];
         destruct (hd false (tl fs));
         [ split; [eauto | discriminate]
         | rewrite Hfind; split; [eauto | reflexivity] ] ] ]).
Qed.

Lemma register_eq (orm : Orm) (L : Libs) (cfg : Config) (env : Env)
    (dto : RegisterDto) :
  register orm L cfg env dto
  = (existingUser <- UserRepository.findByEmail (rd_email dto) ;;
     match existingUser with
     | Some _ => throw (AuthUserAlreadyExistsException (rd_email dto))
     | None =>
         '(user, activeTenantId) <- transaction
             (registerTransaction orm env dto
                (bcrypt_hash L (rd_password dto) 12 (salt env))) ;;
         tokens <- AuthService.generateTokens L cfg env (u_id user) activeTenantId ;;
         ret (mkAuthResponse (UserMapper.excludePassword user) tokens)
     end).
Proof. destruct orm; reflexivity. Qed.

Lemma existsb_orb_false {A : Type} (f g : A -> bool) (l : list A) :
  existsb f l = false -> find g l = None ->
  existsb (fun x => f x || g x) l = false.
Proof.
  induction l as [|a l IH]; simpl; [reflexivity |].
  intros Hf Hg. apply orb_false_iff in Hf. destruct Hf as [Hfa Hfl].
  destruct (g a) eqn:Hga; [discriminate Hg |].
  rewrite Hfa. simpl. apply IH; assumption.
Qed.

(** Registration into a tenant that does not exist fails and leaves the
    database as it was. *)
Lemma register_no_tenant (orm : Orm) (L : Libs) (cfg : Config) (env : Env)
    (dto : RegisterDto) (w : World) (tid : string) :
  rd_tenantId dto = Some tid -> tid <> "" ->
  find (fun t => String.eqb (t_id t) tid) (tenants (db w)) = None ->
  (exists e, fst (register orm L cfg env dto w) = Err e)
  /\ db (after (register orm L cfg env dto) w) = db w
  /\ (faults w = [] ->
      find (fun u => String.eqb (u_email u) (rd_email dto)) (users (db w)) = None ->
      existsb (fun u => String.eqb (u_id u) (uuid_user env)) (users (db w)) = false ->
      fst (register orm L cfg env dto w) = Err (AuthTenantNotFoundException tid)).
Proof.
  intros Htid Hne Hfind. rewrite register_eq. unfold after, bind.
  pose proof (findByEmail_db (rd_email dto) w) as Hdb.
  destruct (UserRepository.findByEmail (rd_email dto) w) as [[ex|e] w1] eqn:E1;
    simpl in Hdb.
  - destruct ex as [u|].
    + simpl. split; [eauto |]. split; [exact Hdb |].
      intros Hf Hemail _. exfalso.
      destruct w as [d fs]. simpl in Hf. subst fs.
      unfold UserRepository.findByEmail in E1. exec_in E1.
      simpl in Hemail. rewrite Hemail in E1. discriminate E1.
    + rewrite <- Hdb in Hfind.
      destruct (registerTransaction_no_tenant orm env dto
                  (bcrypt_hash L (rd_password dto) 12 (salt env)) w1 tid
                  Htid Hne Hfind) as [[e He] Hspec].
      unfold transaction.
      destruct (registerTransaction orm env dto
                  (bcrypt_hash L (rd_password dto) 12 (salt env)) w1)
        as [[x|e'] w2] eqn:E2; simpl in He; [discriminate He |].
      simpl. split; [eauto |]. split; [exact Hdb |].
      intros Hf Hemail Hid.
      destruct w as [d fs]. simpl in Hf. subst fs.
      unfold UserRepository.findByEmail in E1. exec_in E1.
      simpl in Hemail, Hid. rewrite Hemail in E1. inv E1.
      simpl in Hspec.
      assert (Hx : @Err (User * string) e' = Err (AuthTenantNotFoundException tid)).
      { apply Hspec; auto. apply existsb_orb_false; assumption. }
      inv Hx. reflexivity.
  - simpl. split; [eauto |]. split; [exact Hdb |].
    intros Hf Hemail _. exfalso.
    destruct w as [d fs]. simpl in Hf. subst fs.
    unfold UserRepository.findByEmail in E1. exec_in E1.
    simpl in Hemail. rewrite Hemail in E1. discriminate E1.
Qed.

(** Whatever happens to a registration, the user it creates is persisted
    together with a membership, or not at all. *)
Lemma register_all_or_nothing (orm : Orm) (L : Libs) (cfg : Config) (env : Env)
    (dto : RegisterDto) (w : World) :
  (users (db (after (register orm L cfg env dto) w)) = users (db w)
   /\ tenants (db (after (register orm L cfg env dto) w)) = tenants (db w)
   /\ tenantUsers (db (after (register orm L cfg env dto) w)) = tenantUsers (db w))
  \/ (exists u,
        users (db (after (register orm L cfg env dto) w)) = (users (db w) ++ [u])%list
        /\ u_email u = rd_email dto
        /\ has_membership (db (after (register orm L cfg env dto) w)) (u_id u)).
Proof.
  rewrite register_eq. unfold after, bind.
  pose proof (findByEmail_db (rd_email dto) w) as Hdb.
  destruct (UserRepository.findByEmail (rd_email dto) w) as [[ex|e] w1] eqn:E1;
    simpl in Hdb; [| left; simpl; rewrite Hdb; auto].
  destruct ex as [u|]; [left; simpl; rewrite Hdb; auto |].
  unfold transaction.
  destruct (registerTransaction orm env dto
              (bcrypt_hash L (rd_password dto) 12 (salt env)) w1)
    as [[[user tid]|e'] w2] eqn:E2; [| left; simpl; rewrite Hdb; auto].
  right.
  pose proof E2 as Hmail.
  apply registerTransaction_Ok in E2.
  destruct E2 as (Hus & _ & _ & m & Hin & Hm & _).
  assert (Hemail : u_email user = rd_email dto).
  { destruct orm; simpl in Hmail;
      unfold PrismaAuthService.registerTransaction,
        TypeOrmAuthService.registerTransaction in Hmail;
      apply bind_Ok in Hmail; destruct Hmail as (nu & w3 & Hc & Hrest);
      apply store_Ok in Hc; destruct Hc as (_ & Hc & _);
      apply user_create_inr in Hc; destruct Hc as [Hnu _];
      repeat (break_hyp Hrest; try discriminate Hrest);
      unfold bind in Hrest;
      repeat (break_hyp Hrest; try discriminate Hrest);
      inv Hrest; reflexivity. }
  exists user.
  destruct (AuthService.generateTokens L cfg env (u_id user) tid w2)
    as [[tokens|e'] w3] eqn:E3; simpl.
  - apply generateTokens_Ok in E3. destruct E3 as (_ & _ & Hdb3 & _).
    rewrite Hdb3. simpl. rewrite Hus, Hdb. split; [reflexivity |].
    split; [exact Hemail |]. exists m. auto.
  - apply generateTokens_Err in E3. rewrite E3, Hus, Hdb.
    split; [reflexivity |]. split; [exact Hemail |]. exists m. auto.
Qed.

(** C3. Registration with the id of a tenant that does not exist fails
    and persists nothing, neither a user nor a membership; the failure is
    [AuthTenantNotFoundException] when the e-mail address is free and the
    store calls before the check succeed. And no run of any
    registration, in either revision and whatever fails in it, creates a
    user without a membership. *)
Theorem register_is_atomic :
  forall (orm : Orm) (L : Libs) (cfg : Config) (env : Env) (dto : RegisterDto)
         (w : World) (tid : string),
    rd_tenantId dto = Some tid ->
    tid <> "" ->
    find (fun t => String.eqb (t_id t) tid) (tenants (db w)) = None ->
    ((exists e, fst (register orm L cfg env dto w) = Err e)
     /\ db (after (register orm L cfg env dto) w) = db w
     /\ (faults w = [] ->
         find (fun u => String.eqb (u_email u) (rd_email dto)) (users (db w)) = None ->
         existsb (fun u => String.eqb (u_id u) (uuid_user env)) (users (db w)) = false ->
         fst (register orm L cfg env dto w) = Err (AuthTenantNotFoundException tid)))
    /\ (forall (dto0 : RegisterDto) (env0 : Env) (w0 : World),
          (users (db (after (register orm L cfg env0 dto0) w0)) = users (db w0)
           /\ tenants (db (after (register orm L cfg env0 dto0) w0)) = tenants (db w0)
           /\ tenantUsers (db (after (register orm L cfg env0 dto0) w0))
              = tenantUsers (db w0))
          \/ (exists u,
                users (db (after (register orm L cfg env0 dto0) w0))
                = (users (db w0) ++ [u])%list
                /\ u_email u = rd_email dto0
                /\ has_membership (db (after (register orm L cfg env0 dto0) w0))
                     (u_id u))).
Proof.
  intros orm L cfg env dto w tid Htid Hne Hfind. split.
  - apply register_no_tenant; assumption.
  - intros. apply register_all_or_nothing.
Qed.

(** The theorem at a registration into a tenant that does not exist. *)
Lemma register_is_atomic_witness :
  fst (register Prisma Demo.libs Demo.config (Demo.env 6000 "1")
         (mkRegisterDto "carol@example.com" "Password1!" (Some "Carol") None
            (Some "no-such-tenant")) Demo.world)
  = Err (AuthTenantNotFoundException "no-such-tenant")
  /\ db (after (register Prisma Demo.libs Demo.config (Demo.env 6000 "1")
                  (mkRegisterDto "carol@example.com" "Password1!" (Some "Carol") None
                     (Some "no-such-tenant"))) Demo.world)
     = Demo.database.
Proof.
  pose proof (proj1 (register_is_atomic Prisma Demo.libs Demo.config (Demo.env 6000 "1")
                       (mkRegisterDto "carol@example.com" "Password1!" (Some "Carol")
                          None (Some "no-such-tenant"))
                       Demo.world "no-such-tenant" eq_refl
                       (fun H => match H with end) eq_refl)) as H.
  destruct H as (_ & Hdb & Herr).
  split; [apply Herr; reflexivity | exact Hdb].
Defined.

(** ** The new user of an acceptance is created outside the transaction *)

Lemma acceptInvitation_eq (orm : Orm) (L : Libs) (cfg : Config) (env : Env)
    (dto : AcceptInvitationDto) :
  acceptInvitation orm L cfg env dto
  = (invitation <- InvitationRepository.findByToken (ad_token dto) ;;
     match invitation with
     | None => throw (InvitationNotFoundException (ad_token dto))
     | Some invitation =>
         if inv_accepted invitation then throw InvitationAlreadyAcceptedException
         else if InvitationEntity.isExpired env invitation
         then throw InvitationExpiredException
         else
           user <- invitedUser orm L env invitation dto ;;
           _ <- joinTenant orm env user invitation ;;
           tokens <- AuthService.generateTokens L cfg env (u_id user)
                       (inv_tenantId invitation) ;;
           ret (mkAuthResponse (UserMapper.excludePassword user) tokens)
     end).
Proof. destruct orm; reflexivity. Qed.

(** The user that [invitedUser] returns when none has the address of the
    invitation is a row it has just appended to the users. *)
Lemma invitedUser_created (orm : Orm) (L : Libs) (env : Env) (i : Invitation)
    (dto : AcceptInvitationDto) (w w1 : World) (u : User) :
  find (fun u => String.eqb (u_email u) (inv_email i)) (users (db w)) = None ->
  invitedUser orm L env i dto w = (Ok u, w1) ->
  truthy (ad_password dto) = true
  /\ u = mkUser (uuid_user env) (inv_email i)
           (bcrypt_hash L (the (ad_password dto)) 12 (salt env)) None None (now env)
  /\ db w1 = set_users (db w) (users (db w) ++ [u]).
Proof.
  intros Hnone H.
  assert (E : invitedUser orm L env i dto
              = (user <- UserRepository.findByEmailWithPassword (inv_email i) ;;
                 match user with
                 | Some user => ret user
                 | None =>
                     if negb (truthy (ad_password dto))
                     then throw AuthPasswordRequiredException
                     else store (Store.user_create (uuid_user env) (now env)
                                   (inv_email i)
                                   (bcrypt_hash L (the (ad_password dto)) 12 (salt env))
                                   None None)
                 end)).
  { destruct orm; reflexivity. }
  rewrite E in H. clear E.
  apply bind_Ok in H. destruct H as (found & w0 & Hf & H).
  unfold UserRepository.findByEmailWithPassword in Hf.
  apply store_Ok in Hf. destruct Hf as (_ & Hf & _).
  unfold Store.user_findUnique_email in Hf. inv Hf.
  rewrite Hnone in H.
  destruct (truthy (ad_password dto)); [| discriminate H].
  simpl in H. apply store_Ok in H. destruct H as (_ & H & _).
  apply user_create_inr in H. destruct H as [Hu Hd].
  match goal with Hw : db w = db w0 |- _ => rewrite <- Hw in Hd end.
  auto.
Qed.



(** ** The active tenant of a login *)

(** [head_min l]: the first row of [l] was created no later than any
    other row of [l]. *)
Lemma insert_by_createdAt_In (x y : TenantUser) (l : list TenantUser) :
  In y (Store.insert_by_createdAt x l) <-> y = x \/ In y l.
Proof.
  induction l as [|a l IH]; simpl.
  - intuition auto.
  - destruct (tu_createdAt x <=? tu_createdAt a); simpl.
    + intuition auto.
    + rewrite IH. intuition auto.
Qed.

Lemma orderBy_createdAt_asc_In (y : TenantUser) (l : list TenantUser) :
  In y (Store.orderBy_createdAt_asc l) <-> In y l.
Proof.
  induction l as [|a l IH]; simpl; [tauto |].
  rewrite insert_by_createdAt_In, IH. intuition auto.
Qed.

Lemma insert_by_createdAt_head (x : TenantUser) (l : list TenantUser) :
  (forall h t y, l = h :: t -> In y l -> tu_createdAt h <= tu_createdAt y) ->
  forall h t y, Store.insert_by_createdAt x l = h :: t ->
                In y (Store.insert_by_createdAt x l) ->
                tu_createdAt h <= tu_createdAt y.
Proof.
  intros Hl h t y. destruct l as [|a l]; simpl.
  - intros E [<- | []]. inv E. lia.
  - destruct (tu_createdAt x <=? tu_createdAt a) eqn:Hle.
    + apply Z.leb_le in Hle. intros E Hy. inv E.
      destruct Hy as [<- | Hy]; [lia |].
      specialize (Hl a l y eq_refl Hy). lia.
    + apply Z.leb_gt in Hle. intros E Hy. inv E.
      destruct Hy as [<- | Hy]; [lia |].
      apply insert_by_createdAt_In in Hy. destruct Hy as [-> | Hy]; [lia |].
      apply (Hl h l y eq_refl). right. exact Hy.
Qed.

(** The first row of the ordered answer is an earliest-created row. *)
Lemma orderBy_createdAt_asc_head (l : list TenantUser) :
  forall h t y, Store.orderBy_createdAt_asc l = h :: t ->
                In y (Store.orderBy_createdAt_asc l) ->
                tu_createdAt h <= tu_createdAt y.
Proof.
  induction l as [|a l IH]; simpl.
  - intros h t y E. discriminate E.
  - apply insert_by_createdAt_head. exact IH.
Qed.

Lemma traverse_head {A B : Type} (f : A -> Result B) (l : list A) (y : B)
    (ys : list B) :
  traverse f l = Ok (y :: ys) -> exists x xs, l = x :: xs /\ f x = Ok y.
Proof.
  destruct l as [|x xs]; simpl; [discriminate |].
  destruct (f x) as [y0|e] eqn:E; [| discriminate].
  destruct (traverse f xs); [| discriminate].
  intro H. inv H. eauto.
Qed.

(** On TypeORM a successful login signs the tokens for the tenant of a
    membership of the user that no other membership of the user was
    created before. *)
Lemma typeorm_login_earliest_membership (L : Libs) (cfg : Config) (env : Env)
    (dto : LoginDto) (w w' : World) (pair : TokenPair) :
  login TypeORM L cfg env dto w = (Ok pair, w') ->
  exists user m,
    find (fun u => String.eqb (u_email u) (ld_email dto)) (users (db w)) = Some user
    /\ In m (memberships_of (db w) (u_id user))
    /\ (forall m', In m' (memberships_of (db w) (u_id user)) ->
                   tu_createdAt m <= tu_createdAt m')
    /\ jwt_signAsync L (mkJwtPayload (u_id user) (tu_tenantId m)) (accessOptions cfg)
         (now env) = Some (tp_accessToken pair)
    /\ jwt_signAsync L (mkJwtPayload (u_id user) (tu_tenantId m)) (refreshOptions cfg)
         (now env) = Some (tp_refreshToken pair).
Proof.
  intro H. simpl in H. unfold TypeOrmAuthService.login in H.
  destruct w as [d fs]. unfold memberships_of. exec. exec_in H.
  repeat (break_hyp H; try discriminate H; exec_in H).
  match goal with
  | Ht : traverse UserRepository.toTenantWithRole _ = Ok (_ :: _) |- _ =>
      apply traverse_head in Ht; destruct Ht as (x & xs & Hmap & Hx)
  end.
  destruct (Store.orderBy_createdAt_asc
              (filter (fun m => String.eqb (tu_userId m) (u_id u)) (tenantUsers d)))
    as [|m rest] eqn:Hsort; [discriminate Hmap |].
  simpl in Hmap. inv Hmap.
  unfold UserRepository.toTenantWithRole, Store.with_tenant in Hx. simpl in Hx.
  destruct (find (fun t => String.eqb (t_id t) (tu_tenantId m)) (tenants d))
    as [t0|] eqn:Ht0; [| discriminate Hx].
  inv Hx. simpl in H.
  apply find_some in Ht0. destruct Ht0 as [_ Ht0]. apply String.eqb_eq in Ht0.
  rewrite Ht0 in H.
  apply generateTokens_Ok in H. destruct H as (Ha & Hr & _).
  exists u, m. split; [reflexivity |].
  split; [apply orderBy_createdAt_asc_In; rewrite Hsort; left; reflexivity |].
  split; [| split; assumption].
  intros m' Hm'. eapply orderBy_createdAt_asc_head; [exact Hsort |].
  apply orderBy_createdAt_asc_In. exact Hm'.
Qed.

(** On Prisma a successful login signs the tokens for the tenant of the
    membership of the user that comes first in the table. *)
Lemma prisma_login_first_stored_membership (L : Libs) (cfg : Config) (env : Env)
    (dto : LoginDto) (w w' : World) (pair : TokenPair) :
  login Prisma L cfg env dto w = (Ok pair, w') ->
  exists user m rest,
    find (fun u => String.eqb (u_email u) (ld_email dto)) (users (db w)) = Some user
    /\ memberships_of (db w) (u_id user) = m :: rest
    /\ jwt_signAsync L (mkJwtPayload (u_id user) (tu_tenantId m)) (accessOptions cfg)
         (now env) = Some (tp_accessToken pair)
    /\ jwt_signAsync L (mkJwtPayload (u_id user) (tu_tenantId m)) (refreshOptions cfg)
         (now env) = Some (tp_refreshToken pair).
Proof.
  intro H. simpl in H. unfold PrismaAuthService.login in H.
  destruct w as [d fs]. unfold memberships_of. exec. exec_in H.
  repeat (break_hyp H; try discriminate H; exec_in H).
  apply generateTokens_Ok in H. destruct H as (Ha & Hr & _).
  eexists _, _, _. repeat split; eauto.
Qed.

(** C2. The Prisma revision of [login] does not order the memberships it
    reads. In the store where Alice's membership of Bolt, created at
    2000, is kept before her membership of Acme, created at 1000, every
    successful login of Alice, with any libraries, configuration and
    clock, issues the pair for Bolt, which is not her earliest
    membership. *)
Theorem prisma_login_ignores_creation_order :
  forall (L : Libs) (cfg : Config) (env : Env) (password : string)
         (w' : World) (pair : TokenPair),
    login Prisma L cfg env (mkLoginDto "alice@example.com" password) Demo.world
    = (Ok pair, w') ->
    memberships_of Demo.database "u1" = [Demo.aliceBolt; Demo.aliceAcme]
    /\ tu_createdAt Demo.aliceAcme < tu_createdAt Demo.aliceBolt
    /\ jwt_signAsync L (mkJwtPayload "u1" (tu_tenantId Demo.aliceBolt))
         (accessOptions cfg) (now env) = Some (tp_accessToken pair)
    /\ jwt_signAsync L (mkJwtPayload "u1" (tu_tenantId Demo.aliceBolt))
         (refreshOptions cfg) (now env) = Some (tp_refreshToken pair).
Proof.
  intros L cfg env password w' pair H.
  apply prisma_login_first_stored_membership in H.
  destruct H as (user & m & rest & Hu & Hm & Ha & Hr).
  simpl in Hu. inv Hu. simpl in Hm. inv Hm.
  repeat split; assumption || reflexivity.
Qed.

Lemma prisma_login_ignores_creation_order_witness :
  memberships_of Demo.database "u1" = [Demo.aliceBolt; Demo.aliceAcme]
  /\ tu_createdAt Demo.aliceAcme < tu_createdAt Demo.aliceBolt
  /\ jwt_signAsync Demo.libs (mkJwtPayload "u1" "tB") (accessOptions Demo.config) 6000
     = Some "access-secret.u1.tB.604806"
  /\ jwt_signAsync Demo.libs (mkJwtPayload "u1" "tB") (refreshOptions Demo.config) 6000
     = Some "refresh-secret.u1.tB.2592006".
Proof.
  apply (prisma_login_ignores_creation_order Demo.libs Demo.config (Demo.env 6000 "1")
           "Password1!"
           (after (login Prisma Demo.libs Demo.config (Demo.env 6000 "1")
                     (mkLoginDto "alice@example.com" "Password1!")) Demo.world)
           (mkTokenPair "access-secret.u1.tB.604806" "refresh-secret.u1.tB.2592006")).
  vm_compute. reflexivity.
Defined.

(** On the same store the TypeORM revision issues the pair for Acme. *)
Lemma typeorm_login_on_the_same_store :
  fst (login TypeORM Demo.libs Demo.config (Demo.env 6000 "1")
         (mkLoginDto "alice@example.com" "Password1!") Demo.world)
  = Ok (mkTokenPair "access-secret.u1.tA.604806" "refresh-secret.u1.tA.2592006").
Proof. vm_compute. reflexivity. Qed.

(** * Further properties of the service and of its repositories *)

(** ** Login: refusals *)

(** X1. A login for an address that no user has and a login with a wrong
    password are refused alike, with [AuthInvalidCredentialsException],
    in both revisions, and write nothing. *)
Theorem login_rejects_bad_credentials :
  forall (orm : Orm) (L : Libs) (cfg : Config) (env : Env) (dto : LoginDto)
         (w : World),
    hd false (faults w) = false ->
    (find (fun u => String.eqb (u_email u) (ld_email dto)) (users (db w)) = None
     \/ exists u,
          find (fun u => String.eqb (u_email u) (ld_email dto)) (users (db w)) = Some u
          /\ bcrypt_compare L (ld_password dto) (u_password u) = false) ->
    login orm L cfg env dto w
    = (Err AuthInvalidCredentialsException, mkWorld (db w) (tl (faults w))).
Proof.
  intros orm L cfg env dto [d fs] Hf Hbad. simpl in Hf, Hbad.
  destruct orm; simpl; unfold PrismaAuthService.login, TypeOrmAuthService.login;
    exec; rewrite Hf;
    (destruct Hbad as [Hnone | (u & Hu & Hpw)];
     [ rewrite Hnone; reflexivity
     | rewrite Hu; exec; rewrite Hpw; reflexivity ]).
Qed.

Lemma login_rejects_bad_credentials_witness :
  login Prisma Demo.libs Demo.config (Demo.env 6000 "1")
    (mkLoginDto "alice@example.com" "wrong") Demo.world
  = (Err AuthInvalidCredentialsException, Demo.world)
  /\ login TypeORM Demo.libs Demo.config (Demo.env 6000 "1")
       (mkLoginDto "nobody@example.com" "Password1!") Demo.world
     = (Err AuthInvalidCredentialsException, Demo.world).
Proof.
  split.
  - apply (login_rejects_bad_credentials Prisma Demo.libs Demo.config
             (Demo.env 6000 "1") (mkLoginDto "alice@example.com" "wrong") Demo.world).
    + reflexivity.
    + right. exists Demo.alice. split; reflexivity.
  - apply (login_rejects_bad_credentials TypeORM Demo.libs Demo.config
             (Demo.env 6000 "1") (mkLoginDto "nobody@example.com" "Password1!")
             Demo.world).
    + reflexivity.
    + left. reflexivity.
Defined.

(** X2. A login with the right password of a user that has no membership
    is refused with [AuthUserHasNoTenantsException], in both revisions,
    and writes nothing. *)
Theorem login_without_membership :
  forall (orm : Orm) (L : Libs) (cfg : Config) (env : Env) (dto : LoginDto)
         (w : World) (u : User),
    hd false (faults w) = false ->
    hd false (tl (faults w)) = false ->
    find (fun u => String.eqb (u_email u) (ld_email dto)) (users (db w)) = Some u ->
    bcrypt_compare L (ld_password dto) (u_password u) = true ->
    memberships_of (db w) (u_id u) = [] ->
    login orm L cfg env dto w
    = (Err AuthUserHasNoTenantsException, mkWorld (db w) (tl (tl (faults w)))).
Proof.
  intros orm L cfg env dto [d fs] u Hf1 Hf2 Hu Hpw Hnone.
  unfold memberships_of in Hnone. simpl in Hf1, Hf2, Hu, Hnone.
  destruct orm; simpl; unfold PrismaAuthService.login, TypeOrmAuthService.login;
    exec; rewrite Hf1, Hu; exec; rewrite Hpw; cbn [negb]; exec;
    rewrite Hf2, Hnone; reflexivity.
Qed.

Lemma login_without_membership_witness :
  login Prisma Demo.libs Demo.config (Demo.env 6000 "1")
    (mkLoginDto "alice@example.com" "Password1!")
    (mkWorld (set_tenantUsers Demo.database []) [])
  = (Err AuthUserHasNoTenantsException,
     mkWorld (set_tenantUsers Demo.database []) [])
  /\ login TypeORM Demo.libs Demo.config (Demo.env 6000 "1")
       (mkLoginDto "alice@example.com" "Password1!")
       (mkWorld (set_tenantUsers Demo.database []) [])
     = (Err AuthUserHasNoTenantsException,
        mkWorld (set_tenantUsers Demo.database []) []).
Proof.
  split.
  - apply (login_without_membership Prisma Demo.libs Demo.config (Demo.env 6000 "1")
             (mkLoginDto "alice@example.com" "Password1!")
             (mkWorld (set_tenantUsers Demo.database []) []) Demo.alice);
      reflexivity.
  - apply (login_without_membership TypeORM Demo.libs Demo.config (Demo.env 6000 "1")
             (mkLoginDto "alice@example.com" "Password1!")
             (mkWorld (set_tenantUsers Demo.database []) []) Demo.alice);
      reflexivity.
Defined.

(** ** What login, refresh and logout never write *)

Lemma same_accounts_refl (d : DB) : same_accounts d d.
Proof. repeat split. Qed.

Lemma same_accounts_trans (a b c : DB) :
  same_accounts a b -> same_accounts b c -> same_accounts a c.
Proof.
  intros (H1 & H2 & H3 & H4) (G1 & G2 & G3 & G4).
  repeat split; congruence.
Qed.

Ltac accounts_query :=
  let d := fresh "d" in
  let a := fresh "a" in
  let d' := fresh "d'" in
  let Hq := fresh "Hq" in
  intros d a d' Hq; unfold_queries_in Hq;
  repeat (break_hyp Hq; try discriminate Hq);
  inv Hq; repeat split.

Ltac accounts_step :=
  first
    [ apply (keeps_ret _ same_accounts_refl)
    | apply (keeps_throw _ same_accounts_refl)
    | apply (keeps_lift _ same_accounts_refl)
    | apply (keeps_store _ same_accounts_refl); accounts_query
    | apply (keeps_bind _ same_accounts_trans); [| intro]
    | apply (keeps_try_catch _ same_accounts_trans); [| intro]
    | break_goal ].

(** X3. Login, in both revisions, refresh and logout write to the table
    of refresh tokens only: whatever they answer, the users, tenants,
    memberships and invitations are after the call what they were before
    it. *)
Theorem sessions_leave_accounts_alone :
  forall (L : Libs) (cfg : Config) (env : Env) (o : Op) (w : World),
    (exists orm dto, o = Login orm dto)
    \/ (exists token, o = RefreshTokens token)
    \/ (exists token, o = Logout token) ->
    same_accounts (db w) (db (run L cfg env o w)).
Proof.
  intros L cfg env o w Ho.
  assert (G : forall A (m : M A), keeps same_accounts m ->
                same_accounts (db w) (db (after m w))).
  { intros A m Hm. apply Hm. }
  destruct Ho as [(orm & dto & ->) | [(token & ->) | (token & ->)]];
    [destruct orm | |]; simpl; apply G;
    unfold PrismaAuthService.login, TypeOrmAuthService.login,
      AuthService.refreshToken, AuthService.logout, AuthService.generateTokens,
      UserRepository.findById, UserRepository.findByEmailWithPassword,
      UserRepository.getUserTenants, RefreshTokenRepository.findByToken,
      RefreshTokenRepository.revoke, RefreshTokenRepository.create;
    cbv zeta; repeat accounts_step.
Qed.

Lemma sessions_leave_accounts_alone_witness :
  same_accounts Demo.database
    (db (run Demo.libs Demo.config (Demo.env 6000 "1")
           (Login Prisma (mkLoginDto "alice@example.com" "Password1!")) Demo.world)).
Proof.
  apply (sessions_leave_accounts_alone Demo.libs Demo.config (Demo.env 6000 "1")
           (Login Prisma (mkLoginDto "alice@example.com" "Password1!")) Demo.world).
  left. exists Prisma, (mkLoginDto "alice@example.com" "Password1!"). reflexivity.
Defined.

(** ** The slug of a workspace *)









(** ** One record per token *)

(** X11. The column of token digests is unique: once a refresh token is
    stored, issuing a pair whose refresh token is the same string (the
    same payload signed in the same second) fails with a unique
    constraint violation and stores nothing. *)
Theorem same_token_is_not_stored_twice :
  forall (L : Libs) (cfg : Config) (env env2 : Env) (userId tid userId2 tid2 : string)
         (w w' : World) (pair : TokenPair) (access2 : string) (fs : list bool),
    AuthService.generateTokens L cfg env userId tid w = (Ok pair, w') ->
    jwt_signAsync L (mkJwtPayload userId2 tid2) (accessOptions cfg) (now env2)
    = Some access2 ->
    jwt_signAsync L (mkJwtPayload userId2 tid2) (refreshOptions cfg) (now env2)
    = Some (tp_refreshToken pair) ->
    hd false fs = false ->
    AuthService.generateTokens L cfg env2 userId2 tid2 (mkWorld (db w') fs)
    = (Err (DatabaseError UniqueConstraintViolation), mkWorld (db w') (tl fs)).
Proof.
  intros L cfg env env2 userId tid userId2 tid2 w w' pair access2 fs H Ha Hr Hf.
  apply generateTokens_Ok in H. destruct H as (_ & _ & Hdb & _).
  unfold accessOptions, refreshOptions in Ha, Hr.
  unfold AuthService.generateTokens. rewrite Ha, Hr.
  unfold bind, RefreshTokenRepository.create, RefreshTokenRepository.hashToken,
    store, Store.refreshToken_create. cbn [db faults]. rewrite Hf.
  assert (Hex : existsb (fun r => String.eqb (rt_id r) (uuid_token env2)
                                  || String.eqb (rt_token r)
                                       (sha256_hex L (tp_refreshToken pair)))
                  (refreshTokens (db w')) = true).
  { rewrite Hdb. simpl. rewrite existsb_app. simpl.
    rewrite String.eqb_refl, !orb_true_r. reflexivity. }
  rewrite Hex. reflexivity.
Qed.

Lemma same_token_is_not_stored_twice_witness :
  AuthService.generateTokens Demo.libs Demo.config (Demo.env 6400 "2") "u1" "tA"
    (mkWorld
       (db (after (AuthService.generateTokens Demo.libs Demo.config
                     (Demo.env 6000 "1") "u1" "tA") Demo.world)) [])
  = (Err (DatabaseError UniqueConstraintViolation),
     mkWorld
       (db (after (AuthService.generateTokens Demo.libs Demo.config
                     (Demo.env 6000 "1") "u1" "tA") Demo.world)) []).
Proof.
  apply (same_token_is_not_stored_twice Demo.libs Demo.config (Demo.env 6000 "1")
           (Demo.env 6400 "2") "u1" "tA" "u1" "tA" Demo.world
           (after (AuthService.generateTokens Demo.libs Demo.config
                     (Demo.env 6000 "1") "u1" "tA") Demo.world)
           (mkTokenPair "access-secret.u1.tA.604806" "refresh-secret.u1.tA.2592006")
           "access-secret.u1.tA.604806" []).
  - vm_compute. reflexivity.
  - reflexivity.
  - reflexivity.
  - reflexivity.
Defined.

(** ** Revocation *)

Lemma refreshToken_cases (L : Libs) (cfg : Config) (env : Env) (token : string)
    (w : World) :
  (exists pair, fst (AuthService.refreshToken L cfg env token w) = Ok pair)
  \/ fst (AuthService.refreshToken L cfg env token w)
     = Err AuthInvalidRefreshTokenException.
Proof. unfold AuthService.refreshToken. apply try_catch_rethrow. Qed.

Lemma refreshToken_refused (L : Libs) (cfg : Config) (env : Env) (token : string)
    (w : World) :
  refresh_refused L cfg env token (db w) ->
  fst (AuthService.refreshToken L cfg env token w)
  = Err AuthInvalidRefreshTokenException.
Proof.
  intro Href.
  destruct (refreshToken_cases L cfg env token w) as [[pair Hok] | Herr];
    [| exact Herr].
  exfalso. exact (refresh_refused_not_Ok _ _ _ _ _ _ Href Hok).
Qed.

Lemma find_map_same_key {A : Type} (f : A -> bool) (g : A -> A) (l : list A) :
  (forall x, f (g x) = f x) ->
  find f (map g l) = option_map g (find f l).
Proof.
  intro H. induction l as [|a l IH]; simpl; [reflexivity |].
  rewrite H. destruct (f a); [reflexivity | exact IH].
Qed.

Lemma existsb_find_Some {A : Type} (f : A -> bool) (l : list A) :
  existsb f l = true -> exists x, find f l = Some x.
Proof.
  induction l as [|a l IH]; simpl; [discriminate |].
  destruct (f a); simpl; eauto.
Qed.

(** X12. When the revocation of a logout is not cut short by the store,
    a refresh with that token fails on the database that the logout
    left, and on every database that has, for the digest of the token,
    the record that the logout left or, as the logout left it, none:
    whatever the clock, and also for a token that was never stored. *)
Theorem refresh_after_logout_fails :
  forall (L : Libs) (cfg : Config) (env : Env) (token : string) (w : World)
         (d' : DB) (fs : list bool),
    hd false (faults w) = false ->
    find (fun r => String.eqb (rt_token r) (sha256_hex L token)) (refreshTokens d')
    = find (fun r => String.eqb (rt_token r) (sha256_hex L token))
        (refreshTokens (db (after (AuthService.logout L token) w))) ->
    fst (AuthService.refreshToken L cfg env token (mkWorld d' fs))
    = Err AuthInvalidRefreshTokenException.
Proof.
  intros L cfg env token [d fs0] d' fs Hf Hsame. simpl in Hf.
  apply refreshToken_refused. unfold refresh_refused. cbn [db].
  rewrite Hsame. clear Hsame.
  unfold after, AuthService.logout, try_catch, bind, ret, RefreshTokenRepository.revoke,
    RefreshTokenRepository.hashToken, store, Store.refreshToken_update_revoked.
  cbn [db faults]. rewrite Hf.
  destruct (existsb (fun r => String.eqb (rt_token r) (sha256_hex L token))
              (refreshTokens d)) eqn:E; cbn [fst snd db refreshTokens set_refreshTokens].
  - right. right. left.
    destruct (existsb_find_Some _ _ E) as [st Hst].
    exists (Store.set_revoked st). split; [| right; reflexivity].
    rewrite (find_map_same_key
               (fun r => String.eqb (rt_token r) (sha256_hex L token))
               (fun r => if String.eqb (rt_token r) (sha256_hex L token)
                         then Store.set_revoked r else r)).
    + rewrite Hst. simpl.
      apply find_some in Hst. destruct Hst as [_ Hst]. rewrite Hst. reflexivity.
    + intro x. destruct (String.eqb (rt_token x) (sha256_hex L token)) eqn:Ex;
        simpl; [exact Ex | exact Ex].
  - right. left. apply find_existsb_false. exact E.
Qed.

Lemma refresh_after_logout_fails_witness :
  fst (AuthService.refreshToken Demo.libs Demo.config (Demo.env 6000 "1")
         Demo.aliceToken Demo.world)
  = Ok (mkTokenPair "access-secret.u1.tA.604806" "refresh-secret.u1.tA.2592006")
  /\ fst (AuthService.refreshToken Demo.libs Demo.config (Demo.env 6000 "1")
            Demo.aliceToken
            (mkWorld (db (after (AuthService.logout Demo.libs Demo.aliceToken)
                            Demo.world)) []))
     = Err AuthInvalidRefreshTokenException.
Proof.
  split.
  - vm_compute. reflexivity.
  - apply (refresh_after_logout_fails Demo.libs Demo.config (Demo.env 6000 "1")
             Demo.aliceToken Demo.world
             (db (after (AuthService.logout Demo.libs Demo.aliceToken) Demo.world)) []);
      reflexivity.
Defined.

(** X13. [revokeAllForUser], when the store does it, leaves every refresh
    token of the user revoked and every other row and table as it was;
    afterwards no token whose record belonged to the user refreshes. *)
Theorem revokeAllForUser_revokes_all :
  forall (L : Libs) (cfg : Config) (userId : string) (w : World),
    hd false (faults w) = false ->
    (forall r, In r (refreshTokens
                       (db (after (RefreshTokenRepository.revokeAllForUser userId) w))) ->
               rt_userId r = userId -> rt_revoked r = true)
    /\ filter (fun r => negb (String.eqb (rt_userId r) userId))
         (refreshTokens (db (after (RefreshTokenRepository.revokeAllForUser userId) w)))
       = filter (fun r => negb (String.eqb (rt_userId r) userId))
           (refreshTokens (db w))
    /\ same_accounts (db w)
         (db (after (RefreshTokenRepository.revokeAllForUser userId) w))
    /\ (forall (env : Env) (token : string) (st : RefreshToken) (fs : list bool),
          find (fun r => String.eqb (rt_token r) (sha256_hex L token))
            (refreshTokens (db w)) = Some st ->
          rt_userId st = userId ->
          fst (AuthService.refreshToken L cfg env token
                 (mkWorld
                    (db (after (RefreshTokenRepository.revokeAllForUser userId) w)) fs))
          = Err AuthInvalidRefreshTokenException).
Proof.
  intros L cfg userId [d fs0] Hf. simpl in Hf.
  unfold after, RefreshTokenRepository.revokeAllForUser, store,
    Store.refreshToken_updateMany_revoked.
  cbn [db faults]. rewrite Hf. unfold set_refreshTokens.
  cbn [fst snd db refreshTokens].
  split; [| split; [| split]].
  - intros r Hr Hid. apply in_map_iff in Hr. destruct Hr as (x & Hx & _).
    destruct (String.eqb (rt_userId x) userId) eqn:E.
    + subst r. reflexivity.
    + subst r. apply String.eqb_neq in E. contradiction.
  - induction (refreshTokens d) as [|a l IH]; simpl; [reflexivity |].
    destruct (String.eqb (rt_userId a) userId) eqn:E; simpl; rewrite E; simpl.
    + exact IH.
    + rewrite IH. reflexivity.
  - repeat split.
  - intros env token st fs Hst Hid.
    apply refreshToken_refused. right. right. left. cbn [db refreshTokens].
    exists (Store.set_revoked st). split; [| right; reflexivity].
    unfold set_refreshTokens. cbn [refreshTokens].
    rewrite (find_map_same_key
               (fun r => String.eqb (rt_token r) (sha256_hex L token))
               (fun r => if String.eqb (rt_userId r) userId
                         then Store.set_revoked r else r)).
    + rewrite Hst. simpl. rewrite Hid, String.eqb_refl. reflexivity.
    + intro x. destruct (String.eqb (rt_userId x) userId); reflexivity.
Qed.

Lemma revokeAllForUser_revokes_all_witness :
  fst (AuthService.refreshToken Demo.libs Demo.config (Demo.env 6000 "1")
         Demo.aliceToken
         (mkWorld (db (after (RefreshTokenRepository.revokeAllForUser "u1")
                         Demo.world)) []))
  = Err AuthInvalidRefreshTokenException.
Proof.
  apply (proj2 (proj2 (proj2
           (revokeAllForUser_revokes_all Demo.libs Demo.config "u1" Demo.world
              eq_refl)))
           (Demo.env 6000 "1") Demo.aliceToken Demo.aliceStored []).
  - vm_compute. reflexivity.
  - reflexivity.
Defined.

(** ** The cleanup of expired tokens *)

Lemma filter_partition_length {A : Type} (f : A -> bool) (l : list A) :
  (length (filter f l) + length (filter (fun x => negb (f x)) l) = length l)%nat.
Proof.
  induction l as [|a l IH]; simpl; [reflexivity |].
  destruct (f a); simpl; lia.
Qed.

(** X14. [deleteExpired] deletes exactly the records that
    [RefreshTokenEntity.isExpired] calls expired at that time, and
    answers how many they were: a record that expires at this very
    instant, and a revoked record that has not expired, stay; no other
    table changes. *)
Theorem deleteExpired_deletes_the_expired :
  forall (env : Env) (w w' : World) (n : nat),
    RefreshTokenRepository.deleteExpired env w = (Ok n, w') ->
    (forall r, In r (refreshTokens (db w'))
               <-> In r (refreshTokens (db w))
                   /\ RefreshTokenEntity.isExpired env r = false)
    /\ (n + length (refreshTokens (db w')) = length (refreshTokens (db w)))%nat
    /\ (forall r, In r (refreshTokens (db w)) -> rt_expiresAt r = now env ->
                  In r (refreshTokens (db w')))
    /\ same_accounts (db w) (db w').
Proof.
  intros env w w' n H. unfold RefreshTokenRepository.deleteExpired in H.
  apply store_Ok in H. destruct H as (_ & H & _).
  unfold Store.refreshToken_deleteMany_expired in H. inv H.
  unfold set_refreshTokens. cbn [refreshTokens].
  assert (Hiff : forall r,
             In r (filter (fun r => negb (rt_expiresAt r <? now env))
                     (refreshTokens (db w)))
             <-> In r (refreshTokens (db w))
                 /\ RefreshTokenEntity.isExpired env r = false).
  { intro r. rewrite filter_In. unfold RefreshTokenEntity.isExpired.
    rewrite negb_true_iff. tauto. }
  split; [exact Hiff |]. split; [apply filter_partition_length |].
  split; [| repeat split].
  intros r Hr He. apply Hiff. split; [exact Hr |].
  unfold RefreshTokenEntity.isExpired. apply Z.ltb_ge. lia.
Qed.

(** The theorem at the instant Alice's stored token expires. *)
Lemma deleteExpired_deletes_the_expired_witness :
  In Demo.aliceStored
    (refreshTokens
       (db (after (RefreshTokenRepository.deleteExpired (Demo.env 2592005000 "1"))
              Demo.world))).
Proof.
  apply (proj1 (proj2 (proj2
           (deleteExpired_deletes_the_expired (Demo.env 2592005000 "1") Demo.world
              (after (RefreshTokenRepository.deleteExpired
                        (Demo.env 2592005000 "1")) Demo.world)
              0%nat eq_refl)))
           Demo.aliceStored).
  - left. reflexivity.
  - reflexivity.
Defined.

(** ** Registration: refusal, success, slug collision *)

Lemma traverse_total {A B : Type} (f : A -> Result B) (l : list A) :
  (forall x, In x l -> exists y, f x = Ok y) ->
  exists ys, traverse f l = Ok ys.
Proof.
  induction l as [|a l IH]; simpl; intro H; [eauto |].
  destruct (H a (or_introl eq_refl)) as [y Hy]. rewrite Hy.
  destruct IH as [ys Hys]; [intros x Hx; apply H; right; exact Hx |].
  rewrite Hys. eauto.
Qed.

(** X4. Registration with an e-mail address that a user already has
    fails and writes nothing; when the lookup of the address goes through
    (the store answers, and every membership of that user has its
    tenant), the failure is [AuthUserAlreadyExistsException] with the
    address. *)
Theorem register_rejects_taken_email :
  forall (orm : Orm) (L : Libs) (cfg : Config) (env : Env) (dto : RegisterDto)
         (w : World) (u : User),
    find (fun u => String.eqb (u_email u) (rd_email dto)) (users (db w)) = Some u ->
    (exists e, fst (register orm L cfg env dto w) = Err e)
    /\ db (after (register orm L cfg env dto) w) = db w
    /\ (hd false (faults w) = false ->
        (forall m, In m (memberships_of (db w) (u_id u)) ->
                   exists t, find (fun t => String.eqb (t_id t) (tu_tenantId m))
                               (tenants (db w)) = Some t) ->
        fst (register orm L cfg env dto w)
        = Err (AuthUserAlreadyExistsException (rd_email dto))).
Proof.
  intros orm L cfg env dto [d fs] u Hu. simpl in Hu.
  rewrite register_eq. unfold after, bind, UserRepository.findByEmail.
  unfold bind, store, Store.user_findUnique_email_include. cbn [db faults].
  destruct (hd false fs) eqn:Hf; cbn [fst snd db].
  - split; [eauto |]. split; [reflexivity | discriminate].
  - rewrite Hu. cbn [option_map]. unfold lift, UserMapper.toEntity, Store.user_include.
    cbn [fst snd].
    destruct (traverse UserMapper.toEntry
                (map (Store.with_tenant d)
                   (filter (fun m => String.eqb (tu_userId m) (u_id u))
                      (tenantUsers d)))) as [entries|e] eqn:Ht;
      cbn [ret throw fst snd db].
    + split; [eauto |]. split; [reflexivity |]. intros _ _. reflexivity.
    + split; [eauto |]. split; [reflexivity |]. intros _ Hall. exfalso.
      destruct (traverse_total UserMapper.toEntry
                  (map (Store.with_tenant d)
                     (filter (fun m => String.eqb (tu_userId m) (u_id u))
                        (tenantUsers d)))) as [ys Hys]; [| congruence].
      intros x Hx. apply in_map_iff in Hx. destruct Hx as (m & <- & Hm).
      destruct (Hall m Hm) as [t Ht0].
      unfold UserMapper.toEntry, Store.with_tenant. cbn [fst snd].
      rewrite Ht0. eauto.
Qed.

Lemma register_rejects_taken_email_witness :
  fst (register Prisma Demo.libs Demo.config (Demo.env 6000 "1")
         (mkRegisterDto "alice@example.com" "Password2!" None None None) Demo.world)
  = Err (AuthUserAlreadyExistsException "alice@example.com")
  /\ db (after (register Prisma Demo.libs Demo.config (Demo.env 6000 "1")
                  (mkRegisterDto "alice@example.com" "Password2!" None None None))
           Demo.world)
     = Demo.database.
Proof.
  destruct (register_rejects_taken_email Prisma Demo.libs Demo.config
              (Demo.env 6000 "1")
              (mkRegisterDto "alice@example.com" "Password2!" None None None)
              Demo.world Demo.alice eq_refl) as (_ & Hdb & Herr).
  split; [| exact Hdb].
  apply Herr; [reflexivity |].
  intros m Hm. vm_compute in Hm.
  destruct Hm as [<- | [<- | []]]; eexists; vm_compute; reflexivity.
Defined.

Lemma findByEmail_Ok_None (email : string) (w w1 : World) :
  UserRepository.findByEmail email w = (Ok None, w1) ->
  find (fun u => String.eqb (u_email u) email) (users (db w)) = None
  /\ db w1 = db w.
Proof.
  destruct w as [d fs]. unfold UserRepository.findByEmail. intro H. exec_in H.
  repeat (break_hyp H; try discriminate H; exec_in H).
  inv H. auto.
Qed.

(** The rows that the callback of the transaction has written. *)
Lemma registerTransaction_rows (orm : Orm) (env : Env) (dto : RegisterDto)
    (hashedPassword : string) (w w' : World) (user : User) (tid : string) :
  registerTransaction orm env dto hashedPassword w = (Ok (user, tid), w') ->
  user = mkUser (uuid_user env) (rd_email dto) hashedPassword (rd_firstName dto)
           (rd_lastName dto) (now env)
  /\ if truthy (rd_tenantId dto)
     then tid = the (rd_tenantId dto) /\ tenants (db w') = tenants (db w)
          /\ exists t, find (fun t => String.eqb (t_id t) tid) (tenants (db w)) = Some t
     else tid = uuid_tenant env
          /\ tenants (db w')
             = (tenants (db w)
                ++ [mkTenant (uuid_tenant env)
                      (AuthService.workspaceName (rd_firstName dto))
                      (AuthService.generateSlug env (rd_email dto)) (now env)])%list.
Proof.
  intro H.
  assert (E : registerTransaction orm env dto hashedPassword w
              = (newUser <- store (Store.user_create (uuid_user env) (now env)
                                     (rd_email dto) hashedPassword
                                     (rd_firstName dto) (rd_lastName dto)) ;;
                 if truthy (rd_tenantId dto) then
                   tenant <- store (Store.tenant_findUnique_id (the (rd_tenantId dto))) ;;
                   match tenant with
                   | None => throw (AuthTenantNotFoundException (the (rd_tenantId dto)))
                   | Some _ =>
                       _ <- store (match orm with
                                   | Prisma => Store.tenantUser_create (now env)
                                                 (u_id newUser) (the (rd_tenantId dto)) MEMBER
                                   | TypeORM => Store.tenantUser_upsert (now env)
                                                  (u_id newUser) (the (rd_tenantId dto)) MEMBER
                                   end) ;;
                       ret (newUser, the (rd_tenantId dto))
                   end
                 else
                   tenant <- store (Store.tenant_create (uuid_tenant env) (now env)
                                      (AuthService.workspaceName (rd_firstName dto))
                                      (AuthService.generateSlug env (rd_email dto))) ;;
                   _ <- store (match orm with
                               | Prisma => Store.tenantUser_create (now env)
                                             (u_id newUser) (t_id tenant) OWNER
                               | TypeORM => Store.tenantUser_upsert (now env)
                                              (u_id newUser) (t_id tenant) OWNER
                               end) ;;
                   ret (newUser, t_id tenant)) w).
  { destruct orm; reflexivity. }
  rewrite E in H. clear E.
  apply bind_Ok in H. destruct H as (newUser & w1 & Hu & H).
  apply store_Ok in Hu. destruct Hu as (_ & Hu & _).
  apply user_create_inr in Hu. destruct Hu as [Hrow Hu].
  destruct (truthy (rd_tenantId dto)).
  - apply bind_Ok in H. destruct H as (tenant & w2 & Ht & H).
    apply store_Ok in Ht. destruct Ht as (_ & Ht & _).
    unfold Store.tenant_findUnique_id in Ht. inv Ht.
    destruct (find (fun t => String.eqb (t_id t) (the (rd_tenantId dto)))
                (tenants (db w1))) as [t|] eqn:Hfind; [| discriminate H].
    apply bind_Ok in H. destruct H as (m & w3 & Hm & H). inv H.
    apply store_Ok in Hm. destruct Hm as (_ & Hm & _).
    apply membership_written in Hm. destruct Hm as (_ & Hts & _).
    match goal with Hd : db w1 = db w2 |- _ => rewrite <- Hd in * end.
    rewrite Hu in Hfind, Hts. simpl in Hfind, Hts.
    split; [reflexivity |]. split; [reflexivity |]. split; [exact Hts | eauto].
  - apply bind_Ok in H. destruct H as (tenant & w2 & Ht & H).
    apply store_Ok in Ht. destruct Ht as (_ & Ht & _).
    apply tenant_create_inr in Ht. destruct Ht as [Htrow Ht].
    apply bind_Ok in H. destruct H as (m & w3 & Hm & H). inv H.
    apply store_Ok in Hm. destruct Hm as (_ & Hm & _).
    apply membership_written in Hm. destruct Hm as (_ & Hts & _).
    rewrite Ht, Hu in Hts. simpl in Hts.
    split; [reflexivity |]. split; [reflexivity | exact Hts].
Qed.

(** X5. A registration that succeeds has appended one user, with the
    e-mail address of the request and the bcrypt hash of its password,
    and answers that user without the password. Without a tenant id it
    has appended one tenant, named after the first name and with the slug
    of the address, and a membership of the user in it with role OWNER;
    with a tenant id it has appended no tenant, and a membership in the
    given tenant with role MEMBER. The tokens are signed for the user
    and that tenant, and the refresh token is stored. *)
Theorem register_creates_account :
  forall (orm : Orm) (L : Libs) (cfg : Config) (env : Env) (dto : RegisterDto)
         (w w' : World) (resp : AuthResponse),
    register orm L cfg env dto w = (Ok resp, w') ->
    exists user tid,
      find (fun u => String.eqb (u_email u) (rd_email dto)) (users (db w)) = None
      /\ user = mkUser (uuid_user env) (rd_email dto)
                  (bcrypt_hash L (rd_password dto) 12 (salt env))
                  (rd_firstName dto) (rd_lastName dto) (now env)
      /\ ar_user resp = UserMapper.excludePassword user
      /\ users (db w') = (users (db w) ++ [user])%list
      /\ (if truthy (rd_tenantId dto)
          then tid = the (rd_tenantId dto) /\ tenants (db w') = tenants (db w)
          else tid = uuid_tenant env
               /\ tenants (db w')
                  = (tenants (db w)
                     ++ [mkTenant (uuid_tenant env)
                           (AuthService.workspaceName (rd_firstName dto))
                           (AuthService.generateSlug env (rd_email dto))
                           (now env)])%list)
      /\ (exists m, In m (tenantUsers (db w'))
            /\ tu_userId m = u_id user /\ tu_tenantId m = tid
            /\ tu_role m = if truthy (rd_tenantId dto) then MEMBER else OWNER)
      /\ jwt_signAsync L (mkJwtPayload (u_id user) tid) (accessOptions cfg) (now env)
         = Some (tp_accessToken (ar_tokens resp))
      /\ jwt_signAsync L (mkJwtPayload (u_id user) tid) (refreshOptions cfg) (now env)
         = Some (tp_refreshToken (ar_tokens resp))
      /\ refreshTokens (db w')
         = (refreshTokens (db w)
            ++ [storedRecord L env (u_id user) (tp_refreshToken (ar_tokens resp))])%list
      /\ invitations (db w') = invitations (db w).
Proof.
  intros orm L cfg env dto w w' resp H. rewrite register_eq in H.
  apply bind_Ok in H. destruct H as (ex & w1 & Hfind & H).
  destruct ex as [x|]; [discriminate H |].
  apply findByEmail_Ok_None in Hfind. destruct Hfind as [Hnone Hdb1].
  apply bind_Ok in H. destruct H as ([user tid] & w2 & Htx & H).
  apply transaction_Ok in Htx.
  apply bind_Ok in H. destruct H as (tokens & w3 & Hgen & H). inv H.
  pose proof (registerTransaction_Ok _ _ _ _ _ _ _ _ Htx)
    as (Hus & Hrt & Hinv & m & Hin & Hm).
  pose proof (registerTransaction_rows _ _ _ _ _ _ _ _ Htx) as (Hrow & Hten).
  apply generateTokens_Ok in Hgen. destruct Hgen as (Ha & Hr & Hdb3 & _).
  exists user, tid. rewrite Hdb3. simpl. rewrite Hus, Hrt, Hinv, Hdb1.
  split; [exact Hnone |]. split; [exact Hrow |]. split; [reflexivity |].
  split; [reflexivity |]. rewrite Hdb1 in Hten.
  split.
  { destruct (truthy (rd_tenantId dto)); tauto. }
  split; [eauto |]. auto.
Qed.

Lemma register_creates_account_witness :
  exists user tid,
    find (fun u => String.eqb (u_email u) "Carol.X@example.com")
      (users Demo.database) = None
    /\ user = mkUser "user-1" "Carol.X@example.com" "$2b$Password1!" (Some "Carol")
                None 6000
    /\ UserMapper.excludePassword user = UserMapper.excludePassword user
    /\ users (db (after (register Prisma Demo.libs Demo.config (Demo.env 6000 "1")
                           (mkRegisterDto "Carol.X@example.com" "Password1!"
                              (Some "Carol") None None)) Demo.world))
       = (users Demo.database ++ [user])%list
    /\ (tid = "tenant-1"
        /\ tenants (db (after (register Prisma Demo.libs Demo.config
                                 (Demo.env 6000 "1")
                                 (mkRegisterDto "Carol.X@example.com" "Password1!"
                                    (Some "Carol") None None)) Demo.world))
           = (tenants Demo.database
              ++ [mkTenant "tenant-1" "Carol's Workspace" "carol-x-x7k2p9" 6000])%list).
Proof.
  destruct (register_creates_account Prisma Demo.libs Demo.config (Demo.env 6000 "1")
              (mkRegisterDto "Carol.X@example.com" "Password1!" (Some "Carol") None None)
              Demo.world
              (after (register Prisma Demo.libs Demo.config (Demo.env 6000 "1")
                        (mkRegisterDto "Carol.X@example.com" "Password1!"
                           (Some "Carol") None None)) Demo.world)
              (mkAuthResponse
                 (mkUserProfile "user-1" "Carol.X@example.com" (Some "Carol") None 6000)
                 (mkTokenPair "access-secret.user-1.tenant-1.604806"
                    "refresh-secret.user-1.tenant-1.2592006")))
    as (user & tid & H1 & H2 & H3 & H4 & H5 & _).
  { vm_compute. reflexivity. }
  exists user, tid. simpl in H5. tauto.
Defined.

Lemma existsb_orb_true_r {A : Type} (f g : A -> bool) (l : list A) :
  existsb g l = true -> existsb (fun x => f x || g x) l = true.
Proof.
  induction l as [|a l IH]; simpl; [discriminate |].
  intro H. apply orb_true_iff in H. destruct H as [H | H].
  - rewrite H, orb_true_r. reflexivity.
  - rewrite (IH H). apply orb_true_r.
Qed.

(** A callback that throws makes the registration fail with nothing
    written. *)
Lemma register_rolls_back (orm : Orm) (L : Libs) (cfg : Config) (env : Env)
    (dto : RegisterDto) (w : World) :
  (forall w1, db w1 = db w ->
              exists e, fst (registerTransaction orm env dto
                               (bcrypt_hash L (rd_password dto) 12 (salt env)) w1)
                        = Err e) ->
  (exists e, fst (register orm L cfg env dto w) = Err e)
  /\ db (after (register orm L cfg env dto) w) = db w.
Proof.
  intro Hall. rewrite register_eq. unfold after, bind.
  pose proof (findByEmail_db (rd_email dto) w) as Hdb.
  destruct (UserRepository.findByEmail (rd_email dto) w) as [[ex|e] w1] eqn:E1;
    simpl in Hdb; [| simpl; eauto].
  destruct ex as [u|]; [simpl; eauto |].
  destruct (Hall w1 Hdb) as [e He]. unfold transaction.
  destruct (registerTransaction orm env dto
              (bcrypt_hash L (rd_password dto) 12 (salt env)) w1)
    as [[x|e'] w2]; simpl in He; [discriminate He |].
  simpl. eauto.
Qed.

(** With a store that does not fail and a free address, a registration
    whose callback throws fails with what the callback threw. *)
Lemma register_rethrows (orm : Orm) (L : Libs) (cfg : Config) (env : Env)
    (dto : RegisterDto) (w w2 : World) (e : Exn) :
  faults w = [] ->
  find (fun u => String.eqb (u_email u) (rd_email dto)) (users (db w)) = None ->
  registerTransaction orm env dto (bcrypt_hash L (rd_password dto) 12 (salt env))
    (mkWorld (db w) []) = (Err e, w2) ->
  fst (register orm L cfg env dto w) = Err e.
Proof.
  destruct w as [d fs]. simpl. intros -> Hnone Htx.
  rewrite register_eq. unfold bind at 1. unfold UserRepository.findByEmail.
  exec. rewrite Hnone. cbn [hd tl]. exec. unfold transaction.
  rewrite Htx. reflexivity.
Qed.

Lemma registerTransaction_slug_taken (orm : Orm) (env : Env) (dto : RegisterDto)
    (hashedPassword : string) (w : World) :
  truthy (rd_tenantId dto) = false ->
  existsb (fun t => String.eqb (t_slug t) (AuthService.generateSlug env (rd_email dto)))
    (tenants (db w)) = true ->
  (exists e, fst (registerTransaction orm env dto hashedPassword w) = Err e)
  /\ (hd false (faults w) = false -> hd false (tl (faults w)) = false ->
      existsb (fun u => String.eqb (u_id u) (uuid_user env)
                        || String.eqb (u_email u) (rd_email dto)) (users (db w)) = false ->
      fst (registerTransaction orm env dto hashedPassword w)
      = Err (DatabaseError UniqueConstraintViolation)).
Proof.
  intros Ht Hslug. destruct w as [d fs]. simpl in Hslug.
  pose proof (existsb_orb_true_r
                (fun t => String.eqb (t_id t) (uuid_tenant env))
                (fun t => String.eqb (t_slug t)
                            (AuthService.generateSlug env (rd_email dto)))
                (tenants d) Hslug) as Hex.
  destruct orm; simpl; unfold PrismaAuthService.registerTransaction,
    TypeOrmAuthService.registerTransaction; rewrite Ht; exec;
    unfold Store.user_create;
    (destruct (hd false fs);
     [ split; [eauto | discriminate]
     | destruct (existsb _ (users d));
       [ split; [eauto | congruence]
       | exec; unfold Store.tenant_create; cbn [tenants set_users db faults];
         destruct (hd false (tl fs));
         [ split; [eauto | discriminate]
         | rewrite Hex; split; [eauto | reflexivity] ] ] ]).
Qed.

(** X6. The slug of a new workspace is not looked up before it is
    written: when a tenant already has the slug that [generateSlug]
    makes, the registration fails, with a unique constraint violation
    when nothing fails before, and the user it had created is rolled
    back with it. *)
Theorem register_slug_collision_rolls_back :
  forall (orm : Orm) (L : Libs) (cfg : Config) (env : Env) (dto : RegisterDto)
         (w : World),
    truthy (rd_tenantId dto) = false ->
    existsb (fun t => String.eqb (t_slug t) (AuthService.generateSlug env (rd_email dto)))
      (tenants (db w)) = true ->
    (exists e, fst (register orm L cfg env dto w) = Err e)
    /\ db (after (register orm L cfg env dto) w) = db w
    /\ (faults w = [] ->
        find (fun u => String.eqb (u_email u) (rd_email dto)) (users (db w)) = None ->
        existsb (fun u => String.eqb (u_id u) (uuid_user env)) (users (db w)) = false ->
        fst (register orm L cfg env dto w)
        = Err (DatabaseError UniqueConstraintViolation)).
Proof.
  intros orm L cfg env dto w Ht Hslug.
  destruct (register_rolls_back orm L cfg env dto w) as [He Hdb].
  { intros w1 Hw1. rewrite <- Hw1 in Hslug.
    apply (registerTransaction_slug_taken orm env dto _ w1 Ht Hslug). }
  split; [exact He |]. split; [exact Hdb |].
  intros Hf Hemail Hid.
  destruct (registerTransaction_slug_taken orm env dto
              (bcrypt_hash L (rd_password dto) 12 (salt env))
              (mkWorld (db w) []) Ht Hslug) as [_ Hspec].
  destruct (registerTransaction orm env dto
              (bcrypt_hash L (rd_password dto) 12 (salt env)) (mkWorld (db w) []))
    as [r w2] eqn:E.
  simpl in Hspec.
  assert (Hr : r = Err (DatabaseError UniqueConstraintViolation)).
  { apply Hspec; auto. apply existsb_orb_false; assumption. }
  subst r. eapply register_rethrows; eauto.
Qed.

Lemma register_slug_collision_rolls_back_witness :
  fst (register Prisma Demo.libs Demo.config (mkEnv 6000 "u9" "t9" "k9" "salt" "corp")
         (mkRegisterDto "acme@example.com" "Password1!" None None None)
         (mkWorld (set_tenants Demo.database
                     [mkTenant "tA" "Acme" "acme-corp" 1000]) []))
  = Err (DatabaseError UniqueConstraintViolation)
  /\ db (after (register Prisma Demo.libs Demo.config
                  (mkEnv 6000 "u9" "t9" "k9" "salt" "corp")
                  (mkRegisterDto "acme@example.com" "Password1!" None None None))
           (mkWorld (set_tenants Demo.database
                       [mkTenant "tA" "Acme" "acme-corp" 1000]) []))
     = set_tenants Demo.database [mkTenant "tA" "Acme" "acme-corp" 1000].
Proof.
  destruct (register_slug_collision_rolls_back Prisma Demo.libs Demo.config
              (mkEnv 6000 "u9" "t9" "k9" "salt" "corp")
              (mkRegisterDto "acme@example.com" "Password1!" None None None)
              (mkWorld (set_tenants Demo.database
                          [mkTenant "tA" "Acme" "acme-corp" 1000]) [])
              eq_refl eq_refl) as (_ & Hdb & Herr).
  split; [apply Herr; reflexivity | exact Hdb].
Defined.

(** ** Accepting an invitation: refusals, success, the two revisions *)

(** X8. [acceptInvitation] refuses, in both revisions and before any
    write: a token that no invitation has, with
    [InvitationNotFoundException]; a pending invitation whose expiry is
    before now, with [InvitationExpiredException] (an invitation that
    expires at this very instant is still good); and, for an address that
    no user has, a request without a password, with
    [AuthPasswordRequiredException]. *)
Theorem acceptInvitation_refusals :
  forall (orm : Orm) (L : Libs) (cfg : Config) (env : Env)
         (dto : AcceptInvitationDto) (w : World),
    hd false (faults w) = false ->
    (find (fun i => String.eqb (inv_token i) (ad_token dto)) (invitations (db w)) = None ->
     acceptInvitation orm L cfg env dto w
     = (Err (InvitationNotFoundException (ad_token dto)),
        mkWorld (db w) (tl (faults w))))
    /\ (forall i,
          find (fun i => String.eqb (inv_token i) (ad_token dto)) (invitations (db w))
          = Some i ->
          inv_accepted i = false ->
          inv_expiresAt i < now env ->
          acceptInvitation orm L cfg env dto w
          = (Err InvitationExpiredException, mkWorld (db w) (tl (faults w))))
    /\ (forall i,
          find (fun i => String.eqb (inv_token i) (ad_token dto)) (invitations (db w))
          = Some i ->
          inv_accepted i = false ->
          now env <= inv_expiresAt i ->
          hd false (tl (faults w)) = false ->
          find (fun u => String.eqb (u_email u) (inv_email i)) (users (db w)) = None ->
          truthy (ad_password dto) = false ->
          acceptInvitation orm L cfg env dto w
          = (Err AuthPasswordRequiredException, mkWorld (db w) (tl (tl (faults w))))).
Proof.
  intros orm L cfg env dto [d fs] Hf. simpl in Hf. cbn [db faults].
  split; [| split].
  - intro Hnone. destruct orm; simpl;
      unfold PrismaAuthService.acceptInvitation, TypeOrmAuthService.acceptInvitation;
      exec; rewrite Hf, Hnone; reflexivity.
  - intros i Hi Hacc Hexp.
    assert (He : InvitationEntity.isExpired env i = true).
    { unfold InvitationEntity.isExpired. apply Z.ltb_lt. exact Hexp. }
    destruct orm; simpl;
      unfold PrismaAuthService.acceptInvitation, TypeOrmAuthService.acceptInvitation;
      exec; rewrite Hf, Hi, Hacc, He; reflexivity.
  - intros i Hi Hacc Hexp Hf2 Hnone Hpw.
    assert (He : InvitationEntity.isExpired env i = false).
    { unfold InvitationEntity.isExpired. apply Z.ltb_ge. exact Hexp. }
    destruct orm; simpl;
      unfold PrismaAuthService.acceptInvitation, TypeOrmAuthService.acceptInvitation,
        PrismaAuthService.invitedUser, TypeOrmAuthService.invitedUser;
      exec; rewrite Hf, Hi, Hacc, He; exec; rewrite Hf2, Hnone, Hpw; reflexivity.
Qed.

Lemma acceptInvitation_refusals_witness :
  acceptInvitation Prisma Demo.libs Demo.config (Demo.env 86400001 "1")
    (mkAcceptInvitationDto "inv-token-1" (Some "Password1!")) Demo.world
  = (Err InvitationExpiredException, Demo.world)
  /\ acceptInvitation TypeORM Demo.libs Demo.config (Demo.env 86400000 "1")
       (mkAcceptInvitationDto "inv-token-1" None) Demo.world
     = (Err AuthPasswordRequiredException, Demo.world).
Proof.
  split.
  - apply (proj1 (proj2 (acceptInvitation_refusals Prisma Demo.libs Demo.config
                           (Demo.env 86400001 "1")
                           (mkAcceptInvitationDto "inv-token-1" (Some "Password1!"))
                           Demo.world eq_refl)) Demo.bobInvitation);
      reflexivity.
  - apply (proj2 (proj2 (acceptInvitation_refusals TypeORM Demo.libs Demo.config
                           (Demo.env 86400000 "1")
                           (mkAcceptInvitationDto "inv-token-1" None)
                           Demo.world eq_refl)) Demo.bobInvitation);
      solve [reflexivity | simpl; lia].
Defined.

(** The user of an acceptance is the one that has the address of the
    invitation, or a new one appended to the users. *)
Lemma invitedUser_Ok (orm : Orm) (L : Libs) (env : Env) (i : Invitation)
    (dto : AcceptInvitationDto) (w w1 : World) (u : User) :
  invitedUser orm L env i dto w = (Ok u, w1) ->
  u_email u = inv_email i
  /\ ((find (fun u => String.eqb (u_email u) (inv_email i)) (users (db w)) = Some u
       /\ db w1 = db w)
      \/ (find (fun u => String.eqb (u_email u) (inv_email i)) (users (db w)) = None
          /\ truthy (ad_password dto) = true
          /\ u = mkUser (uuid_user env) (inv_email i)
                   (bcrypt_hash L (the (ad_password dto)) 12 (salt env)) None None
                   (now env)
          /\ db w1 = set_users (db w) (users (db w) ++ [u]))).
Proof.
  intro H.
  destruct (find (fun u => String.eqb (u_email u) (inv_email i)) (users (db w)))
    as [u0|] eqn:Hfind.
  - assert (Hu : u = u0 /\ db w1 = db w).
    { destruct w as [d fs]. simpl in Hfind.
      destruct orm; simpl in H;
        unfold PrismaAuthService.invitedUser, TypeOrmAuthService.invitedUser in H;
        exec_in H; rewrite Hfind in H;
        repeat (break_hyp H; try discriminate H; exec_in H); inv H; auto. }
    destruct Hu as [-> Hdb]. split; [| left; auto].
    apply find_some in Hfind. destruct Hfind as [_ He]. apply String.eqb_eq in He.
    exact He.
  - destruct (invitedUser_created orm L env i dto w w1 u Hfind H) as (Hpw & Hrow & Hdb).
    split; [rewrite Hrow; reflexivity |]. right. auto.
Qed.



Lemma invitedUser_quiet (orm : Orm) (L : Libs) (env : Env) (i : Invitation)
    (dto : AcceptInvitationDto) (d : DB) :
  faults (snd (invitedUser orm L env i dto (mkWorld d []))) = [].
Proof.
  destruct orm; simpl;
    unfold PrismaAuthService.invitedUser, TypeOrmAuthService.invitedUser,
      Store.user_create;
    exec; cbn [hd tl]; repeat (break_goal; exec; cbn [hd tl]); reflexivity.
Qed.

(** With a store that does not fail, the upsert of the Prisma revision
    and the find-then-save of the TypeORM revision do the same. *)
Lemma set_invitations_same (d : DB) : set_invitations d (invitations d) = d.
Proof. destruct d; reflexivity. Qed.

Lemma joinTenant_revisions_agree (env : Env) (user : User) (i : Invitation) (d : DB) :
  joinTenant Prisma env user i (mkWorld d [])
  = joinTenant TypeORM env user i (mkWorld d []).
Proof.
  assert (Hk : forall userId tid,
             transaction
               (_ <- store (Store.tenantUser_upsert (now env) userId tid (inv_role i)) ;;
                store (Store.invitation_update_accepted (inv_id i))) (mkWorld d [])
             = transaction_beside (fun d d' => set_invitations d (invitations d'))
                 (_ <- store (Store.tenantUser_upsert (now env) userId tid
                                (inv_role i)) ;;
                  store (Store.invitation_update_accepted (inv_id i)))
                 (mkWorld d [])).
  { intros userId tid. unfold transaction, transaction_beside, commit. exec.
    cbn [hd tl].
    destruct (Store.tenantUser_upsert (now env) userId tid (inv_role i) d)
      as [e | [m d1]] eqn:Hup.
    - exec. rewrite set_invitations_same. reflexivity.
    - apply upsert_inr in Hup. destruct Hup as (_ & _ & _ & Hinv & _).
      exec. cbn [hd tl].
      destruct (Store.invitation_update_accepted (inv_id i) d1) as [e | [[] d2]];
        exec; cbn [hd tl].
      + rewrite Hinv, set_invitations_same. reflexivity.
      + reflexivity. }
  simpl. unfold PrismaAuthService.joinTenant, TypeOrmAuthService.joinTenant,
    InvitationRepository.markAsAccepted.
  rewrite Hk. unfold transaction_beside. exec. cbn [hd tl].
  destruct (find (Store.is_member (u_id user) (inv_tenantId i)) (tenantUsers d))
    as [existing|] eqn:Hex.
  - apply find_some in Hex. destruct Hex as [_ Hex].
    unfold Store.is_member in Hex. apply andb_true_iff in Hex.
    destruct Hex as [Hu Ht]. apply String.eqb_eq in Hu, Ht. rewrite Hu, Ht.
    reflexivity.
  - reflexivity.
Qed.

(** X10. With a store that does not fail, the two revisions of
    [acceptInvitation] answer the same and leave the same database, on
    every request and every database. *)
Theorem acceptInvitation_revisions_agree :
  forall (L : Libs) (cfg : Config) (env : Env) (dto : AcceptInvitationDto) (d : DB),
    acceptInvitation Prisma L cfg env dto (mkWorld d [])
    = acceptInvitation TypeORM L cfg env dto (mkWorld d []).
Proof.
  intros L cfg env dto d. rewrite !acceptInvitation_eq.
  unfold bind at 1 5. unfold InvitationRepository.findByToken, store.
  cbn [hd tl faults db]. unfold Store.invitation_findUnique_token.
  destruct (find (fun i => String.eqb (inv_token i) (ad_token dto)) (invitations d))
    as [i|]; [| reflexivity].
  destruct (inv_accepted i); [reflexivity |].
  destruct (InvitationEntity.isExpired env i); [reflexivity |].
  unfold bind at 1 4.
  change (invitedUser TypeORM L env i dto) with (invitedUser Prisma L env i dto).
  pose proof (invitedUser_quiet Prisma L env i dto d) as Hq.
  destruct (invitedUser Prisma L env i dto (mkWorld d [])) as [[user|e] [d1 fs1]];
    [| reflexivity].
  simpl in Hq. subst fs1. unfold bind at 1 3.
  rewrite joinTenant_revisions_agree. reflexivity.
Qed.

(** ** Invitations in the repository *)

(** X15. [findPendingByEmailAndTenant] reads only, and what it answers
    agrees with [InvitationEntity.isValid] at the same time: an
    invitation it returns is in the table, is for that address and
    tenant, and is valid; when it returns none, no invitation for that
    address and tenant is valid. *)
Theorem findPending_agrees_with_isValid :
  forall (env : Env) (email tid : string) (w w' : World) (r : option Invitation),
    InvitationRepository.findPendingByEmailAndTenant env email tid w = (Ok r, w') ->
    db w' = db w
    /\ match r with
       | Some i =>
           In i (invitations (db w)) /\ inv_email i = email /\ inv_tenantId i = tid
           /\ InvitationEntity.isValid env i = true
       | None =>
           forall i, In i (invitations (db w)) -> inv_email i = email ->
                     inv_tenantId i = tid -> InvitationEntity.isValid env i = false
       end.
Proof.
  intros env email tid w w' r H.
  unfold InvitationRepository.findPendingByEmailAndTenant in H.
  apply store_Ok in H. destruct H as (_ & H & _).
  unfold Store.invitation_findFirst_pending in H. inv H.
  split; [reflexivity |].
  destruct (find _ (invitations (db w))) as [i|] eqn:Hfind.
  - apply find_some in Hfind. destruct Hfind as [Hin Hp].
    repeat (apply andb_true_iff in Hp; destruct Hp as [Hp ?]).
    apply String.eqb_eq in Hp.
    match goal with Ht : String.eqb (inv_tenantId i) tid = true |- _ =>
      apply String.eqb_eq in Ht end.
    repeat (split; [assumption |]).
    unfold InvitationEntity.isValid, InvitationEntity.isExpired.
    rewrite Z.ltb_antisym.
    match goal with Ha : negb (inv_accepted i) = true |- _ => rewrite Ha end.
    match goal with Hn : (now env <=? inv_expiresAt i) = true |- _ => rewrite Hn end.
    reflexivity.
  - intros i Hin He Ht.
    pose proof (find_none _ _ Hfind i Hin) as Hp. cbv beta in Hp.
    rewrite He, Ht, !String.eqb_refl in Hp. simpl in Hp.
    unfold InvitationEntity.isValid, InvitationEntity.isExpired.
    rewrite Z.ltb_antisym, negb_involutive. exact Hp.
Qed.

Lemma findPending_agrees_with_isValid_witness :
  InvitationEntity.isValid (Demo.env 86400000 "1") Demo.bobInvitation = true
  /\ forall i, In i (invitations Demo.database) -> inv_email i = "bob@example.com" ->
               inv_tenantId i = "tA" ->
               InvitationEntity.isValid (Demo.env 86400001 "1") i = false.
Proof.
  split.
  - apply (proj2 (findPending_agrees_with_isValid (Demo.env 86400000 "1")
                    "bob@example.com" "tA" Demo.world Demo.world
                    (Some Demo.bobInvitation) eq_refl)).
  - apply (proj2 (findPending_agrees_with_isValid (Demo.env 86400001 "1")
                    "bob@example.com" "tA" Demo.world Demo.world None eq_refl)).
Defined.

(** A row that a key finds in no other row of the table is found by
    this key, in whatever order the table keeps its rows. *)
Lemma find_unique_perm {A : Type} (f : A -> bool) (x : A) (l l' : list A) :
  f x = true -> find f l = None -> Permutation l' (x :: l) ->
  find f l' = Some x.
Proof.
  intros Hx Hnone Hp.
  assert (Hin : In x l').
  { eapply Permutation_in; [apply Permutation_sym; exact Hp | left; reflexivity]. }
  assert (Hex : existsb f l' = true).
  { apply existsb_exists. exists x. auto. }
  destruct (existsb_find_Some _ _ Hex) as [y Hy]. rewrite Hy.
  apply find_some in Hy. destruct Hy as [Hyin Hfy].
  apply (Permutation_in _ Hp) in Hyin. destruct Hyin as [<- | Hyl]; [reflexivity |].
  pose proof (find_none _ _ Hnone _ Hyl) as Hfalse. congruence.
Qed.

(** X16. An invitation that [create] has written is pending and is the
    one row added to the table. In whatever order the table keeps its
    rows afterwards, it is what [findByToken] answers for its token and
    [findById] for its id. *)
Theorem invitation_create_then_find :
  forall (id email token : string) (role : TenantRole) (expiresAt : Z)
         (tid invitedBy : string) (w w1 : World) (i : Invitation),
    InvitationRepository.create id email token role expiresAt tid invitedBy w
    = (Ok i, w1) ->
    i = mkInvitation id email token role expiresAt false tid invitedBy
    /\ Permutation (invitations (db w1)) (i :: invitations (db w))
    /\ InvitationEntity.isPending i = true
    /\ forall d' fs,
         Permutation (invitations d') (i :: invitations (db w)) ->
         hd false fs = false ->
         InvitationRepository.findByToken token (mkWorld d' fs)
         = (Ok (Some i), mkWorld d' (tl fs))
         /\ InvitationRepository.findById id (mkWorld d' fs)
            = (Ok (Some i), mkWorld d' (tl fs)).
Proof.
  intros id email token role expiresAt tid invitedBy w w1 i H.
  unfold InvitationRepository.create in H.
  apply store_Ok in H. destruct H as (_ & H & _).
  unfold Store.invitation_create in H.
  destruct (existsb (fun i => String.eqb (inv_id i) id || String.eqb (inv_token i) token)
              (invitations (db w))) eqn:Hu; [discriminate H |].
  repeat (break_hyp H; try discriminate H). inv H.
  unfold set_invitations. cbn [invitations].
  split; [reflexivity |].
  split; [apply Permutation_sym, Permutation_cons_append |].
  split; [reflexivity |].
  intros d' fs Hp Hf.
  unfold InvitationRepository.findByToken, InvitationRepository.findById, store,
    Store.invitation_findUnique_token, Store.invitation_findUnique_id.
  cbn [db faults]. rewrite Hf.
  assert (Htok : find (fun i => String.eqb (inv_token i) token) (invitations (db w))
                 = None).
  { apply find_existsb_false. eapply existsb_orb_false_r. exact Hu. }
  assert (Hid : find (fun i => String.eqb (inv_id i) id) (invitations (db w)) = None).
  { apply find_existsb_false.
    clear - Hu. induction (invitations (db w)) as [|a l IH]; simpl in *;
      [reflexivity |].
    apply orb_false_iff in Hu. destruct Hu as [Ha Hl].
    apply orb_false_iff in Ha. destruct Ha as [Ha _].
    rewrite Ha. simpl. auto. }
  erewrite (find_unique_perm (fun i => String.eqb (inv_token i) token));
    [| | exact Htok | exact Hp]; [| apply String.eqb_refl].
  erewrite (find_unique_perm (fun i => String.eqb (inv_id i) id));
    [| | exact Hid | exact Hp]; [| apply String.eqb_refl].
  split; reflexivity.
Qed.

Lemma invitation_create_then_find_witness :
  InvitationRepository.findByToken "inv-token-2"
    (mkWorld (db (after (InvitationRepository.create "i2" "dan@example.com"
                           "inv-token-2" ADMIN 90000000 "tB" "u1") Demo.world)) [])
  = (Ok (Some (mkInvitation "i2" "dan@example.com" "inv-token-2" ADMIN 90000000 false
                 "tB" "u1")),
     mkWorld (db (after (InvitationRepository.create "i2" "dan@example.com"
                           "inv-token-2" ADMIN 90000000 "tB" "u1") Demo.world)) []).
Proof.
  destruct (invitation_create_then_find "i2" "dan@example.com" "inv-token-2" ADMIN
              90000000 "tB" "u1" Demo.world
              (after (InvitationRepository.create "i2" "dan@example.com"
                        "inv-token-2" ADMIN 90000000 "tB" "u1") Demo.world)
              (mkInvitation "i2" "dan@example.com" "inv-token-2" ADMIN 90000000 false
                 "tB" "u1")
              eq_refl) as (_ & Hp & _ & H).
  exact (proj1 (H _ [] Hp eq_refl)).
Defined.

(** ** UsersService *)

(** X17. [switchTenant] reads the membership and nothing else: it
    returns the tenant id when the user has a membership of that tenant
    and throws [UserNoTenantAccessException] when not; it writes nothing
    and issues no token. *)
Theorem switchTenant_checks_membership :
  forall (userId tid : string) (w : World),
    hd false (faults w) = false ->
    snd (UsersService.switchTenant userId tid w) = mkWorld (db w) (tl (faults w))
    /\ ((exists m, In m (tenantUsers (db w))
           /\ tu_userId m = userId /\ tu_tenantId m = tid) ->
        fst (UsersService.switchTenant userId tid w) = Returned tid)
    /\ (~ (exists m, In m (tenantUsers (db w))
             /\ tu_userId m = userId /\ tu_tenantId m = tid) ->
        fst (UsersService.switchTenant userId tid w)
        = Thrown (UserNoTenantAccessException tid)).
Proof.
  intros userId tid [d fs] Hf. simpl in Hf.
  unfold UsersService.switchTenant, await, UserRepository.hasTenantAccess.
  exec. rewrite Hf.
  destruct (find (Store.is_member userId tid) (tenantUsers d)) as [m|] eqn:Hm;
    cbn [negb]; (split; [reflexivity |]); split.
  - reflexivity.
  - intro Hno. exfalso. apply Hno. apply find_some in Hm. destruct Hm as [Hin Hk].
    unfold Store.is_member in Hk. apply andb_true_iff in Hk.
    destruct Hk as [Hu Ht]. apply String.eqb_eq in Hu, Ht. eauto.
  - intros (m & Hin & Hu & Ht). exfalso.
    pose proof (find_none _ _ Hm m Hin) as Hk. unfold Store.is_member in Hk.
    rewrite Hu, Ht, !String.eqb_refl in Hk. discriminate Hk.
  - reflexivity.
Qed.

Lemma switchTenant_checks_membership_witness :
  fst (UsersService.switchTenant "u1" "tB" Demo.world) = Returned "tB"
  /\ fst (UsersService.switchTenant "u1" "tC" Demo.world)
     = Thrown (UserNoTenantAccessException "tC").
Proof.
  split.
  - apply (proj1 (proj2 (switchTenant_checks_membership "u1" "tB" Demo.world eq_refl))).
    exists Demo.aliceBolt. split; [left; reflexivity | split; reflexivity].
  - apply (proj2 (proj2 (switchTenant_checks_membership "u1" "tC" Demo.world eq_refl))).
    intros (m & Hin & Hu & Ht). vm_compute in Hin.
    destruct Hin as [<- | [<- | []]]; discriminate Ht.
Defined.

(** The password column of one user, replaced. *)
Lemma updatePassword_inr (id hashedPassword : string) (d d' : DB) (a : unit) :
  UserRepository.updatePassword_query id hashedPassword d = inr (a, d') ->
  d' = set_users d
         (map (fun u => if String.eqb (u_id u) id
                        then mkUser (u_id u) (u_email u) hashedPassword
                               (u_firstName u) (u_lastName u) (u_createdAt u)
                        else u) (users d)).
Proof.
  unfold UserRepository.updatePassword_query. intro H.
  break_hyp H; [| discriminate H]. inv H. reflexivity.
Qed.

(** X18. [changePassword] for a user that exists: with a wrong current
    password it throws [UserIncorrectPasswordException] and writes
    nothing; with the right one it replaces the stored password of that
    user by the bcrypt hash of the new one and touches no other column,
    row or table. *)
Theorem changePassword_replaces_hash :
  forall (L : Libs) (env : Env) (userId : string) (dto : ChangePasswordDto)
         (w : World) (u : User),
    hd false (faults w) = false ->
    find (fun u => String.eqb (u_id u) userId) (users (db w)) = Some u ->
    (bcrypt_compare L (cp_currentPassword dto) (u_password u) = false ->
     UsersService.changePassword L env userId dto w
     = (Thrown UserIncorrectPasswordException, mkWorld (db w) (tl (faults w))))
    /\ (bcrypt_compare L (cp_currentPassword dto) (u_password u) = true ->
        hd false (tl (faults w)) = false ->
        UsersService.changePassword L env userId dto w
        = (Returned (mkLogoutResponse "Password changed successfully"),
           mkWorld
             (set_users (db w)
                (map (fun x => if String.eqb (u_id x) userId
                               then mkUser (u_id x) (u_email x)
                                      (bcrypt_hash L (cp_newPassword dto) 12 (salt env))
                                      (u_firstName x) (u_lastName x) (u_createdAt x)
                               else x) (users (db w))))
             (tl (tl (faults w))))).
Proof.
  intros L env userId dto [d fs] u Hf Hu. simpl in Hf, Hu.
  unfold UsersService.changePassword, await, UserRepository.findByIdWithPassword,
    UserRepository.updatePassword, retU, throwU.
  exec. rewrite Hf, Hu. split.
  - intro Hpw. rewrite Hpw. reflexivity.
  - intros Hpw Hf2. rewrite Hpw. cbn [negb]. rewrite Hf2.
    unfold UserRepository.updatePassword_query.
    assert (Hex : existsb (fun u => String.eqb (u_id u) userId) (users d) = true).
    { apply existsb_exists. exists u. apply find_some in Hu. exact Hu. }
    rewrite Hex. reflexivity.
Qed.

Lemma changePassword_replaces_hash_witness :
  UsersService.changePassword Demo.libs (Demo.env 6000 "1") "u1"
    (mkChangePasswordDto "guess" "NewPassword1!") Demo.world
  = (Thrown UserIncorrectPasswordException, Demo.world)
  /\ fst (UsersService.changePassword Demo.libs (Demo.env 6000 "1") "u1"
            (mkChangePasswordDto "Password1!" "NewPassword1!") Demo.world)
     = Returned (mkLogoutResponse "Password changed successfully").
Proof.
  destruct (changePassword_replaces_hash Demo.libs (Demo.env 6000 "1") "u1"
              (mkChangePasswordDto "guess" "NewPassword1!") Demo.world Demo.alice
              eq_refl eq_refl) as [H1 _].
  destruct (changePassword_replaces_hash Demo.libs (Demo.env 6000 "1") "u1"
              (mkChangePasswordDto "Password1!" "NewPassword1!") Demo.world Demo.alice
              eq_refl eq_refl) as [_ H2].
  split.
  - apply H1. reflexivity.
  - rewrite H2; reflexivity.
Defined.

Lemma changePassword_db (L : Libs) (env : Env) (userId : string)
    (dto : ChangePasswordDto) (w : World) :
  db (snd (UsersService.changePassword L env userId dto w)) = db w
  \/ db (snd (UsersService.changePassword L env userId dto w))
     = set_users (db w)
         (map (fun x => if String.eqb (u_id x) userId
                        then mkUser (u_id x) (u_email x)
                               (bcrypt_hash L (cp_newPassword dto) 12 (salt env))
                               (u_firstName x) (u_lastName x) (u_createdAt x)
                        else x) (users (db w))).
Proof.
  destruct w as [d fs].
  unfold UsersService.changePassword, await, UserRepository.findByIdWithPassword,
    UserRepository.updatePassword, retU, throwU, UserRepository.updatePassword_query.
  exec. repeat (break_goal; exec); auto.
Qed.

Lemma existsb_map_same_key {A : Type} (f : A -> bool) (g : A -> A) (l : list A) :
  (forall x, f (g x) = f x) -> existsb f (map g l) = existsb f l.
Proof.
  intro H. induction l as [|a l IH]; simpl; [reflexivity |].
  rewrite H, IH. reflexivity.
Qed.

(** Of the users, only which ids exist decides what [generateTokens]
    answers. *)
Lemma generateTokens_ext_ids (L : Libs) (cfg : Config) (env : Env)
    (userId tid : string) (d1 d2 : DB) (fs : list bool) :
  existsb (fun u => String.eqb (u_id u) userId) (users d1)
  = existsb (fun u => String.eqb (u_id u) userId) (users d2) ->
  refreshTokens d1 = refreshTokens d2 ->
  fst (AuthService.generateTokens L cfg env userId tid (mkWorld d1 fs))
  = fst (AuthService.generateTokens L cfg env userId tid (mkWorld d2 fs)).
Proof.
  intros Hu Hr.
  unfold AuthService.generateTokens.
  destruct (jwt_signAsync L (mkJwtPayload userId tid)
              (mkSignOptions (jwt_secret cfg) (jwt_expiresIn cfg)) (now env)) as [a|];
    destruct (jwt_signAsync L (mkJwtPayload userId tid)
                (mkSignOptions (jwt_refreshSecret cfg)
                   (Some (or_else (jwt_refreshExpiresIn cfg) "30d"))) (now env)) as [r|];
    try reflexivity.
  unfold bind, ret, RefreshTokenRepository.create, store, Store.refreshToken_create.
  cbn [db faults]. rewrite Hu, Hr.
  repeat (break_goal; cbn [fst snd]); reflexivity.
Qed.

(** X19. A change of password revokes nothing: a refresh token that
    would have refreshed before the call of [changePassword] refreshes
    after it, whatever the call did, and gives the same pair. *)
Theorem changePassword_keeps_sessions :
  forall (L : Libs) (cfg : Config) (env0 env : Env) (userId : string)
         (dto : ChangePasswordDto) (w : World) (token : string) (fs : list bool)
         (pair : TokenPair),
    fst (AuthService.refreshToken L cfg env token (mkWorld (db w) fs)) = Ok pair ->
    fst (AuthService.refreshToken L cfg env token
           (mkWorld (db (snd (UsersService.changePassword L env0 userId dto w))) fs))
    = Ok pair.
Proof.
  intros L cfg env0 env userId dto w token fs pair H.
  destruct (changePassword_db L env0 userId dto w) as [-> | ->]; [exact H |].
  destruct (AuthService.refreshToken L cfg env token (mkWorld (db w) fs))
    as [r w'] eqn:E. simpl in H. subst r.
  apply refreshToken_Ok in E. cbn [db faults] in E.
  destruct E as (payload & st & u & Hv & Hst & Hvalid & Hu & [entries Hent]
                 & Hf1 & Hf2 & Hgen).
  set (g := fun x => if String.eqb (u_id x) userId
                     then mkUser (u_id x) (u_email x)
                            (bcrypt_hash L (cp_newPassword dto) 12 (salt env0))
                            (u_firstName x) (u_lastName x) (u_createdAt x)
                     else x).
  assert (Hg : forall x, u_id (g x) = u_id x).
  { intro x. unfold g. destruct (String.eqb (u_id x) userId); reflexivity. }
  eapply refreshToken_Ok_intro with (u := g u) (entries := entries); eauto.
  - cbn [users set_users].
    rewrite (find_map_same_key (fun u => String.eqb (u_id u) (sub payload)) g).
    + rewrite Hu. reflexivity.
    + intro x. rewrite Hg. reflexivity.
  - rewrite Hg. exact Hent.
  - rewrite Hg.
    erewrite generateTokens_ext_ids with (d2 := db w);
      [rewrite Hgen; reflexivity | | reflexivity].
    cbn [users set_users].
    apply (existsb_map_same_key (fun x => String.eqb (u_id x) (u_id u)) g).
    intro x. rewrite Hg. reflexivity.
Qed.

Lemma changePassword_keeps_sessions_witness :
  fst (AuthService.refreshToken Demo.libs Demo.config (Demo.env 6000 "1")
         Demo.aliceToken
         (mkWorld
            (db (snd (UsersService.changePassword Demo.libs (Demo.env 5500 "3") "u1"
                        (mkChangePasswordDto "Password1!" "NewPassword1!")
                        Demo.world))) []))
  = Ok (mkTokenPair "access-secret.u1.tA.604806" "refresh-secret.u1.tA.2592006").
Proof.
  apply (changePassword_keeps_sessions Demo.libs Demo.config (Demo.env 5500 "3")
           (Demo.env 6000 "1") "u1"
           (mkChangePasswordDto "Password1!" "NewPassword1!") Demo.world
           Demo.aliceToken []).
  vm_compute. reflexivity.
Defined.

(** ** Memberships in the repository *)

Lemma existsb_app_last {A : Type} (f : A -> bool) (l : list A) (x : A) :
  f x = true -> existsb f (l ++ [x]) = true.
Proof.
  intro H. rewrite existsb_app. simpl. rewrite H. rewrite orb_true_r. reflexivity.
Qed.

(** X20. A membership that [addUserToTenant] has written is the one row
    added to the table, for a user and a tenant that exist and that had
    no membership together, and no other table changes. In whatever
    order the table keeps its rows afterwards, [getTenantUser] answers
    the new row, [userExistsInTenant] and [hasTenantAccess] answer true,
    and adding the same user to the same tenant again fails with a
    unique constraint violation, whatever the role. *)
Theorem addUserToTenant_then_lookup :
  forall (env : Env) (userId tid : string) (role : TenantRole) (w w1 : World)
         (m : TenantUser),
    TenantRepository.addUserToTenant env userId tid role w = (Ok m, w1) ->
    m = mkTenantUser userId tid role (now env)
    /\ Permutation (tenantUsers (db w1)) (m :: tenantUsers (db w))
    /\ users (db w1) = users (db w) /\ tenants (db w1) = tenants (db w)
    /\ refreshTokens (db w1) = refreshTokens (db w)
    /\ invitations (db w1) = invitations (db w)
    /\ existsb (fun u => String.eqb (u_id u) userId) (users (db w)) = true
    /\ existsb (fun t => String.eqb (t_id t) tid) (tenants (db w)) = true
    /\ find (Store.is_member userId tid) (tenantUsers (db w)) = None
    /\ forall d' fs,
         Permutation (tenantUsers d') (m :: tenantUsers (db w)) ->
         hd false fs = false ->
         TenantRepository.getTenantUser userId tid (mkWorld d' fs)
         = (Ok (Some m), mkWorld d' (tl fs))
         /\ TenantRepository.userExistsInTenant userId tid (mkWorld d' fs)
            = (Ok true, mkWorld d' (tl fs))
         /\ UserRepository.hasTenantAccess userId tid (mkWorld d' fs)
            = (Ok true, mkWorld d' (tl fs))
         /\ forall env2 role2,
              TenantRepository.addUserToTenant env2 userId tid role2 (mkWorld d' fs)
              = (Err (DatabaseError UniqueConstraintViolation), mkWorld d' (tl fs)).
Proof.
  intros env userId tid role w w1 m H.
  unfold TenantRepository.addUserToTenant in H.
  apply store_Ok in H. destruct H as (_ & H & _).
  pose proof (tenantUser_create_inr _ _ _ _ _ _ _ H) as [Hm Hd].
  unfold Store.tenantUser_create in H.
  destruct (existsb (Store.is_member userId tid) (tenantUsers (db w))) eqn:Hex;
    [discriminate H |].
  destruct (existsb (fun u => String.eqb (u_id u) userId) (users (db w))) eqn:Hu;
    [| discriminate H].
  destruct (existsb (fun t => String.eqb (t_id t) tid) (tenants (db w))) eqn:Ht;
    [| discriminate H].
  clear H. pose proof (find_existsb_false _ _ Hex) as Hnone.
  split; [exact Hm |].
  split; [rewrite Hd; cbn [set_tenantUsers tenantUsers];
          apply Permutation_sym, Permutation_cons_append |].
  rewrite Hd. cbn [set_tenantUsers users tenants refreshTokens invitations].
  repeat (split; [assumption || reflexivity |]).
  intros d' fs Hp Hf.
  assert (Hk : Store.is_member userId tid m = true).
  { rewrite Hm. unfold Store.is_member. simpl. rewrite !String.eqb_refl. reflexivity. }
  unfold TenantRepository.getTenantUser, TenantRepository.userExistsInTenant,
    UserRepository.hasTenantAccess, TenantRepository.addUserToTenant,
    Store.tenantUser_create.
  exec. rewrite Hf.
  rewrite (find_unique_perm _ _ _ _ Hk Hnone Hp).
  repeat (split; [reflexivity |]).
  intros env2 role2.
  assert (Hex' : existsb (Store.is_member userId tid) (tenantUsers d') = true).
  { apply existsb_exists. exists m. split; [| exact Hk].
    eapply Permutation_in; [apply Permutation_sym; exact Hp | left; reflexivity]. }
  rewrite Hex'. reflexivity.
Qed.

Lemma addUserToTenant_then_lookup_witness :
  UserRepository.hasTenantAccess "u1" "tC"
    (mkWorld
       (db (after (TenantRepository.addUserToTenant (Demo.env 6000 "1") "u1" "tC" ADMIN)
              (mkWorld (set_tenants Demo.database
                          [Demo.acme; Demo.bolt; mkTenant "tC" "Core" "core" 3000])
                 []))) [])
  = (Ok true,
     mkWorld
       (db (after (TenantRepository.addUserToTenant (Demo.env 6000 "1") "u1" "tC" ADMIN)
              (mkWorld (set_tenants Demo.database
                          [Demo.acme; Demo.bolt; mkTenant "tC" "Core" "core" 3000])
                 []))) []).
Proof.
  destruct (addUserToTenant_then_lookup (Demo.env 6000 "1") "u1" "tC" ADMIN
              (mkWorld (set_tenants Demo.database
                          [Demo.acme; Demo.bolt; mkTenant "tC" "Core" "core" 3000]) [])
              (after (TenantRepository.addUserToTenant (Demo.env 6000 "1") "u1" "tC"
                        ADMIN)
                 (mkWorld (set_tenants Demo.database
                             [Demo.acme; Demo.bolt; mkTenant "tC" "Core" "core" 3000])
                    []))
              (mkTenantUser "u1" "tC" ADMIN 6000) eq_refl)
    as (_ & Hp & _ & _ & _ & _ & _ & _ & _ & H).
  destruct (H _ [] Hp eq_refl) as (_ & _ & Hacc & _). exact Hacc.
Defined.

(** X21. A membership that [removeUserFromTenant] has deleted is gone
    and no other row is: afterwards [userExistsInTenant] and
    [hasTenantAccess] answer false, [switchTenant] to that tenant throws
    [UserNoTenantAccessException], and a second removal fails because the
    record is not found. The refresh tokens of the user are as they
    were. *)
Theorem removeUserFromTenant_then_lookup :
  forall (userId tid : string) (w w1 : World) (a : unit),
    TenantRepository.removeUserFromTenant userId tid w = (Ok a, w1) ->
    db w1 = set_tenantUsers (db w)
              (filter (fun m => negb (Store.is_member userId tid m))
                 (tenantUsers (db w)))
    /\ refreshTokens (db w1) = refreshTokens (db w)
    /\ forall fs, hd false fs = false ->
         TenantRepository.userExistsInTenant userId tid (mkWorld (db w1) fs)
         = (Ok false, mkWorld (db w1) (tl fs))
         /\ UserRepository.hasTenantAccess userId tid (mkWorld (db w1) fs)
            = (Ok false, mkWorld (db w1) (tl fs))
         /\ UsersService.switchTenant userId tid (mkWorld (db w1) fs)
            = (Thrown (UserNoTenantAccessException tid), mkWorld (db w1) (tl fs))
         /\ TenantRepository.removeUserFromTenant userId tid (mkWorld (db w1) fs)
            = (Err (DatabaseError RecordNotFound), mkWorld (db w1) (tl fs)).
Proof.
  intros userId tid w w1 a H.
  unfold TenantRepository.removeUserFromTenant in H.
  apply store_Ok in H. destruct H as (_ & H & _).
  unfold Store.tenantUser_delete in H.
  destruct (existsb (Store.is_member userId tid) (tenantUsers (db w)));
    [| discriminate H].
  assert (Hd : db w1 = set_tenantUsers (db w)
                         (filter (fun m => negb (Store.is_member userId tid m))
                            (tenantUsers (db w)))).
  { inversion H. reflexivity. }
  clear H. split; [exact Hd |]. split; [rewrite Hd; reflexivity |].
  intros fs Hf. rewrite Hd.
  assert (Hex : existsb (Store.is_member userId tid)
                  (filter (fun m => negb (Store.is_member userId tid m))
                     (tenantUsers (db w))) = false).
  { clear Hd. induction (tenantUsers (db w)) as [|x l IH]; simpl; [reflexivity |].
    destruct (Store.is_member userId tid x) eqn:E; simpl; [exact IH |].
    rewrite E, IH. reflexivity. }
  pose proof (find_existsb_false _ _ Hex) as Hnone.
  destruct w as [d0 fs0]. cbn [db] in *.
  unfold TenantRepository.userExistsInTenant, UserRepository.hasTenantAccess,
    UsersService.switchTenant, await, UserRepository.hasTenantAccess,
    TenantRepository.removeUserFromTenant, Store.tenantUser_delete, throwU.
  exec. cbn [tenantUsers set_tenantUsers]. rewrite Hf, Hnone, Hex.
  repeat split.
Qed.

Lemma removeUserFromTenant_then_lookup_witness :
  UsersService.switchTenant "u1" "tA"
    (mkWorld (db (after (TenantRepository.removeUserFromTenant "u1" "tA") Demo.world))
       [])
  = (Thrown (UserNoTenantAccessException "tA"),
     mkWorld (db (after (TenantRepository.removeUserFromTenant "u1" "tA") Demo.world))
       []).
Proof.
  destruct (removeUserFromTenant_then_lookup "u1" "tA" Demo.world
              (after (TenantRepository.removeUserFromTenant "u1" "tA") Demo.world)
              tt eq_refl) as (_ & _ & H).
  destruct (H [] eq_refl) as (_ & _ & Hsw & _). exact Hsw.
Defined.

(** ** Registration, then login *)

Lemma register_Ok (orm : Orm) (L : Libs) (cfg : Config) (env : Env)
    (dto : RegisterDto) (w w' : World) (resp : AuthResponse) :
  register orm L cfg env dto w = (Ok resp, w') ->
  exists user tid w1 w2,
    find (fun u => String.eqb (u_email u) (rd_email dto)) (users (db w)) = None
    /\ db w1 = db w
    /\ registerTransaction orm env dto (bcrypt_hash L (rd_password dto) 12 (salt env))
         w1 = (Ok (user, tid), w2)
    /\ AuthService.generateTokens L cfg env (u_id user) tid w2
       = (Ok (ar_tokens resp), w').
Proof.
  intro H. rewrite register_eq in H.
  apply bind_Ok in H. destruct H as (ex & w1 & Hfind & H).
  destruct ex as [x|]; [discriminate H |].
  apply findByEmail_Ok_None in Hfind. destruct Hfind as [Hnone Hdb1].
  apply bind_Ok in H. destruct H as ([user tid] & w2 & Htx & H).
  apply transaction_Ok in Htx.
  apply bind_Ok in H. destruct H as (tokens & w3 & Hgen & H). inv H.
  exists user, tid, w1, w2. auto.
Qed.

Lemma membership_appended (orm : Orm) (t : Z) (userId tid : string)
    (role : TenantRole) (d d' : DB) (m : TenantUser) :
  existsb (Store.is_member userId tid) (tenantUsers d) = false ->
  match orm with
  | Prisma => Store.tenantUser_create t userId tid role
  | TypeORM => Store.tenantUser_upsert t userId tid role
  end d = inr (m, d') ->
  tenantUsers d' = (tenantUsers d ++ [mkTenantUser userId tid role t])%list.
Proof.
  intros Hex H.
  assert (Hc : Store.tenantUser_create t userId tid role d = inr (m, d')).
  { destruct orm; [exact H |]. unfold Store.tenantUser_upsert in H.
    rewrite Hex in H. exact H. }
  apply tenantUser_create_inr in Hc. destruct Hc as [-> ->]. reflexivity.
Qed.

Lemma no_rows_not_member (userId tid : string) (l : list TenantUser) :
  (forall m, In m l -> tu_userId m <> userId) ->
  existsb (Store.is_member userId tid) l = false
  /\ filter (fun m => String.eqb (tu_userId m) userId) l = [].
Proof.
  intro H. induction l as [|a l IH]; simpl; [auto |].
  assert (Ha : String.eqb (tu_userId a) userId = false).
  { apply String.eqb_neq. apply H. left. reflexivity. }
  destruct IH as [IH1 IH2]; [intros m Hm; apply H; right; exact Hm |].
  unfold Store.is_member at 1. rewrite Ha. simpl. auto.
Qed.

(** The membership row of a registration, when no membership row had the
    id of the new user. *)
Lemma registerTransaction_membership (orm : Orm) (env : Env) (dto : RegisterDto)
    (hashedPassword : string) (w w' : World) (user : User) (tid : string) :
  (forall m, In m (tenantUsers (db w)) -> tu_userId m <> uuid_user env) ->
  registerTransaction orm env dto hashedPassword w = (Ok (user, tid), w') ->
  exists role,
    tenantUsers (db w')
    = (tenantUsers (db w) ++ [mkTenantUser (uuid_user env) tid role (now env)])%list.
Proof.
  intros Hfresh H.
  assert (E : registerTransaction orm env dto hashedPassword w
              = (newUser <- store (Store.user_create (uuid_user env) (now env)
                                     (rd_email dto) hashedPassword
                                     (rd_firstName dto) (rd_lastName dto)) ;;
                 if truthy (rd_tenantId dto) then
                   tenant <- store (Store.tenant_findUnique_id (the (rd_tenantId dto))) ;;
                   match tenant with
                   | None => throw (AuthTenantNotFoundException (the (rd_tenantId dto)))
                   | Some _ =>
                       _ <- store (match orm with
                                   | Prisma => Store.tenantUser_create (now env)
                                                 (u_id newUser) (the (rd_tenantId dto)) MEMBER
                                   | TypeORM => Store.tenantUser_upsert (now env)
                                                  (u_id newUser) (the (rd_tenantId dto)) MEMBER
                                   end) ;;
                       ret (newUser, the (rd_tenantId dto))
                   end
                 else
                   tenant <- store (Store.tenant_create (uuid_tenant env) (now env)
                                      (AuthService.workspaceName (rd_firstName dto))
                                      (AuthService.generateSlug env (rd_email dto))) ;;
                   _ <- store (match orm with
                               | Prisma => Store.tenantUser_create (now env)
                                             (u_id newUser) (t_id tenant) OWNER
                               | TypeORM => Store.tenantUser_upsert (now env)
                                              (u_id newUser) (t_id tenant) OWNER
                               end) ;;
                   ret (newUser, t_id tenant)) w).
  { destruct orm; reflexivity. }
  rewrite E in H. clear E.
  apply bind_Ok in H. destruct H as (newUser & w1 & Hu & H).
  apply store_Ok in Hu. destruct Hu as (_ & Hu & _).
  apply user_create_inr in Hu. destruct Hu as [Hrow Hu].
  assert (Hid : u_id newUser = uuid_user env) by (rewrite Hrow; reflexivity).
  destruct (truthy (rd_tenantId dto)).
  - apply bind_Ok in H. destruct H as (tenant & w2 & Ht & H).
    apply store_Ok in Ht. destruct Ht as (_ & Ht & _).
    unfold Store.tenant_findUnique_id in Ht. inv Ht.
    destruct (find _ (tenants (db w1))); [| discriminate H].
    apply bind_Ok in H. destruct H as (m & w3 & Hm & H). inv H.
    apply store_Ok in Hm. destruct Hm as (_ & Hm & _).
    match goal with Hd : db w1 = db w2 |- _ => rewrite <- Hd in Hm end.
    apply membership_appended in Hm.
    + exists MEMBER. rewrite Hm, Hu. reflexivity.
    + rewrite Hu. simpl. apply no_rows_not_member. exact Hfresh.
  - apply bind_Ok in H. destruct H as (tenant & w2 & Ht & H).
    apply store_Ok in Ht. destruct Ht as (_ & Ht & _).
    apply tenant_create_inr in Ht. destruct Ht as [Htrow Ht].
    apply bind_Ok in H. destruct H as (m & w3 & Hm & H). inv H.
    apply store_Ok in Hm. destruct Hm as (_ & Hm & _).
    apply membership_appended in Hm.
    + exists OWNER. rewrite Hm, Ht, Hu. reflexivity.
    + rewrite Ht, Hu. simpl. apply no_rows_not_member. exact Hfresh.
Qed.

Lemma find_app_last {A : Type} (f : A -> bool) (l : list A) (x : A) :
  f x = true -> exists y, find f (l ++ [x]) = Some y.
Proof.
  intro H. induction l as [|a l IH]; simpl.
  - rewrite H. eauto.
  - destruct (f a); eauto.
Qed.

(** X22. After a registration that succeeded, for a new user id that no
    membership row carried, a login with the same address and password
    passes the check of the credentials (bcrypt accepting the password
    against its own hash) and the check of the memberships, in both
    revisions, and goes on to issue tokens for the registered user and
    the tenant the registration was for. *)
Theorem login_after_register :
  forall (orm : Orm) (L : Libs) (cfg : Config) (env env2 : Env) (dto : RegisterDto)
         (w w' : World) (resp : AuthResponse) (fs : list bool),
    register orm L cfg env dto w = (Ok resp, w') ->
    (forall m, In m (tenantUsers (db w)) -> tu_userId m <> uuid_user env) ->
    bcrypt_compare L (rd_password dto)
      (bcrypt_hash L (rd_password dto) 12 (salt env)) = true ->
    hd false fs = false ->
    hd false (tl fs) = false ->
    exists tid,
      jwt_signAsync L (mkJwtPayload (uuid_user env) tid) (refreshOptions cfg) (now env)
      = Some (tp_refreshToken (ar_tokens resp))
      /\ login orm L cfg env2 (mkLoginDto (rd_email dto) (rd_password dto))
           (mkWorld (db w') fs)
         = AuthService.generateTokens L cfg env2 (uuid_user env) tid
             (mkWorld (db w') (tl (tl fs))).
Proof.
  intros orm L cfg env env2 dto w w' resp fs H Hfresh Hpw Hf1 Hf2.
  apply register_Ok in H.
  destruct H as (user & tid & w1 & w2 & Hnone & Hdb1 & Htx & Hgen).
  rewrite <- Hdb1 in Hfresh, Hnone.
  pose proof (registerTransaction_Ok _ _ _ _ _ _ _ _ Htx) as (Hus & _).
  pose proof (registerTransaction_rows _ _ _ _ _ _ _ _ Htx) as (Hrow & Hten).
  destruct (registerTransaction_membership _ _ _ _ _ _ _ _ Hfresh Htx) as [role Hms].
  apply generateTokens_Ok in Hgen. destruct Hgen as (_ & Hr & Hdb3 & _).
  assert (Hid : u_id user = uuid_user env) by (rewrite Hrow; reflexivity).
  rewrite Hid in Hr. exists tid. split; [exact Hr |].
  assert (Hfind : find (fun u => String.eqb (u_email u) (rd_email dto)) (users (db w'))
                  = Some user).
  { rewrite Hdb3. simpl. rewrite Hus, (find_app_None _ _ _ Hnone). simpl.
    rewrite Hrow. simpl. rewrite String.eqb_refl. reflexivity. }
  assert (Hmem : filter (fun m => String.eqb (tu_userId m) (uuid_user env))
                   (tenantUsers (db w'))
                 = [mkTenantUser (uuid_user env) tid role (now env)]).
  { rewrite Hdb3. simpl. rewrite Hms, filter_app.
    rewrite (proj2 (no_rows_not_member (uuid_user env) tid _ Hfresh)).
    simpl. rewrite String.eqb_refl. reflexivity. }
  assert (Hten' : exists t, find (fun t => String.eqb (t_id t) tid) (tenants (db w'))
                            = Some t).
  { rewrite Hdb3. simpl. destruct (truthy (rd_tenantId dto)).
    - destruct Hten as (_ & Heq & t & Ht). rewrite Heq. eauto.
    - destruct Hten as (-> & Heq). rewrite Heq. apply find_app_last.
      simpl. apply String.eqb_refl. }
  destruct Hten' as [t Ht].
  assert (Htid : t_id t = tid).
  { apply find_some in Ht. destruct Ht as [_ Ht]. apply String.eqb_eq in Ht. exact Ht. }
  assert (Hpw' : bcrypt_compare L (rd_password dto) (u_password user) = true).
  { rewrite Hrow. simpl. exact Hpw. }
  destruct w' as [d' fs']. cbn [db] in *.
  destruct orm; simpl; unfold PrismaAuthService.login, TypeOrmAuthService.login;
    exec; cbn [ld_email ld_password]; rewrite Hf1, Hfind; exec;
    rewrite Hpw'; cbn [negb]; exec; rewrite Hf2, Hid, Hmem.
  - reflexivity.
  - cbn [Store.orderBy_createdAt_asc fold_right Store.insert_by_createdAt map].
    unfold Store.with_tenant. cbn [tu_tenantId traverse UserRepository.toTenantWithRole
      fst snd]. rewrite Ht. unfold UserRepository.toTenantWithRole.
    cbn [fst snd twr_id]. rewrite Htid. reflexivity.
Qed.

Lemma login_after_register_witness :
  exists tid,
    jwt_signAsync Demo.libs (mkJwtPayload "user-1" tid) (refreshOptions Demo.config) 6000
    = Some "refresh-secret.user-1.tenant-1.2592006"
    /\ login TypeORM Demo.libs Demo.config (Demo.env 9000 "2")
         (mkLoginDto "carol@example.com" "Password1!")
         (mkWorld (db (after (register TypeORM Demo.libs Demo.config (Demo.env 6000 "1")
                                (mkRegisterDto "carol@example.com" "Password1!" None
                                   None None)) Demo.world)) [])
       = AuthService.generateTokens Demo.libs Demo.config (Demo.env 9000 "2")
           "user-1" tid
           (mkWorld (db (after (register TypeORM Demo.libs Demo.config
                                  (Demo.env 6000 "1")
                                  (mkRegisterDto "carol@example.com" "Password1!" None
                                     None None)) Demo.world)) []).
Proof.
  apply (login_after_register TypeORM Demo.libs Demo.config (Demo.env 6000 "1")
           (Demo.env 9000 "2")
           (mkRegisterDto "carol@example.com" "Password1!" None None None)
           Demo.world
           (after (register TypeORM Demo.libs Demo.config (Demo.env 6000 "1")
                     (mkRegisterDto "carol@example.com" "Password1!" None None None))
              Demo.world)
           (mkAuthResponse
              (mkUserProfile "user-1" "carol@example.com" None None 6000)
              (mkTokenPair "access-secret.user-1.tenant-1.604806"
                 "refresh-secret.user-1.tenant-1.2592006"))
           []).
  - vm_compute. reflexivity.
  - intros m Hm. vm_compute in Hm. destruct Hm as [<- | [<- | []]]; discriminate.
  - reflexivity.
  - reflexivity.
  - reflexivity.
Defined.

(** ** Removing a user *)

Lemma findById_found (id : string) (w w1 : World) (e : UserEntity) :
  UserRepository.findById id w = (Ok (Some e), w1) ->
  db w1 = db w
  /\ exists u, find (fun u => String.eqb (u_id u) id) (users (db w)) = Some u.
Proof.
  destruct w as [d fs]. intro H. exec_in H. cbn [db].
  destruct (hd false fs); [discriminate H |].
  destruct (find (fun u => String.eqb (u_id u) id) (users d)) as [u|];
    [| discriminate H].
  split; [| exists u; reflexivity].
  destruct (traverse UserMapper.toEntry _) as [entries|ex]; inv H; reflexivity.
Qed.

Lemma findById_absent (id : string) (d : DB) (fs : list bool) :
  hd false fs = false ->
  find (fun u => String.eqb (u_id u) id) (users d) = None ->
  UserRepository.findById id (mkWorld d fs) = (Ok None, mkWorld d (tl fs)).
Proof.
  intros Hf Hn. exec. rewrite Hf, Hn. reflexivity.
Qed.

Lemma filter_filter_other {A : Type} (key : A -> string) (id other : string)
    (l : list A) :
  filter (fun x => String.eqb (key x) other)
    (filter (fun x => negb (String.eqb (key x) id)) l)
  = if String.eqb other id then []
    else filter (fun x => String.eqb (key x) other) l.
Proof.
  induction l as [|a l IH]; simpl.
  - destruct (String.eqb other id); reflexivity.
  - destruct (String.eqb (key a) id) eqn:Ea; simpl.
    + rewrite IH. destruct (String.eqb other id) eqn:Eo; [reflexivity |].
      apply String.eqb_eq in Ea. rewrite Ea, String.eqb_sym, Eo. reflexivity.
    + rewrite IH. destruct (String.eqb other id) eqn:Eo; [| reflexivity].
      apply String.eqb_eq in Eo. subst other. rewrite Ea. reflexivity.
Qed.

Lemma find_filter_neg {A : Type} (key : A -> string) (id : string) (l : list A) :
  find (fun x => String.eqb (key x) id)
    (filter (fun x => negb (String.eqb (key x) id)) l) = None.
Proof.
  induction l as [|a l IH]; simpl; [reflexivity |].
  destruct (String.eqb (key a) id) eqn:Ea; simpl; [exact IH |].
  rewrite Ea. exact IH.
Qed.

(** X23. [UsersService.remove], when it returns, has deleted the user
    together with their refresh tokens and their memberships (the
    cascades of the schema), has kept the refresh tokens and memberships
    of every other user and all the tenants, and a later [findMe] of the
    same id throws [UserNotFoundException]. *)
Theorem remove_deletes_user_and_sessions :
  forall (id : string) (w w' : World) (r : LogoutResponse),
    UsersService.remove id w = (Returned r, w') ->
    tokens_of (db w') id = []
    /\ memberships_of (db w') id = []
    /\ (forall other, other <> id ->
          tokens_of (db w') other = tokens_of (db w) other
          /\ memberships_of (db w') other = memberships_of (db w) other)
    /\ tenants (db w') = tenants (db w)
    /\ forall fs, hd false fs = false ->
         UsersService.findMe id (mkWorld (db w') fs)
         = (Thrown (UserNotFoundException id), mkWorld (db w') (tl fs)).
Proof.
  intros id w w' r H. unfold UsersService.remove, await in H.
  destruct (UserRepository.findById id w) as [[[e|]|ex] w1] eqn:Hf;
    try discriminate H.
  apply findById_found in Hf. destruct Hf as [Hdb _].
  destruct (UserRepository.delete id w1) as [[[]|ex] w2] eqn:Hd;
    [| discriminate H].
  inv H. apply store_Ok in Hd. destruct Hd as (_ & Hq & _).
  unfold Store.user_delete in Hq. rewrite Hdb in Hq.
  destruct (existsb _ (users (db w))); [| discriminate Hq].
  inv Hq. unfold tokens_of, memberships_of.
  cbn [users tenants tenantUsers refreshTokens].
  rewrite !filter_filter_other, String.eqb_refl.
  repeat split.
  - rewrite filter_filter_other.
    destruct (String.eqb other id) eqn:E; [| reflexivity].
    apply String.eqb_eq in E. contradiction.
  - rewrite filter_filter_other.
    destruct (String.eqb other id) eqn:E; [| reflexivity].
    apply String.eqb_eq in E. contradiction.
  - intros fs Hfs. unfold UsersService.findMe, await.
    rewrite findById_absent; [reflexivity | exact Hfs |].
    cbn [users]. apply find_filter_neg.
Qed.

Lemma remove_deletes_user_and_sessions_witness :
  tokens_of (db (snd (UsersService.remove "u1" Demo.world))) "u1" = []
  /\ memberships_of (db (snd (UsersService.remove "u1" Demo.world))) "u1" = [].
Proof.
  destruct (remove_deletes_user_and_sessions "u1" Demo.world
              (snd (UsersService.remove "u1" Demo.world))
              (mkLogoutResponse "User deleted successfully"))
    as (H1 & H2 & _).
  - vm_compute. reflexivity.
  - split; [exact H1 | exact H2].
Defined.

(** ** The transaction of the TypeORM revision

    [markAsAccepted] is called on the repository inside the callback of
    [dataSource.transaction], so the flag of the invitation is committed
    before the membership is. *)

Lemma find_None_existsb {A : Type} (f : A -> bool) (l : list A) :
  find f l = None -> existsb f l = false.
Proof.
  induction l as [|a l IH]; simpl; [reflexivity |].
  destruct (f a); [discriminate | exact IH].
Qed.

Lemma find_Some_existsb {A : Type} (f : A -> bool) (l : list A) (x : A) :
  find f l = Some x -> existsb f l = true.
Proof.
  intro H. apply find_some in H. apply existsb_exists. exists x. exact H.
Qed.

(** The store answers the three statements of the callback and the
    connection is lost at COMMIT. *)
Lemma typeorm_joinTenant_commit_fails (env : Env) (user : User) (i : Invitation)
    (d : DB) (fs : list bool) :
  existsb (fun u => String.eqb (u_id u) (u_id user)) (users d) = true ->
  existsb (fun t => String.eqb (t_id t) (inv_tenantId i)) (tenants d) = true ->
  existsb (fun j => String.eqb (inv_id j) (inv_id i)) (invitations d) = true ->
  joinTenant TypeORM env user i (mkWorld d (false :: false :: false :: true :: fs))
  = (Err (DatabaseError ConnectionError),
     mkWorld (set_invitations d
                (map (fun j => if String.eqb (inv_id j) (inv_id i)
                               then Store.set_accepted j else j)
                   (invitations d))) fs).
Proof.
  intros Hu Ht Hi. simpl.
  unfold TypeOrmAuthService.joinTenant, transaction_beside, commit,
    InvitationRepository.markAsAccepted.
  exec. cbn [hd tl].
  destruct (find (Store.is_member (u_id user) (inv_tenantId i)) (tenantUsers d))
    as [existing|] eqn:Hex.
  - pose proof (find_Some_existsb _ _ _ Hex) as Hex'.
    apply find_some in Hex. destruct Hex as [_ Hm].
    unfold Store.is_member in Hm. apply andb_true_iff in Hm.
    destruct Hm as [Hmu Hmt]. apply String.eqb_eq in Hmu, Hmt. rewrite Hmu, Hmt.
    unfold Store.tenantUser_upsert, Store.tenantUser_update_role. rewrite Hex'.
    destruct (find (Store.is_member (u_id user) (inv_tenantId i)) (tenantUsers d))
      as [m0|] eqn:Hm0; [| apply find_None_existsb in Hm0; congruence].
    exec. cbn [hd tl]. unfold Store.invitation_update_accepted.
    cbn [set_tenantUsers invitations]. rewrite Hi. exec. cbn [hd tl]. reflexivity.
  - apply find_None_existsb in Hex.
    unfold Store.tenantUser_upsert, Store.tenantUser_create. rewrite Hex, Hu, Ht.
    cbn [negb]. exec. cbn [hd tl]. unfold Store.invitation_update_accepted.
    cbn [set_tenantUsers invitations]. rewrite Hi. exec. cbn [hd tl]. reflexivity.
Qed.

Lemma typeorm_acceptInvitation_commit_fails (L : Libs) (cfg : Config) (env : Env)
    (dto : AcceptInvitationDto) (w w1 : World) (i : Invitation) (u : User)
    (fs : list bool) :
  hd false (faults w) = false ->
  find (fun i => String.eqb (inv_token i) (ad_token dto)) (invitations (db w)) = Some i ->
  inv_accepted i = false ->
  InvitationEntity.isExpired env i = false ->
  existsb (fun t => String.eqb (t_id t) (inv_tenantId i)) (tenants (db w)) = true ->
  invitedUser TypeORM L env i dto (mkWorld (db w) (tl (faults w))) = (Ok u, w1) ->
  faults w1 = false :: false :: false :: true :: fs ->
  acceptInvitation TypeORM L cfg env dto w
  = (Err (DatabaseError ConnectionError),
     mkWorld (set_invitations (db w1)
                (map (fun j => if String.eqb (inv_id j) (inv_id i)
                               then Store.set_accepted j else j)
                   (invitations (db w)))) fs).
Proof.
  intros Hf Hfind Hna Hne Hten Hu Hfs.
  pose proof (invitedUser_Ok _ _ _ _ _ _ _ _ Hu) as (_ & Hcase). simpl in Hcase.
  assert (Hd1 : existsb (fun x => String.eqb (u_id x) (u_id u)) (users (db w1)) = true
                /\ tenants (db w1) = tenants (db w)
                /\ invitations (db w1) = invitations (db w)).
  { destruct Hcase as [[Hfu Hd] | (_ & _ & _ & Hd)]; rewrite Hd; simpl.
    - split; [| auto]. apply find_some in Hfu. destruct Hfu as [Hin _].
      apply existsb_exists. exists u. split; [exact Hin | apply String.eqb_refl].
    - split; [| auto]. apply existsb_app_last. apply String.eqb_refl. }
  destruct Hd1 as (Hex & Ht1 & Hi1).
  rewrite acceptInvitation_eq.
  unfold bind at 1. unfold InvitationRepository.findByToken, store.
  rewrite Hf. unfold Store.invitation_findUnique_token. rewrite Hfind, Hna, Hne.
  unfold bind. rewrite Hu.
  destruct w1 as [d1 fs1]. simpl in Hfs, Hex, Ht1, Hi1. subst fs1.
  rewrite typeorm_joinTenant_commit_fails.
  - cbn [db]. rewrite Hi1. reflexivity.
  - exact Hex.
  - rewrite Ht1. exact Hten.
  - rewrite Hi1. apply find_some in Hfind. destruct Hfind as [Hin _].
    apply existsb_exists. exists i. split; [exact Hin | apply String.eqb_refl].
Qed.

Lemma find_token_after_accept (token : string) (i : Invitation) (l : list Invitation) :
  find (fun j => String.eqb (inv_token j) token) l = Some i ->
  find (fun j => String.eqb (inv_token j) token)
    (map (fun j => if String.eqb (inv_id j) (inv_id i)
                   then Store.set_accepted j else j) l)
  = Some (Store.set_accepted i).
Proof.
  intro H. rewrite find_map_same_key.
  - rewrite H. simpl. rewrite String.eqb_refl. reflexivity.
  - intro x. destruct (String.eqb (inv_id x) (inv_id i)); reflexivity.
Qed.

(** C4. The acceptance of the TypeORM revision is not atomic. For a
    pending invitation that has not expired, to a tenant that exists,
    when the store answers every statement of the call and the connection
    is lost at the COMMIT of the transaction: [acceptInvitation] fails,
    the memberships are what they were, and the invitation is accepted.
    Every later acceptance with its token is then refused with
    [InvitationAlreadyAcceptedException], in both revisions, and writes
    nothing: the invitation is used up and nobody has joined. *)
Theorem typeorm_acceptance_is_not_atomic :
  forall (L : Libs) (cfg : Config) (env : Env) (dto : AcceptInvitationDto)
         (w w1 : World) (i : Invitation) (u : User) (fs : list bool),
    hd false (faults w) = false ->
    find (fun i => String.eqb (inv_token i) (ad_token dto)) (invitations (db w))
    = Some i ->
    inv_accepted i = false ->
    InvitationEntity.isExpired env i = false ->
    existsb (fun t => String.eqb (t_id t) (inv_tenantId i)) (tenants (db w)) = true ->
    invitedUser TypeORM L env i dto (mkWorld (db w) (tl (faults w))) = (Ok u, w1) ->
    faults w1 = false :: false :: false :: true :: fs ->
    fst (acceptInvitation TypeORM L cfg env dto w) = Err (DatabaseError ConnectionError)
    /\ tenantUsers (db (after (acceptInvitation TypeORM L cfg env dto) w))
       = tenantUsers (db w)
    /\ find (fun i => String.eqb (inv_token i) (ad_token dto))
         (invitations (db (after (acceptInvitation TypeORM L cfg env dto) w)))
       = Some (Store.set_accepted i)
    /\ forall (orm : Orm) (env' : Env) (fs' : list bool),
         hd false fs' = false ->
         fst (acceptInvitation orm L cfg env' dto
                (mkWorld (db (after (acceptInvitation TypeORM L cfg env dto) w)) fs'))
         = Err InvitationAlreadyAcceptedException
         /\ db (after (acceptInvitation orm L cfg env' dto)
                  (mkWorld (db (after (acceptInvitation TypeORM L cfg env dto) w)) fs'))
            = db (after (acceptInvitation TypeORM L cfg env dto) w).
Proof.
  intros L cfg env dto w w1 i u fs Hf Hfind Hna Hne Hten Hu Hfs.
  pose proof (typeorm_acceptInvitation_commit_fails L cfg env dto w w1 i u fs
                Hf Hfind Hna Hne Hten Hu Hfs) as E.
  pose proof (invitedUser_Ok _ _ _ _ _ _ _ _ Hu) as (_ & Hcase). simpl in Hcase.
  assert (Hms : tenantUsers (db w1) = tenantUsers (db w)).
  { destruct Hcase as [[_ Hd] | (_ & _ & _ & Hd)]; rewrite Hd; reflexivity. }
  unfold after. rewrite E. cbn [fst snd db set_invitations tenantUsers invitations].
  pose proof (find_token_after_accept _ _ _ Hfind) as Hacc.
  split; [reflexivity |]. split; [exact Hms |]. split; [exact Hacc |].
  intros orm env' fs' Hfs'.
  destruct (acceptInvitation_replay orm L cfg env' dto
              (mkWorld (mkDB (users (db w1)) (tenants (db w1)) (tenantUsers (db w1))
                          (refreshTokens (db w1))
                          (map (fun j => if String.eqb (inv_id j) (inv_id i)
                                         then Store.set_accepted j else j)
                             (invitations (db w)))) fs')
              (Store.set_accepted i) Hacc eq_refl) as (Hdb & _ & Hrefused).
  split; [apply Hrefused; exact Hfs' | exact Hdb].
Qed.

(** The theorem at bob's acceptance of his invitation to Acme, bob being
    a user already: the connection is lost at the sixth round trip, the
    COMMIT. *)
Lemma typeorm_acceptance_is_not_atomic_witness :
  fst (acceptInvitation TypeORM Demo.libs Demo.config (Demo.env 6000 "1")
         (mkAcceptInvitationDto "inv-token-1" None)
         (mkWorld Demo.databaseWithBob [false; false; false; false; false; true]))
  = Err (DatabaseError ConnectionError)
  /\ tenantUsers
       (db (after (acceptInvitation TypeORM Demo.libs Demo.config (Demo.env 6000 "1")
                     (mkAcceptInvitationDto "inv-token-1" None))
              (mkWorld Demo.databaseWithBob [false; false; false; false; false; true])))
     = [Demo.aliceBolt; Demo.aliceAcme]
  /\ find (fun i => String.eqb (inv_token i) "inv-token-1")
       (invitations
          (db (after (acceptInvitation TypeORM Demo.libs Demo.config (Demo.env 6000 "1")
                        (mkAcceptInvitationDto "inv-token-1" None))
                 (mkWorld Demo.databaseWithBob
                    [false; false; false; false; false; true]))))
     = Some (Store.set_accepted Demo.bobInvitation)
  /\ fst (acceptInvitation TypeORM Demo.libs Demo.config (Demo.env 7000 "2")
            (mkAcceptInvitationDto "inv-token-1" None)
            (mkWorld
               (db (after (acceptInvitation TypeORM Demo.libs Demo.config
                             (Demo.env 6000 "1")
                             (mkAcceptInvitationDto "inv-token-1" None))
                      (mkWorld Demo.databaseWithBob
                         [false; false; false; false; false; true]))) []))
     = Err InvitationAlreadyAcceptedException.
Proof.
  destruct (typeorm_acceptance_is_not_atomic Demo.libs Demo.config (Demo.env 6000 "1")
              (mkAcceptInvitationDto "inv-token-1" None)
              (mkWorld Demo.databaseWithBob [false; false; false; false; false; true])
              (mkWorld Demo.databaseWithBob [false; false; false; true])
              Demo.bobInvitation Demo.bob [])
    as (H1 & H2 & H3 & H4);
    try reflexivity.
  split; [exact H1 |]. split; [exact H2 |]. split; [exact H3 |].
  exact (proj1 (H4 TypeORM (Demo.env 7000 "2") [] eq_refl)).
Defined.

(** C10. In the TypeORM revision, when no user has the address of a
    pending invitation and the request has a password, the new user is
    written before the transaction; when the store then answers every
    statement of the transaction and the connection is lost at COMMIT,
    [acceptInvitation] fails, the new user stays in the store, no
    membership has been written, and the invitation is accepted. *)
Theorem typeorm_failed_commit_leaves_invitation_accepted :
  forall (L : Libs) (cfg : Config) (env : Env) (dto : AcceptInvitationDto)
         (w w1 : World) (i : Invitation) (u : User) (fs : list bool),
    hd false (faults w) = false ->
    find (fun i => String.eqb (inv_token i) (ad_token dto)) (invitations (db w))
    = Some i ->
    inv_accepted i = false ->
    InvitationEntity.isExpired env i = false ->
    existsb (fun t => String.eqb (t_id t) (inv_tenantId i)) (tenants (db w)) = true ->
    find (fun u => String.eqb (u_email u) (inv_email i)) (users (db w)) = None ->
    invitedUser TypeORM L env i dto (mkWorld (db w) (tl (faults w))) = (Ok u, w1) ->
    faults w1 = false :: false :: false :: true :: fs ->
    fst (acceptInvitation TypeORM L cfg env dto w) = Err (DatabaseError ConnectionError)
    /\ truthy (ad_password dto) = true
    /\ u = mkUser (uuid_user env) (inv_email i)
             (bcrypt_hash L (the (ad_password dto)) 12 (salt env)) None None (now env)
    /\ users (db (after (acceptInvitation TypeORM L cfg env dto) w))
       = (users (db w) ++ [u])%list
    /\ tenantUsers (db (after (acceptInvitation TypeORM L cfg env dto) w))
       = tenantUsers (db w)
    /\ invitations (db (after (acceptInvitation TypeORM L cfg env dto) w))
       = map (fun j => if String.eqb (inv_id j) (inv_id i)
                       then Store.set_accepted j else j) (invitations (db w))
    /\ exists i', In i' (invitations (db (after (acceptInvitation TypeORM L cfg env dto) w)))
                  /\ inv_id i' = inv_id i /\ inv_accepted i' = true.
Proof.
  intros L cfg env dto w w1 i u fs Hf Hfind Hna Hne Hten Hnone Hu Hfs.
  pose proof (typeorm_acceptInvitation_commit_fails L cfg env dto w w1 i u fs
                Hf Hfind Hna Hne Hten Hu Hfs) as E.
  pose proof (invitedUser_created TypeORM L env i dto (mkWorld (db w) (tl (faults w)))
                w1 u Hnone Hu) as (Hpw & Hrow & Hd1).
  simpl in Hd1.
  unfold after. rewrite E. cbn [fst snd db set_invitations users tenantUsers invitations].
  rewrite Hd1. cbn [set_users users tenantUsers].
  repeat (split; [solve [auto] |]).
  exists (Store.set_accepted i). split; [| split; reflexivity].
  apply find_token_after_accept in Hfind. apply find_some in Hfind. apply Hfind.
Qed.

(** The theorem at bob's acceptance of his invitation to Acme with a
    password, no user having his address: the connection is lost at the
    seventh round trip, the COMMIT. *)
Lemma typeorm_failed_commit_leaves_invitation_accepted_witness :
  fst (acceptInvitation TypeORM Demo.libs Demo.config (Demo.env 6000 "1")
         (mkAcceptInvitationDto "inv-token-1" (Some "Password1!"))
         (mkWorld Demo.database [false; false; false; false; false; false; true]))
  = Err (DatabaseError ConnectionError)
  /\ users
       (db (after (acceptInvitation TypeORM Demo.libs Demo.config (Demo.env 6000 "1")
                     (mkAcceptInvitationDto "inv-token-1" (Some "Password1!")))
              (mkWorld Demo.database
                 [false; false; false; false; false; false; true])))
     = [Demo.alice; mkUser "user-1" "bob@example.com" "$2b$Password1!" None None 6000]
  /\ tenantUsers
       (db (after (acceptInvitation TypeORM Demo.libs Demo.config (Demo.env 6000 "1")
                     (mkAcceptInvitationDto "inv-token-1" (Some "Password1!")))
              (mkWorld Demo.database
                 [false; false; false; false; false; false; true])))
     = [Demo.aliceBolt; Demo.aliceAcme]
  /\ invitations
       (db (after (acceptInvitation TypeORM Demo.libs Demo.config (Demo.env 6000 "1")
                     (mkAcceptInvitationDto "inv-token-1" (Some "Password1!")))
              (mkWorld Demo.database
                 [false; false; false; false; false; false; true])))
     = [Store.set_accepted Demo.bobInvitation].
Proof.
  destruct (typeorm_failed_commit_leaves_invitation_accepted Demo.libs Demo.config
              (Demo.env 6000 "1")
              (mkAcceptInvitationDto "inv-token-1" (Some "Password1!"))
              (mkWorld Demo.database [false; false; false; false; false; false; true])
              (mkWorld (set_users Demo.database
                          [Demo.alice;
                           mkUser "user-1" "bob@example.com" "$2b$Password1!" None None
                             6000])
                 [false; false; false; true])
              Demo.bobInvitation
              (mkUser "user-1" "bob@example.com" "$2b$Password1!" None None 6000) [])
    as (H1 & _ & _ & H4 & H5 & H6 & _);
    try reflexivity.
  split; [exact H1 |]. split; [exact H4 |]. split; [exact H5 | exact H6].
Defined.
